(** * gh-review-conductor: the interactive selector of package ui

    A shallow embedding of [pkg/ui]'s selector (the bubbletea model
    [SelectionModel], its [Update] function and the helpers it calls)
    and the properties of the modal selection engine proved about it.

    Conventions of the embedding:
    - a Go [int] is a [Z], additions wrapped to 64 bits ([int_add]);
    - a Go [string] is a [string] (a sequence of bytes);
    - a Go [(v, error)] pair is an [errable]: the callers below never look
      at the value once the error is non-nil;
    - the record [SelectionModel] is passed and returned explicitly; the
      operating system (temporary files, environment) and a ghost trace
      of the callbacks invoked live in [World], threaded through every
      function that touches them;
    - the widgets of the bubbles library ([list.Model], [viewport.Model])
      are not part of the repository: they are an interface
      ([Toolkit]) the engine is parametric in. *)

From Stdlib Require Import ZArith List Bool Ascii String DecimalString Lia Sorted.
From stdpp Require Import base option gmap strings.
Import ListNotations.

Local Open Scope string_scope.
Local Open Scope Z_scope.

(** ** Go primitives *)

Module Go.

(** A [(value, error)] return: the error is carried by its message. *)
Inductive errable (A : Type) : Type :=
| Ok (a : A)
| Err (e : string).
Arguments Ok {A} a.
Arguments Err {A} e.

Definition is_err {A} (r : errable A) : bool :=
  match r with Ok _ => false | Err _ => true end.

(** [int] is 64 bits wide: [a + b] wraps around. *)
Definition wrap_int (z : Z) : Z :=
  (z + 2 ^ 63) mod 2 ^ 64 - 2 ^ 63.

Definition int_add (a b : Z) : Z := wrap_int (a + b).

Definition int_sub (a b : Z) : Z := wrap_int (a - b).

(** [a % b] truncates towards zero; the caller handles [b = 0]. *)
Definition int_rem (a b : Z) : Z := Z.rem a b.

(** [len(l)] as an [int]. *)
Definition len {A} (l : list A) : Z := Z.of_nat (length l).

(** [fmt.Sprintf("%d", z)]. *)
Definition itoa (z : Z) : string := NilZero.string_of_int (Z.to_int z).

Definition LF : ascii := "010"%char.
Definition nl : string := String LF "".

(** [strings.HasPrefix(s, p)]. *)
Definition HasPrefix (s p : string) : bool := String.prefix p s.

(** [strings.TrimPrefix(s, p)]. *)
Definition TrimPrefix (s p : string) : string :=
  if HasPrefix s p
  then String.substring (String.length p) (String.length s - String.length p) s
  else s.

(** [strings.Contains(s, sub)]: some suffix of [s] starts with [sub]. *)
Fixpoint Contains (s sub : string) : bool :=
  HasPrefix s sub ||
  match s with
  | EmptyString => false
  | String _ s' => Contains s' sub
  end.

(** [strings.Split(s, "\n")]: never empty, the empty string gives one
    empty line. *)
Fixpoint SplitLines (s : string) : list string :=
  match s with
  | EmptyString => [EmptyString]
  | String c s' =>
      if Ascii.eqb c LF then EmptyString :: SplitLines s'
      else match SplitLines s' with
           | l :: ls => String c l :: ls
           | [] => [String c EmptyString]
           end
  end.

(** [strings.Join(ls, "\n")]. *)
Fixpoint JoinLines (ls : list string) : string :=
  match ls with
  | [] => EmptyString
  | [l] => l
  | l :: ls' => l ++ nl ++ JoinLines ls'
  end.

(** The white space of Go's [asciiSpace] table: tab, line feed, vertical
    tab, form feed, carriage return and space. *)
Definition isSpace (c : ascii) : bool :=
  let n := nat_of_ascii c in
  (Nat.eqb n 32 || (Nat.leb 9 n && Nat.leb n 13))%bool.

(** The white space of [unicode.IsSpace] in a string of bytes: the width
    of the white space rune whose UTF-8 encoding starts [s], 0 when none
    does.  The runes are those of [asciiSpace], U+0085 and U+00A0
    (C2 85, C2 A0), U+1680 (E1 9A 80), U+2000 to U+200A, U+2028, U+2029
    and U+202F (E2 80 ..), U+205F (E2 81 9F) and U+3000 (E3 80 80).  None
    of these encodings starts with a continuation byte and all of them
    are well formed, so they are found exactly at the places where
    [range s] decodes such a rune. *)
Definition spaceWidth (s : string) : nat :=
  match s with
  | EmptyString => 0
  | String c0 s1 =>
      if isSpace c0 then 1
      else
        let b0 := nat_of_ascii c0 in
        match s1 with
        | EmptyString => 0
        | String c1 s2 =>
            let b1 := nat_of_ascii c1 in
            if (Nat.eqb b0 194 && (Nat.eqb b1 133 || Nat.eqb b1 160))%bool then 2
            else
              match s2 with
              | EmptyString => 0
              | String c2 _ =>
                  let b2 := nat_of_ascii c2 in
                  if (Nat.eqb b0 225 && Nat.eqb b1 154 && Nat.eqb b2 128)%bool then 3
                  else if (Nat.eqb b0 226 && Nat.eqb b1 128
                           && ((Nat.leb 128 b2 && Nat.leb b2 138)
                               || Nat.eqb b2 168 || Nat.eqb b2 169 || Nat.eqb b2 175))%bool
                  then 3
                  else if (Nat.eqb b0 226 && Nat.eqb b1 129 && Nat.eqb b2 159)%bool then 3
                  else if (Nat.eqb b0 227 && Nat.eqb b1 128 && Nat.eqb b2 128)%bool then 3
                  else 0
              end
        end
  end.

(** Nothing but white space runes; [skip] counts the bytes of a white
    space rune that are still to be passed. *)
Fixpoint allSpaceFrom (skip : nat) (s : string) : bool :=
  match s with
  | EmptyString => true
  | String _ s' =>
      match skip with
      | S k => allSpaceFrom k s'
      | O =>
          match spaceWidth s with
          | S k => allSpaceFrom k s'
          | O => false
          end
      end
  end.

Definition allSpace (s : string) : bool := allSpaceFrom 0 s.

(** [strings.TrimLeftFunc(s, unicode.IsSpace)]. *)
Fixpoint TrimLeftFrom (skip : nat) (s : string) : string :=
  match s with
  | EmptyString => EmptyString
  | String _ s' =>
      match skip with
      | S k => TrimLeftFrom k s'
      | O =>
          match spaceWidth s with
          | S k => TrimLeftFrom k s'
          | O => s
          end
      end
  end.

Definition TrimLeftSpace (s : string) : string := TrimLeftFrom 0 s.

(** [strings.TrimRightFunc(s, unicode.IsSpace)]: cut where nothing but
    white space runes follows. *)
Fixpoint TrimRightSpace (s : string) : string :=
  match s with
  | EmptyString => EmptyString
  | String c s' => if allSpace s then EmptyString else String c (TrimRightSpace s')
  end.

(** [strings.TrimSpace(s)]. *)
Definition TrimSpace (s : string) : string :=
  TrimRightSpace (TrimLeftSpace s).

(** [strings.Fields(s)], which is [strings.FieldsFunc(s, unicode.IsSpace)]:
    the maximal runs of bytes between white space runes.  [cur] is the
    field being read, [skip] the number of bytes of a white space rune
    still to be dropped. *)
Fixpoint FieldsFrom (skip : nat) (cur : string) (s : string) : list string :=
  match s with
  | EmptyString => if String.eqb cur "" then [] else [cur]
  | String c s' =>
      match skip with
      | S k => FieldsFrom k cur s'
      | O =>
          match spaceWidth s with
          | S k => if String.eqb cur "" then FieldsFrom k "" s' else cur :: FieldsFrom k "" s'
          | O => FieldsFrom 0 (cur ++ String c "") s'
          end
      end
  end.

Definition Fields (s : string) : list string := FieldsFrom 0 "" s.

(** [strings.SplitN(s, ":", 2)]: cut at the first colon, if any. *)
Fixpoint SplitColon2 (s : string) : list string :=
  match s with
  | EmptyString => [EmptyString]
  | String c s' =>
      if Ascii.eqb c ":"%char then [EmptyString; s']
      else match SplitColon2 s' with
           | l :: ls => String c l :: ls
           | [] => [String c EmptyString]
           end
  end.

(** [case "a", "b", ...] of a switch on a string. *)
Definition is_key (k : string) (ks : list string) : bool :=
  existsb (String.eqb k) ks.

End Go.
Import Go.

(** ** The editor helper *)

Definition isBlankLine (l : string) : bool := String.eqb (TrimSpace l) "".
Definition isCommentLine (l : string) : bool := HasPrefix l "#".

(** The lines of [ls] up to its last line that is neither blank nor a
    comment. *)
Fixpoint dropTrailingComments (ls : list string) : list string :=
  match ls with
  | [] => []
  | l :: ls' =>
      match dropTrailingComments ls' with
      | [] => if (isBlankLine l || isCommentLine l)%bool then [] else [l]
      | r => l :: r
      end
  end.

(** Modelled from the spec: the body of [SanitizeEditorContent] (file
    editor.go of package ui) is not among the source files; only its
    callers, its test table [TestSanitizeEditorContent] and the design
    document are.  The spec says that lines beginning with the comment
    marker [#] are stripped and surrounding white space trimmed; the design
    document says the helper "strips trailing # comment lines", and the
    test table keeps a comment line that is followed by content.  The
    definition drops the trailing run of comment (and blank) lines and
    trims the rest; [sanitize_table] below checks it on every row of the
    test table. *)
Definition SanitizeEditorContent (content : string) : string :=
  TrimSpace (JoinLines (dropTrailingComments (SplitLines content))).

(** The sentence of the spec read literally: every line that begins
    with [#] is removed, wherever it stands. *)
Definition sanitize_every_comment_line (content : string) : string :=
  TrimSpace (JoinLines (List.filter (fun l => negb (isCommentLine l)) (SplitLines content))).

(** The rows of [TestSanitizeEditorContent]: input lines and expected
    lines, both joined by a line feed. *)
Definition sanitize_test_table : list (list string * list string) :=
  [ ([""], [""]);
    (["Line 1"; "Line 2"; "Line 3"], ["Line 1"; "Line 2"; "Line 3"]);
    (["# Comment 1"; "# Comment 2"], [""]);
    (["User content"; "# This is a comment"; "More content"],
     ["User content"; "# This is a comment"; "More content"]);
    (["# Header comment"; "Actual content"], ["# Header comment"; "Actual content"]);
    (["Content here"; "# Footer comment"], ["Content here"]);
    (["  "; ""; "Content"; ""; "  "], ["Content"]);
    (["Line 1"; ""; "Line 2"], ["Line 1"; ""; "Line 2"]);
    (["> @author wrote:"; ">"; "> Original comment"; ""; "My reply here";
      "# Write your comment above. Lines starting with # are ignored."; ""],
     ["> @author wrote:"; ">"; "> Original comment"; ""; "My reply here"]);
    (["Code with # comment"], ["Code with # comment"]);
    (["# Heading"; "Content"], ["# Heading"; "Content"]);
    (["# Heading"; "Content"; "# Template comment"], ["# Heading"; "Content"]) ].

Definition row_ok (f : string -> string) (row : list string * list string) : bool :=
  String.eqb (f (JoinLines (fst row))) (JoinLines (snd row)).

(** A string without line feed: one line. *)
Fixpoint oneLine (s : string) : bool :=
  match s with
  | EmptyString => true
  | String c s' => negb (Ascii.eqb c LF) && oneLine s'
  end.

(** A line that the helper drops at the end of the content. *)
Definition droppable (l : string) : bool := isBlankLine l || isCommentLine l.

(** ** The reaction catalog *)

Record emoji := { name : string; display : string }.

Definition reactionEmojis : list emoji :=
  [ {| name := "+1"; display := "+1" |};
    {| name := "-1"; display := "-1" |};
    {| name := "laugh"; display := "laugh" |};
    {| name := "confused"; display := "confused" |};
    {| name := "heart"; display := "heart" |};
    {| name := "hooray"; display := "hooray" |};
    {| name := "rocket"; display := "rocket" |};
    {| name := "eyes"; display := "eyes" |} ].

(** [reactionEmojis[i]]: [None] stands for the index-out-of-range panic. *)
Definition emoji_at (i : Z) : option emoji :=
  if (0 <=? i) && (i <? len reactionEmojis) then nth_error reactionEmojis (Z.to_nat i)
  else None.


(** ** Quoting a comment (quote.go) *)

(** [FormatBlockquote]: every line of the text behind "> ", the empty
    text giving a bare ">". *)
Definition FormatBlockquote (text : string) : string :=
  if String.eqb text "" then ">"
  else JoinLines (map (String.append "> ") (SplitLines text)).

Section Quote.

(** Two helpers of colors.go, which is not among the source files. *)
Variable FormatDiffWithHeaders : string -> string -> string.
Variable StripSuggestionBlock : string -> string.

(** The slice [parts] of [FormatQuotedReply] before the two empty
    strings that end it. *)
Definition quotedParts (author body diffHunk path : string) (includeContext : bool)
    : list string :=
  let parts :=
    if includeContext && negb (String.eqb diffHunk "")
    then (["> ```diff"]
            ++ map (String.append "> ") (SplitLines (FormatDiffWithHeaders diffHunk path))
            ++ ["> ```"; ">"])%list
    else [] in
  let parts := (parts ++ [FormatBlockquote ("@" ++ author ++ " wrote:"); ">"])%list in
  let cleanBody := StripSuggestionBlock body in
  if negb (String.eqb cleanBody "") then (parts ++ [FormatBlockquote cleanBody])%list
  else parts.

Definition FormatQuotedReply (author body diffHunk path : string) (includeContext : bool)
    : string :=
  JoinLines (quotedParts author body diffHunk path includeContext ++ [""; ""])%list.

End Quote.

(** Every line of the text starts with the blockquote marker. *)
Definition quotedText (s : string) : Prop :=
  Forall (fun l => HasPrefix l ">" = true) (SplitLines s).


(** ** Modes, messages and commands *)

(** The mode that claims the next key press.  [Update] tests the flags of
    the model in this order, and so does [View].  While an editor or an
    agent runs the loop is suspended inside [tea.ExecProcess]: a pending
    editor session has no flag of its own, it is the non-empty
    [pendingEditorTmpFile]. *)
Inductive Mode :=
| Normal | Detail | ThreadPick | ReactionPick | Confirmation | HelpOverlay.

(** The callbacks of [SelectorOptions] that can fail. *)
Inductive Callback :=
| CbOnSelect | CbOnOpen | CbResolveAction
| CbResolveCommentPrepare | CbQuotePrepare | CbQuoteContextPrepare
| CbResolveCommentComplete | CbQuoteComplete | CbQuoteContextComplete
| CbAgentAction | CbEditAction | CbReactionAction | CbReactionComplete.

(** [tea.Cmd]: what [Update] asks the driver to do next. *)
Inductive Cmd :=
| CmdNil                               (* nil *)
| CmdQuit                              (* tea.Quit *)
| CmdStatus (text : string)            (* the command of list.NewStatusMessage(text) *)
| CmdLoadDetail                        (* func() tea.Msg { return loadDetailMsg{} } *)
| CmdRefresh                           (* the closure that calls RefreshItems *)
| CmdExecEditor (argv : list string)   (* tea.ExecProcess, answers editorFinishedMsg *)
| CmdExecAgent (argv : list string)    (* tea.ExecProcess, answers agentFinishedMsg *)
| CmdLibrary (id : nat)                (* a command made by a bubbles widget *)
| CmdBatch (c1 c2 : Cmd).              (* tea.Batch *)

Section Engine.

Context {T : Type}.

(** [tea.Msg] as [Update] distinguishes them. *)
Inductive Msg :=
| WindowSizeMsg (Width Height : Z)
| loadDetailMsg
| refreshFinishedMsg (items : option (list T)) (err : option string)
| editorFinishedMsg (err : option string)
| agentFinishedMsg (err : option string)
| KeyMsg (key : string)                (* msg.String() *)
| LibraryMsg (id : nat).               (* any other message *)

(** The methods of [ItemRenderer] that [Update] calls. *)
Record ItemRenderer := {
  PreviewWithHighlight : T -> Z -> string;
  ThreadCommentCount : T -> Z;
  ThreadCommentPreview : T -> Z -> string;
  WithSelectedComment : T -> Z -> T }.

Definition CustomAction := T -> errable string.
Definition EditorPreparer := T -> errable string.
Definition EditorCompleter := T -> string -> errable string.

(** [SelectorOptions]: an unset callback is [None].  The key labels
    ([ResolveKey], [QuoteKey], ...) and [IsItemResolved] only feed [View]
    and are left out. *)
Record SelectorOptions := {
  Items : list T;
  Renderer : ItemRenderer;
  OnSelect : option CustomAction;
  OnOpen : option CustomAction;
  FilterFunc : option (T -> bool -> bool);
  FilterDefault : bool;
  RefreshItems : option (unit -> errable (list T));
  ResolveAction : option CustomAction;
  ResolveCommentPrepare : option EditorPreparer;
  ResolveCommentComplete : option EditorCompleter;
  QuotePrepare : option EditorPreparer;
  QuoteComplete : option EditorCompleter;
  QuoteContextPrepare : option EditorPreparer;
  QuoteContextComplete : option EditorCompleter;
  AgentAction : option CustomAction;
  EditAction : option CustomAction;
  ReactionAction : option (T -> errable Z);
  ReactionComplete : option (Z -> string -> errable string) }.

(** What the engine uses and the repository does not define: the list and
    viewport widgets of bubbles, [fmt.Sscanf], the zero value of [T], and
    [Colorize] with its colour codes (colors.go is not among the source
    files). *)
Class Toolkit := {
  ListModel : Type;
  Viewport : Type;
  zero : T;
  list_New : list T -> ListModel;
  list_SetSize : ListModel -> Z -> Z -> ListModel;
  list_SelectedItem : ListModel -> option T;
  list_SettingFilter : ListModel -> bool;
  list_Index : ListModel -> Z;
  list_SetItems : ListModel -> list T -> ListModel * Cmd;
  list_SetItem : ListModel -> Z -> T -> ListModel * Cmd;
  list_NewStatusMessage : ListModel -> string -> ListModel;
  list_Update : ListModel -> Msg -> ListModel * Cmd;
  viewport_zero : Viewport;
  viewport_New : Z -> Z -> Viewport;
  viewport_SetContent : Viewport -> string -> Viewport;
  viewport_GotoTop : Viewport -> Viewport;
  viewport_PageDown : Viewport -> Viewport;
  viewport_PageUp : Viewport -> Viewport;
  viewport_SetYOffset : Viewport -> Z -> Viewport;
  viewport_Update : Viewport -> Msg -> Viewport * Cmd;
  Sscanf_d : string -> Z;
  Colorize : string -> string -> string;
  ColorRed : string;
  ColorGreen : string }.

Context {TK : Toolkit}.

(** [SelectionModel]; [lst] is the field [list] of the source. *)
Record SelectionModel := mkModel {
  lst : ListModel;
  items : list T;
  opts : SelectorOptions;
  result : list T;
  filterActive : bool;
  windowSize : Z * Z;
  viewport : Viewport;
  loadingDetail : bool;
  refreshing : bool;
  showHelp : bool;
  confirmationMessage : string;
  reactionMode : bool;
  reactionIdx : Z;
  reactionCommentID : Z;
  showDetail : bool;
  pendingEditorItem : T;
  pendingEditorTmpFile : string;
  pendingEditorAction : Z;
  commentSelectMode : bool;
  commentSelectAction : string;
  commentSelectIdx : Z;
  commentSelectItem : T;
  commentSelectInDetail : bool;
  commentSelectStatus : string }.

Definition set_lst (v : ListModel) (m : SelectionModel) : SelectionModel :=
  mkModel v (items m) (opts m) (result m) (filterActive m) (windowSize m)
    (viewport m) (loadingDetail m) (refreshing m) (showHelp m)
    (confirmationMessage m) (reactionMode m) (reactionIdx m)
    (reactionCommentID m) (showDetail m) (pendingEditorItem m)
    (pendingEditorTmpFile m) (pendingEditorAction m) (commentSelectMode m)
    (commentSelectAction m) (commentSelectIdx m) (commentSelectItem m)
    (commentSelectInDetail m) (commentSelectStatus m).

Definition set_items (v : list T) (m : SelectionModel) : SelectionModel :=
  mkModel (lst m) v (opts m) (result m) (filterActive m) (windowSize m)
    (viewport m) (loadingDetail m) (refreshing m) (showHelp m)
    (confirmationMessage m) (reactionMode m) (reactionIdx m)
    (reactionCommentID m) (showDetail m) (pendingEditorItem m)
    (pendingEditorTmpFile m) (pendingEditorAction m) (commentSelectMode m)
    (commentSelectAction m) (commentSelectIdx m) (commentSelectItem m)
    (commentSelectInDetail m) (commentSelectStatus m).

Definition set_result (v : list T) (m : SelectionModel) : SelectionModel :=
  mkModel (lst m) (items m) (opts m) v (filterActive m) (windowSize m)
    (viewport m) (loadingDetail m) (refreshing m) (showHelp m)
    (confirmationMessage m) (reactionMode m) (reactionIdx m)
    (reactionCommentID m) (showDetail m) (pendingEditorItem m)
    (pendingEditorTmpFile m) (pendingEditorAction m) (commentSelectMode m)
    (commentSelectAction m) (commentSelectIdx m) (commentSelectItem m)
    (commentSelectInDetail m) (commentSelectStatus m).

Definition set_filterActive (v : bool) (m : SelectionModel) : SelectionModel :=
  mkModel (lst m) (items m) (opts m) (result m) v (windowSize m) (viewport
    m) (loadingDetail m) (refreshing m) (showHelp m) (confirmationMessage m)
    (reactionMode m) (reactionIdx m) (reactionCommentID m) (showDetail m)
    (pendingEditorItem m) (pendingEditorTmpFile m) (pendingEditorAction m)
    (commentSelectMode m) (commentSelectAction m) (commentSelectIdx m)
    (commentSelectItem m) (commentSelectInDetail m) (commentSelectStatus m).

Definition set_windowSize (v : Z * Z) (m : SelectionModel) : SelectionModel :=
  mkModel (lst m) (items m) (opts m) (result m) (filterActive m) v (viewport
    m) (loadingDetail m) (refreshing m) (showHelp m) (confirmationMessage m)
    (reactionMode m) (reactionIdx m) (reactionCommentID m) (showDetail m)
    (pendingEditorItem m) (pendingEditorTmpFile m) (pendingEditorAction m)
    (commentSelectMode m) (commentSelectAction m) (commentSelectIdx m)
    (commentSelectItem m) (commentSelectInDetail m) (commentSelectStatus m).

Definition set_viewport (v : Viewport) (m : SelectionModel) : SelectionModel :=
  mkModel (lst m) (items m) (opts m) (result m) (filterActive m) (windowSize
    m) v (loadingDetail m) (refreshing m) (showHelp m) (confirmationMessage
    m) (reactionMode m) (reactionIdx m) (reactionCommentID m) (showDetail m)
    (pendingEditorItem m) (pendingEditorTmpFile m) (pendingEditorAction m)
    (commentSelectMode m) (commentSelectAction m) (commentSelectIdx m)
    (commentSelectItem m) (commentSelectInDetail m) (commentSelectStatus m).

Definition set_loadingDetail (v : bool) (m : SelectionModel) : SelectionModel :=
  mkModel (lst m) (items m) (opts m) (result m) (filterActive m) (windowSize
    m) (viewport m) v (refreshing m) (showHelp m) (confirmationMessage m)
    (reactionMode m) (reactionIdx m) (reactionCommentID m) (showDetail m)
    (pendingEditorItem m) (pendingEditorTmpFile m) (pendingEditorAction m)
    (commentSelectMode m) (commentSelectAction m) (commentSelectIdx m)
    (commentSelectItem m) (commentSelectInDetail m) (commentSelectStatus m).

Definition set_refreshing (v : bool) (m : SelectionModel) : SelectionModel :=
  mkModel (lst m) (items m) (opts m) (result m) (filterActive m) (windowSize
    m) (viewport m) (loadingDetail m) v (showHelp m) (confirmationMessage m)
    (reactionMode m) (reactionIdx m) (reactionCommentID m) (showDetail m)
    (pendingEditorItem m) (pendingEditorTmpFile m) (pendingEditorAction m)
    (commentSelectMode m) (commentSelectAction m) (commentSelectIdx m)
    (commentSelectItem m) (commentSelectInDetail m) (commentSelectStatus m).

Definition set_showHelp (v : bool) (m : SelectionModel) : SelectionModel :=
  mkModel (lst m) (items m) (opts m) (result m) (filterActive m) (windowSize
    m) (viewport m) (loadingDetail m) (refreshing m) v (confirmationMessage
    m) (reactionMode m) (reactionIdx m) (reactionCommentID m) (showDetail m)
    (pendingEditorItem m) (pendingEditorTmpFile m) (pendingEditorAction m)
    (commentSelectMode m) (commentSelectAction m) (commentSelectIdx m)
    (commentSelectItem m) (commentSelectInDetail m) (commentSelectStatus m).

Definition set_confirmationMessage (v : string) (m : SelectionModel) : SelectionModel :=
  mkModel (lst m) (items m) (opts m) (result m) (filterActive m) (windowSize
    m) (viewport m) (loadingDetail m) (refreshing m) (showHelp m) v
    (reactionMode m) (reactionIdx m) (reactionCommentID m) (showDetail m)
    (pendingEditorItem m) (pendingEditorTmpFile m) (pendingEditorAction m)
    (commentSelectMode m) (commentSelectAction m) (commentSelectIdx m)
    (commentSelectItem m) (commentSelectInDetail m) (commentSelectStatus m).

Definition set_reactionMode (v : bool) (m : SelectionModel) : SelectionModel :=
  mkModel (lst m) (items m) (opts m) (result m) (filterActive m) (windowSize
    m) (viewport m) (loadingDetail m) (refreshing m) (showHelp m)
    (confirmationMessage m) v (reactionIdx m) (reactionCommentID m)
    (showDetail m) (pendingEditorItem m) (pendingEditorTmpFile m)
    (pendingEditorAction m) (commentSelectMode m) (commentSelectAction m)
    (commentSelectIdx m) (commentSelectItem m) (commentSelectInDetail m)
    (commentSelectStatus m).

Definition set_reactionIdx (v : Z) (m : SelectionModel) : SelectionModel :=
  mkModel (lst m) (items m) (opts m) (result m) (filterActive m) (windowSize
    m) (viewport m) (loadingDetail m) (refreshing m) (showHelp m)
    (confirmationMessage m) (reactionMode m) v (reactionCommentID m)
    (showDetail m) (pendingEditorItem m) (pendingEditorTmpFile m)
    (pendingEditorAction m) (commentSelectMode m) (commentSelectAction m)
    (commentSelectIdx m) (commentSelectItem m) (commentSelectInDetail m)
    (commentSelectStatus m).

Definition set_reactionCommentID (v : Z) (m : SelectionModel) : SelectionModel :=
  mkModel (lst m) (items m) (opts m) (result m) (filterActive m) (windowSize
    m) (viewport m) (loadingDetail m) (refreshing m) (showHelp m)
    (confirmationMessage m) (reactionMode m) (reactionIdx m) v (showDetail
    m) (pendingEditorItem m) (pendingEditorTmpFile m) (pendingEditorAction
    m) (commentSelectMode m) (commentSelectAction m) (commentSelectIdx m)
    (commentSelectItem m) (commentSelectInDetail m) (commentSelectStatus m).

Definition set_showDetail (v : bool) (m : SelectionModel) : SelectionModel :=
  mkModel (lst m) (items m) (opts m) (result m) (filterActive m) (windowSize
    m) (viewport m) (loadingDetail m) (refreshing m) (showHelp m)
    (confirmationMessage m) (reactionMode m) (reactionIdx m)
    (reactionCommentID m) v (pendingEditorItem m) (pendingEditorTmpFile m)
    (pendingEditorAction m) (commentSelectMode m) (commentSelectAction m)
    (commentSelectIdx m) (commentSelectItem m) (commentSelectInDetail m)
    (commentSelectStatus m).

Definition set_pendingEditorItem (v : T) (m : SelectionModel) : SelectionModel :=
  mkModel (lst m) (items m) (opts m) (result m) (filterActive m) (windowSize
    m) (viewport m) (loadingDetail m) (refreshing m) (showHelp m)
    (confirmationMessage m) (reactionMode m) (reactionIdx m)
    (reactionCommentID m) (showDetail m) v (pendingEditorTmpFile m)
    (pendingEditorAction m) (commentSelectMode m) (commentSelectAction m)
    (commentSelectIdx m) (commentSelectItem m) (commentSelectInDetail m)
    (commentSelectStatus m).

Definition set_pendingEditorTmpFile (v : string) (m : SelectionModel) : SelectionModel :=
  mkModel (lst m) (items m) (opts m) (result m) (filterActive m) (windowSize
    m) (viewport m) (loadingDetail m) (refreshing m) (showHelp m)
    (confirmationMessage m) (reactionMode m) (reactionIdx m)
    (reactionCommentID m) (showDetail m) (pendingEditorItem m) v
    (pendingEditorAction m) (commentSelectMode m) (commentSelectAction m)
    (commentSelectIdx m) (commentSelectItem m) (commentSelectInDetail m)
    (commentSelectStatus m).

Definition set_pendingEditorAction (v : Z) (m : SelectionModel) : SelectionModel :=
  mkModel (lst m) (items m) (opts m) (result m) (filterActive m) (windowSize
    m) (viewport m) (loadingDetail m) (refreshing m) (showHelp m)
    (confirmationMessage m) (reactionMode m) (reactionIdx m)
    (reactionCommentID m) (showDetail m) (pendingEditorItem m)
    (pendingEditorTmpFile m) v (commentSelectMode m) (commentSelectAction m)
    (commentSelectIdx m) (commentSelectItem m) (commentSelectInDetail m)
    (commentSelectStatus m).

Definition set_commentSelectMode (v : bool) (m : SelectionModel) : SelectionModel :=
  mkModel (lst m) (items m) (opts m) (result m) (filterActive m) (windowSize
    m) (viewport m) (loadingDetail m) (refreshing m) (showHelp m)
    (confirmationMessage m) (reactionMode m) (reactionIdx m)
    (reactionCommentID m) (showDetail m) (pendingEditorItem m)
    (pendingEditorTmpFile m) (pendingEditorAction m) v (commentSelectAction
    m) (commentSelectIdx m) (commentSelectItem m) (commentSelectInDetail m)
    (commentSelectStatus m).

Definition set_commentSelectAction (v : string) (m : SelectionModel) : SelectionModel :=
  mkModel (lst m) (items m) (opts m) (result m) (filterActive m) (windowSize
    m) (viewport m) (loadingDetail m) (refreshing m) (showHelp m)
    (confirmationMessage m) (reactionMode m) (reactionIdx m)
    (reactionCommentID m) (showDetail m) (pendingEditorItem m)
    (pendingEditorTmpFile m) (pendingEditorAction m) (commentSelectMode m) v
    (commentSelectIdx m) (commentSelectItem m) (commentSelectInDetail m)
    (commentSelectStatus m).

Definition set_commentSelectIdx (v : Z) (m : SelectionModel) : SelectionModel :=
  mkModel (lst m) (items m) (opts m) (result m) (filterActive m) (windowSize
    m) (viewport m) (loadingDetail m) (refreshing m) (showHelp m)
    (confirmationMessage m) (reactionMode m) (reactionIdx m)
    (reactionCommentID m) (showDetail m) (pendingEditorItem m)
    (pendingEditorTmpFile m) (pendingEditorAction m) (commentSelectMode m)
    (commentSelectAction m) v (commentSelectItem m) (commentSelectInDetail
    m) (commentSelectStatus m).

Definition set_commentSelectItem (v : T) (m : SelectionModel) : SelectionModel :=
  mkModel (lst m) (items m) (opts m) (result m) (filterActive m) (windowSize
    m) (viewport m) (loadingDetail m) (refreshing m) (showHelp m)
    (confirmationMessage m) (reactionMode m) (reactionIdx m)
    (reactionCommentID m) (showDetail m) (pendingEditorItem m)
    (pendingEditorTmpFile m) (pendingEditorAction m) (commentSelectMode m)
    (commentSelectAction m) (commentSelectIdx m) v (commentSelectInDetail m)
    (commentSelectStatus m).

Definition set_commentSelectInDetail (v : bool) (m : SelectionModel) : SelectionModel :=
  mkModel (lst m) (items m) (opts m) (result m) (filterActive m) (windowSize
    m) (viewport m) (loadingDetail m) (refreshing m) (showHelp m)
    (confirmationMessage m) (reactionMode m) (reactionIdx m)
    (reactionCommentID m) (showDetail m) (pendingEditorItem m)
    (pendingEditorTmpFile m) (pendingEditorAction m) (commentSelectMode m)
    (commentSelectAction m) (commentSelectIdx m) (commentSelectItem m) v
    (commentSelectStatus m).

Definition set_commentSelectStatus (v : string) (m : SelectionModel) : SelectionModel :=
  mkModel (lst m) (items m) (opts m) (result m) (filterActive m) (windowSize
    m) (viewport m) (loadingDetail m) (refreshing m) (showHelp m)
    (confirmationMessage m) (reactionMode m) (reactionIdx m)
    (reactionCommentID m) (showDetail m) (pendingEditorItem m)
    (pendingEditorTmpFile m) (pendingEditorAction m) (commentSelectMode m)
    (commentSelectAction m) (commentSelectIdx m) (commentSelectItem m)
    (commentSelectInDetail m) v.

(** One callback invocation: which callback, on which item, in which
    mode, and whether it returned an error.  The trace is ghost state: the
    source keeps no such record. *)
Record Event := {
  ev_callback : Callback;
  ev_item : option T;
  ev_mode : Mode;
  ev_failed : bool }.

(** The part of the operating system the engine touches: the files of
    the temporary directory, the outcome the next [os.CreateTemp],
    [WriteString] and [os.ReadFile] will have when they fail, two
    environment variables, and the ghost trace. *)
Record World := mkWorld {
  files : gmap string string;
  tmp_seq : nat;
  create_err : option string;
  write_err : option string;
  read_err : option string;
  env_EDITOR : string;
  env_AGENT : string;
  trace : list Event }.

Definition set_files (v : gmap string string) (w : World) : World :=
  mkWorld v (tmp_seq w) (create_err w) (write_err w) (read_err w)
    (env_EDITOR w) (env_AGENT w) (trace w).

Definition set_tmp_seq (v : nat) (w : World) : World :=
  mkWorld (files w) v (create_err w) (write_err w) (read_err w) (env_EDITOR
    w) (env_AGENT w) (trace w).

Definition set_trace (v : list Event) (w : World) : World :=
  mkWorld (files w) (tmp_seq w) (create_err w) (write_err w) (read_err w)
    (env_EDITOR w) (env_AGENT w) v.
(** ** The engine *)

Definition mode_of (m : SelectionModel) : Mode :=
  if showHelp m then HelpOverlay
  else if negb (String.eqb (confirmationMessage m) "") then Confirmation
  else if reactionMode m then ReactionPick
  else if commentSelectMode m then ThreadPick
  else if showDetail m then Detail
  else Normal.

(** The outcome of one call of [Update] or of a helper that returns
    [(tea.Model, tea.Cmd)]: the new model, the world after the call and
    the command, or a run-time panic. *)
Inductive Outcome :=
| Return (m : SelectionModel) (w : World) (c : Cmd)
| Panic (what : string).

(** Records the invocation of callback [cb] in the state [m]. *)
Definition called {A} (cb : Callback) (it : option T) (m : SelectionModel)
    (r : errable A) (w : World) : World :=
  set_trace (trace w ++ [ {| ev_callback := cb; ev_item := it;
                             ev_mode := mode_of m; ev_failed := is_err r |} ]) w.

(** [os.CreateTemp("", "gh-prreview-*.md")]. *)
Definition CreateTemp (w : World) : errable (string * World) :=
  match create_err w with
  | Some e => Err e
  | None =>
      let path := "/tmp/gh-prreview-" ++ itoa (Z.of_nat (tmp_seq w)) ++ ".md" in
      Ok (path, set_tmp_seq (S (tmp_seq w)) (set_files (<[path := ""]> (files w)) w))
  end.

(** [tmpFile.WriteString(content)] on the freshly created file. *)
Definition WriteString (w : World) (path content : string) : errable World :=
  match write_err w with
  | Some e => Err e
  | None => Ok (set_files (<[path := content]> (files w)) w)
  end.

(** [os.ReadFile(path)]. *)
Definition ReadFile (w : World) (path : string) : errable string :=
  match read_err w with
  | Some e => Err e
  | None =>
      match files w !! path with
      | Some content => Ok content
      | None => Err ("open " ++ path ++ ": no such file or directory")
      end
  end.

(** [os.Remove(path)], its error ignored. *)
Definition Remove (w : World) (path : string) : World :=
  set_files (delete path (files w)) w.

(** [os.Getenv("EDITOR")] with its fallback. *)
Definition editorCommand (w : World) : string :=
  if String.eqb (env_EDITOR w) "" then "vim" else env_EDITOR w.

(** [return m, m.list.NewStatusMessage(text)]: the widget stores the text
    and hands back the command that will clear it.  Go leaves open whether
    the operand [m] is read before or after the call; here and in
    [return m, m.startEditorForAction(..)] the call comes first, which is
    what [handleEditorFinished] needs to find the pending session. *)
Definition status (m : SelectionModel) (w : World) (text : string) : Outcome :=
  Return (set_lst (list_NewStatusMessage (lst m) text) m) w (CmdStatus text).

Definition pressAnyKey (text : string) : string :=
  text ++ nl ++ nl ++ "Press any key to continue...".

Definition editInEditor (m : SelectionModel) (w : World) (filePath : string)
    (line : Z) : Outcome :=
  let editor := editorCommand w in
  if 0 <? line
  then Return m w (CmdExecEditor [editor; "+" ++ itoa line; filePath])
  else Return m w (CmdExecEditor [editor; filePath]).

Definition preparerOf (o : SelectorOptions) (action : Z)
    : option (Callback * EditorPreparer) :=
  if action =? 2 then option_map (pair CbResolveCommentPrepare) (ResolveCommentPrepare o)
  else if action =? 3 then option_map (pair CbQuotePrepare) (QuotePrepare o)
  else if action =? 4 then option_map (pair CbQuoteContextPrepare) (QuoteContextPrepare o)
  else None.

Definition completerOf (o : SelectorOptions) (action : Z)
    : option (Callback * EditorCompleter) :=
  if action =? 2 then option_map (pair CbResolveCommentComplete) (ResolveCommentComplete o)
  else if action =? 3 then option_map (pair CbQuoteComplete) (QuoteComplete o)
  else if action =? 4 then option_map (pair CbQuoteContextComplete) (QuoteContextComplete o)
  else None.

Definition startEditorForAction (m : SelectionModel) (w : World) (item : T)
    (action : Z) : Outcome :=
  match preparerOf (opts m) action with
  | None => Return m w CmdNil
  | Some (cb, preparer) =>
      let r := preparer item in
      let w := called cb (Some item) m r w in
      match r with
      | Err e => status m w (Colorize ColorRed e)
      | Ok content =>
          match CreateTemp w with
          | Err e =>
              status m w (Colorize ColorRed ("Failed to create temp file: " ++ e))
          | Ok (path, w) =>
              match WriteString w path content with
              | Err e =>
                  status m w (Colorize ColorRed ("Failed to write temp file: " ++ e))
              | Ok w =>
                  let m := set_pendingEditorItem item m in
                  let m := set_pendingEditorTmpFile path m in
                  let m := set_pendingEditorAction action m in
                  Return m w (CmdExecEditor [editorCommand w; path])
              end
          end
      end
  end.

Definition handleEditorFinished (m : SelectionModel) (w : World)
    (err : option string) : Outcome :=
  match err with
  | Some e => status m w (Colorize ColorRed ("Editor error: " ++ e))
  | None =>
      if String.eqb (pendingEditorTmpFile m) "" then Return m w CmdNil
      else
        let content := ReadFile w (pendingEditorTmpFile m) in
        let w := Remove w (pendingEditorTmpFile m) in
        let m := set_pendingEditorTmpFile "" m in
        match content with
        | Err e => status m w (Colorize ColorRed ("Failed to read temp file: " ++ e))
        | Ok content =>
            let sanitized := SanitizeEditorContent content in
            if String.eqb sanitized "" then status m w "Cancelled (empty content)"
            else
              match completerOf (opts m) (pendingEditorAction m) with
              | None => Return m w CmdNil
              | Some (cb, completer) =>
                  let r := completer (pendingEditorItem m) sanitized in
                  let w := called cb (Some (pendingEditorItem m)) m r w in
                  match r with
                  | Err e => status m w (Colorize ColorRed e)
                  | Ok result =>
                      if Contains result "https://"
                      then Return (set_confirmationMessage (pressAnyKey result) m) w CmdNil
                      else if negb (String.eqb result "") then status m w result
                      else Return m w CmdNil
                  end
              end
        end
  end.

(** [launchAgent]; [None] is the panic of [parts[0]] on an agent setting
    made of white space only. *)
Definition launchAgent (w : World) (prompt : string) : option Cmd :=
  let agent := if String.eqb (env_AGENT w) "" then "claude" else env_AGENT w in
  match Fields agent with
  | [] => None
  | prog :: args => Some (CmdExecAgent (prog :: args ++ [prompt]))
  end.

Definition updateVisibleItems (m : SelectionModel) : SelectionModel :=
  let visible :=
    List.filter (fun item =>
                   match FilterFunc (opts m) with
                   | None => true
                   | Some f => f item (filterActive m)
                   end) (items m) in
  set_lst (fst (list_SetItems (lst m) visible)) m.

(** *** Thread pick (comment selection) *)

Definition selectStatus (idx count : Z) (preview action : string) : string :=
  "[" ++ itoa (int_add idx 1) ++ "/" ++ itoa count ++ "] " ++ preview
      ++ " (" ++ action ++ "=next, Enter=select, Esc=cancel)".

Definition enterCommentSelectMode (m : SelectionModel) (action : string)
    (item : T) : SelectionModel :=
  let m := set_commentSelectMode true m in
  let m := set_commentSelectAction action m in
  let m := set_commentSelectIdx 0 m in
  let m := set_commentSelectItem item m in
  let m := set_commentSelectInDetail false m in
  let count := ThreadCommentCount (Renderer (opts m)) item in
  let preview := ThreadCommentPreview (Renderer (opts m)) item 0 in
  set_commentSelectStatus
    ("[1/" ++ itoa count ++ "] " ++ preview
        ++ " (" ++ action ++ "=next, Enter=select, Esc=cancel)") m.

(** [cycleCommentSelection]; [None] is the division by zero of
    [% count]. *)
Definition cycleCommentSelection (m : SelectionModel) : option SelectionModel :=
  let count := ThreadCommentCount (Renderer (opts m)) (commentSelectItem m) in
  if count =? 0 then None
  else
    let m := set_commentSelectIdx (int_rem (int_add (commentSelectIdx m) 1) count) m in
    let preview :=
      ThreadCommentPreview (Renderer (opts m)) (commentSelectItem m) (commentSelectIdx m) in
    Some (set_commentSelectStatus
            (selectStatus (commentSelectIdx m) count preview (commentSelectAction m)) m).

Definition showCommentSelectStatus (m : SelectionModel) (w : World) : Outcome :=
  status m w (commentSelectStatus m).

Definition exitCommentSelectMode (m : SelectionModel) : SelectionModel :=
  let m := set_commentSelectMode false m in
  let m := set_commentSelectAction "" m in
  let m := set_commentSelectIdx 0 m in
  let m := set_commentSelectInDetail false m in
  set_commentSelectStatus "" m.

(** Index of the first line that contains [marker]. *)
Fixpoint firstLineWith (marker : string) (i : Z) (ls : list string) : option Z :=
  match ls with
  | [] => None
  | l :: ls' => if Contains l marker then Some i else firstLineWith marker (i + 1) ls'
  end.

Definition updateDetailViewWithHighlight (m : SelectionModel) : SelectionModel :=
  if negb (showDetail m) then m
  else
    let content :=
      PreviewWithHighlight (Renderer (opts m)) (commentSelectItem m) (commentSelectIdx m) in
    let m := set_viewport (viewport_SetContent (viewport m) content) m in
    match firstLineWith "SELECTED" 0 (SplitLines content) with
    | Some i =>
        let offset := if int_sub i 2 <? 0 then 0 else int_sub i 2 in
        set_viewport (viewport_SetYOffset (viewport m) offset) m
    | None => m
    end.

(** The first steps of the four action-key handlers once the thread has
    more than one comment. *)
Definition startThreadPick (m : SelectionModel) (w : World) (action : string)
    (item : T) (inDetailView : bool) : Outcome :=
  let m := enterCommentSelectMode m action item in
  let m := if inDetailView
           then updateDetailViewWithHighlight (set_commentSelectInDetail true m)
           else m in
  showCommentSelectStatus m w.

(** *** Reaction pick *)

Definition enterReactionMode (m : SelectionModel) (commentID : Z) : SelectionModel :=
  let m := set_reactionMode true m in
  let m := set_reactionIdx 0 m in
  set_reactionCommentID commentID m.

Definition showReactionStatus (m : SelectionModel) (w : World) : Outcome :=
  match emoji_at (reactionIdx m) with
  | None => Panic "index out of range"
  | Some e =>
      status m w ("React: [" ++ itoa (int_add (reactionIdx m) 1) ++ "/"
                    ++ itoa (len reactionEmojis) ++ "] " ++ display e
                    ++ " (x=next, Enter=add, Esc=cancel)")
  end.

(** *** The handlers shared by the list and the detail view *)

(** [handleQuoteKey] (action 3, key Q) and [handleQuoteContextKey]
    (action 4, key C) differ in the preparer they test and the action they
    start only. *)
Definition handleEditorKey (prepare : option EditorPreparer) (key : string)
    (action : Z) (m : SelectionModel) (w : World) (inDetailView : bool) : Outcome :=
  match prepare with
  | None => Return m w CmdNil
  | Some _ =>
      match list_SelectedItem (lst m) with
      | None => Return m w CmdNil
      | Some item =>
          let count := ThreadCommentCount (Renderer (opts m)) item in
          if 1 <? count then startThreadPick m w key item inDetailView
          else
            let m := if inDetailView then set_showDetail false m else m in
            startEditorForAction m w item action
      end
  end.

Definition handleQuoteKey (m : SelectionModel) (w : World) (inDetailView : bool) :=
  handleEditorKey (QuotePrepare (opts m)) "Q" 3 m w inDetailView.

Definition handleQuoteContextKey (m : SelectionModel) (w : World) (inDetailView : bool) :=
  handleEditorKey (QuoteContextPrepare (opts m)) "C" 4 m w inDetailView.

(** The tail of [handleAgentKey], also the case "a" of
    [executeCommentAction]. *)
Definition runAgentAction (action : CustomAction) (m : SelectionModel) (w : World)
    (item : T) (leaveDetail : bool) : Outcome :=
  let r := action item in
  let w := called CbAgentAction (Some item) m r w in
  match r with
  | Err e => status m w (Colorize ColorRed e)
  | Ok result =>
      if HasPrefix result "LAUNCH_AGENT:"
      then
        let prompt := TrimPrefix result "LAUNCH_AGENT:" in
        let m := if leaveDetail then set_showDetail false m else m in
        match launchAgent w prompt with
        | Some c => Return m w c
        | None => Panic "slice bounds out of range"
        end
      else if negb (String.eqb result "") then status m w result
      else Return m w CmdNil
  end.

Definition handleAgentKey (m : SelectionModel) (w : World) (inDetailView : bool)
    : Outcome :=
  match AgentAction (opts m) with
  | None => Return m w CmdNil
  | Some action =>
      match list_SelectedItem (lst m) with
      | None => Return m w CmdNil
      | Some item =>
          let count := ThreadCommentCount (Renderer (opts m)) item in
          if 1 <? count then startThreadPick m w "a" item inDetailView
          else runAgentAction action m w item inDetailView
      end
  end.

(** The tail of [handleReactionKey], also the case "x" of
    [executeCommentAction]. *)
Definition runReactionAction (action : T -> errable Z) (m : SelectionModel)
    (w : World) (item : T) : Outcome :=
  let r := action item in
  let w := called CbReactionAction (Some item) m r w in
  match r with
  | Err e => status m w (Colorize ColorRed e)
  | Ok commentID => showReactionStatus (enterReactionMode m commentID) w
  end.

Definition handleReactionKey (m : SelectionModel) (w : World) (inDetailView : bool)
    : Outcome :=
  match ReactionAction (opts m) with
  | None => Return m w CmdNil
  | Some action =>
      match list_SelectedItem (lst m) with
      | None => Return m w CmdNil
      | Some item =>
          let count := ThreadCommentCount (Renderer (opts m)) item in
          if (1 <? count)
             && (negb inDetailView || (inDetailView && negb (commentSelectMode m)))
          then startThreadPick m w "x" item inDetailView
          else runReactionAction action m w item
      end
  end.

Definition executeCommentAction (m : SelectionModel) (w : World) : Outcome :=
  let itemWithSelection :=
    WithSelectedComment (Renderer (opts m)) (commentSelectItem m) (commentSelectIdx m) in
  let m := set_commentSelectItem itemWithSelection m in
  let action := commentSelectAction m in
  let wasInDetail := commentSelectInDetail m in
  let m := exitCommentSelectMode m in
  if String.eqb action "Q" then
    let m := if wasInDetail then set_showDetail false m else m in
    startEditorForAction m w itemWithSelection 3
  else if String.eqb action "C" then
    let m := if wasInDetail then set_showDetail false m else m in
    startEditorForAction m w itemWithSelection 4
  else if String.eqb action "a" then
    match AgentAction (opts m) with
    | Some f => runAgentAction f m w itemWithSelection wasInDetail
    | None => Return m w CmdNil
    end
  else if String.eqb action "x" then
    match ReactionAction (opts m) with
    | Some f => runReactionAction f m w itemWithSelection
    | None => Return m w CmdNil
    end
  else Return m w CmdNil.

(** *** Update *)

(** A synchronous [CustomAction] bound to a key ([OnOpen], [OnSelect]):
    call it on the selected item and show what it says. *)
Definition runCustomAction (cb : Callback) (action : option CustomAction)
    (m : SelectionModel) (w : World) : Outcome :=
  match action with
  | None => Return m w CmdNil
  | Some f =>
      match list_SelectedItem (lst m) with
      | None => Return m w CmdNil
      | Some item =>
          let r := f item in
          let w := called cb (Some item) m r w in
          match r with
          | Err e => status m w (Colorize ColorRed e)
          | Ok statusMsg =>
              if negb (String.eqb statusMsg "") then status m w statusMsg
              else Return m w CmdNil
          end
      end
  end.

(** Case "e" of both views; the list view also re-sets the item. *)
Definition editKey (m : SelectionModel) (w : World) (inDetailView : bool) : Outcome :=
  match EditAction (opts m) with
  | None => Return m w CmdNil
  | Some f =>
      match list_SelectedItem (lst m) with
      | None => Return m w CmdNil
      | Some item =>
          let r := f item in
          let w := called CbEditAction (Some item) m r w in
          match r with
          | Err e => status m w (Colorize ColorRed e)
          | Ok result =>
              let launch :=
                if HasPrefix result "EDIT_FILE:"
                then match SplitColon2 (TrimPrefix result "EDIT_FILE:") with
                     | [path; line] => Some (path, Sscanf_d line)
                     | _ => None
                     end
                else None in
              match launch with
              | Some (path, lineNum) => editInEditor m w path lineNum
              | None =>
                  let m := if inDetailView then m
                           else set_lst (fst (list_SetItem (lst m) (list_Index (lst m)) item)) m in
                  if negb (String.eqb result "") then status m w result
                  else Return m w CmdNil
              end
          end
      end
  end.

(** Cases "R", "U" of both views. *)
Definition resolveCommentKey (m : SelectionModel) (w : World) (inDetailView : bool)
    : Outcome :=
  match ResolveCommentPrepare (opts m) with
  | None => Return m w CmdNil
  | Some _ =>
      match list_SelectedItem (lst m) with
      | None => Return m w CmdNil
      | Some item =>
          let m := if inDetailView then set_showDetail false m else m in
          startEditorForAction m w item 2
      end
  end.

(** Keys while the reaction picker is open. *)
Definition reactionKey (m : SelectionModel) (w : World) (key : string) : Outcome :=
  if String.eqb key "enter" then
    match emoji_at (reactionIdx m) with
    | None => Panic "index out of range"
    | Some e =>
        let m := set_reactionMode false m in
        match ReactionComplete (opts m) with
        | Some f =>
            let r := f (reactionCommentID m) (name e) in
            let w := called CbReactionComplete None m r w in
            match r with
            | Err e => status m w (Colorize ColorRed e)
            | Ok msg => Return (set_confirmationMessage (pressAnyKey msg) m) w CmdNil
            end
        | None => Return m w CmdNil
        end
    end
  else if String.eqb key "esc" then
    status (set_reactionMode false m) w "Reaction cancelled"
  else if String.eqb key "x" then
    showReactionStatus
      (set_reactionIdx (int_rem (int_add (reactionIdx m) 1) (len reactionEmojis)) m) w
  else status (set_reactionMode false m) w "Reaction cancelled".

(** Keys of the detail view. *)
Definition detailKey (m : SelectionModel) (w : World) (key : string) : Outcome :=
  if is_key key ["esc"; "backspace"; "left"; "h"; "q"] then
    Return (set_showDetail false m) w CmdNil
  else if String.eqb key "ctrl+f" then
    Return (set_viewport (viewport_PageDown (viewport m)) m) w CmdNil
  else if String.eqb key "ctrl+b" then
    Return (set_viewport (viewport_PageUp (viewport m)) m) w CmdNil
  else if is_key key ["r"; "u"] then
    match ResolveAction (opts m) with
    | None => Return m w CmdNil
    | Some f =>
        match list_SelectedItem (lst m) with
        | None => Return m w CmdNil
        | Some item =>
            let r := f item in
            let w := called CbResolveAction (Some item) m r w in
            let m := set_showDetail false m in
            match r with
            | Err e => status m w (Colorize ColorRed e)
            | Ok statusMsg =>
                if negb (String.eqb statusMsg "") then status m w statusMsg
                else Return m w CmdNil
            end
        end
    end
  else if is_key key ["R"; "U"] then resolveCommentKey m w true
  else if String.eqb key "Q" then handleQuoteKey m w true
  else if String.eqb key "C" then handleQuoteContextKey m w true
  else if String.eqb key "a" then handleAgentKey m w true
  else if String.eqb key "e" then editKey m w true
  else if String.eqb key "x" then handleReactionKey m w true
  else if String.eqb key "o" then runCustomAction CbOnOpen (OnOpen (opts m)) m w
  else
    let '(vp, cmd) := viewport_Update (viewport m) (KeyMsg key) in
    Return (set_viewport vp m) w cmd.

(** The end of [Update]: the list widget handles the message. *)
Definition listDefault (m : SelectionModel) (w : World) (msg : Msg) : Outcome :=
  let '(l, cmd) := list_Update (lst m) msg in
  Return (set_lst l m) w cmd.

(** Keys of the list view. *)
Definition listKey (m : SelectionModel) (w : World) (key : string) : Outcome :=
  if String.eqb key "ctrl+c" then Return m w CmdQuit
  else if String.eqb key "?" then Return (set_showHelp true m) w CmdNil
  else if String.eqb key "q" then Return (set_result [] m) w CmdQuit
  else if is_key key ["enter"; "right"; "l"] then
    match list_SelectedItem (lst m) with
    | None => listDefault m w (KeyMsg key)
    | Some item =>
        let showDetailView (w : World) :=
          let m := set_showDetail true m in
          let m := set_loadingDetail true m in
          let m := set_viewport (viewport_SetContent (viewport m) "Loading...") m in
          Return m w CmdLoadDetail in
        match OnSelect (opts m) with
        | None => showDetailView w
        | Some f =>
            let r := f item in
            let w := called CbOnSelect (Some item) m r w in
            match r with
            | Err e => status m w (Colorize ColorRed e)
            | Ok statusMsg =>
                if negb (String.eqb statusMsg "") then status m w statusMsg
                else showDetailView w
            end
        end
    end
  else if String.eqb key "o" then runCustomAction CbOnOpen (OnOpen (opts m)) m w
  else if is_key key ["h"; "tab"] then
    match FilterFunc (opts m) with
    | None => Return m w CmdNil
    | Some _ =>
        let m := updateVisibleItems (set_filterActive (negb (filterActive m)) m) in
        if filterActive m then status m w "Hiding resolved"
        else status m w "Showing all"
    end
  else if String.eqb key "i" then
    match RefreshItems (opts m) with
    | Some _ =>
        if negb (refreshing m) then Return (set_refreshing true m) w CmdRefresh
        else Return m w CmdNil
    | None => Return m w CmdNil
    end
  else if is_key key ["r"; "u"] then
    match ResolveAction (opts m) with
    | None => Return m w CmdNil
    | Some f =>
        match list_SelectedItem (lst m) with
        | None => Return m w CmdNil
        | Some item =>
            let r := f item in
            let w := called CbResolveAction (Some item) m r w in
            match r with
            | Err e => status m w (Colorize ColorRed e)
            | Ok statusMsg =>
                let m := set_lst (fst (list_SetItem (lst m) (list_Index (lst m)) item)) m in
                if negb (String.eqb statusMsg "") then status m w statusMsg
                else Return m w CmdNil
            end
        end
    end
  else if is_key key ["R"; "U"] then resolveCommentKey m w false
  else if String.eqb key "Q" then handleQuoteKey m w false
  else if String.eqb key "C" then handleQuoteContextKey m w false
  else if String.eqb key "a" then handleAgentKey m w false
  else if String.eqb key "e" then editKey m w false
  else if String.eqb key "x" then handleReactionKey m w false
  else listDefault m w (KeyMsg key).

(** What follows the two picker blocks of [Update]: the filter input of
    the list, then the detail view, then the list view. *)
Definition dispatchKey (m : SelectionModel) (w : World) (key : string) : Outcome :=
  if list_SettingFilter (lst m) then listDefault m w (KeyMsg key)
  else if showDetail m then detailKey m w key
  else listKey m w key.

(** Keys while a thread pick is open.  A Go [switch] does not fall into
    the next case: the cases that only leave the pick run on to the code
    after the [if] block, that is to [dispatchKey].  In the cases "esc"
    and default [exitCommentSelectMode] has already cleared
    [commentSelectInDetail] when it is tested. *)
Definition commentSelectKey (m : SelectionModel) (w : World) (key : string) : Outcome :=
  let restoreDetail (m : SelectionModel) :=
    if commentSelectInDetail m then
      match list_SelectedItem (lst m) with
      | Some item =>
          set_viewport
            (viewport_SetContent (viewport m)
               (PreviewWithHighlight (Renderer (opts m)) item (-1))) m
      | None => m
      end
    else m in
  if String.eqb key "enter" then executeCommentAction m w
  else if String.eqb key "esc" then
    status (restoreDetail (exitCommentSelectMode m)) w "Selection cancelled"
  else if is_key key ["Q"; "C"; "a"; "x"] then
    if String.eqb key (commentSelectAction m) then
      match cycleCommentSelection m with
      | None => Panic "integer divide by zero"
      | Some m =>
          let m := if commentSelectInDetail m then updateDetailViewWithHighlight m else m in
          showCommentSelectStatus m w
      end
    else dispatchKey (exitCommentSelectMode m) w key
  else dispatchKey (restoreDetail (exitCommentSelectMode m)) w key.

Definition updateKey (m : SelectionModel) (w : World) (key : string) : Outcome :=
  if showHelp m then Return (set_showHelp false m) w CmdNil
  else if negb (String.eqb (confirmationMessage m) "") then
    Return (set_confirmationMessage "" m) w CmdNil
  else if reactionMode m then reactionKey m w key
  else if commentSelectMode m then commentSelectKey m w key
  else dispatchKey m w key.

Definition Update (m : SelectionModel) (w : World) (msg : Msg) : Outcome :=
  match msg with
  | WindowSizeMsg width height =>
      let m := set_windowSize (width, height) m in
      let listHeight := int_sub (int_sub height 2) 3 in
      let m := set_lst (list_SetSize (lst m) width listHeight) m in
      let m := set_viewport (viewport_SetContent (viewport_New width listHeight) "") m in
      Return m w CmdNil
  | loadDetailMsg =>
      let m := set_loadingDetail false m in
      match list_SelectedItem (lst m) with
      | Some item =>
          let highlightIdx := if commentSelectMode m then commentSelectIdx m else -1 in
          let content := PreviewWithHighlight (Renderer (opts m)) item highlightIdx in
          Return (set_viewport (viewport_GotoTop (viewport_SetContent (viewport m) content)) m)
                 w CmdNil
      | None => Return m w CmdNil
      end
  | refreshFinishedMsg newItems err =>
      let m := set_refreshing false m in
      match err with
      | Some e => status m w (Colorize ColorRed ("Refresh failed: " ++ e))
      | None =>
          match newItems with
          | Some its =>
              let m := set_items its m in
              let '(l, cmd) := list_SetItems (lst m) its in
              let text := Colorize ColorGreen ("Refreshed: " ++ itoa (len its) ++ " items") in
              Return (set_lst (list_NewStatusMessage l text) m) w
                     (CmdBatch cmd (CmdStatus text))
          | None => Return m w CmdNil
          end
      end
  | editorFinishedMsg err => handleEditorFinished m w err
  | agentFinishedMsg err =>
      match err with
      | Some e => status m w (Colorize ColorRed ("Agent error: " ++ e))
      | None => status m w (Colorize ColorGreen "Agent completed")
      end
  | KeyMsg key => updateKey m w key
  | LibraryMsg _ => listDefault m w msg
  end.

(** *** Select *)

(** The model [Select] hands to [tea.NewProgram]. *)
Definition initialModel (o : SelectorOptions) : SelectionModel :=
  let m :=
    {| lst := list_New (Items o);
       items := Items o;
       opts := o;
       result := [];
       filterActive := FilterDefault o;
       windowSize := (0, 0);
       viewport := viewport_zero;
       loadingDetail := false;
       refreshing := false;
       showHelp := false;
       confirmationMessage := "";
       reactionMode := false;
       reactionIdx := 0;
       reactionCommentID := 0;
       showDetail := false;
       pendingEditorItem := zero;
       pendingEditorTmpFile := "";
       pendingEditorAction := 0;
       commentSelectMode := false;
       commentSelectAction := "";
       commentSelectIdx := 0;
       commentSelectItem := zero;
       commentSelectInDetail := false;
       commentSelectStatus := "" |} in
  match FilterFunc o with
  | Some _ => if FilterDefault o then updateVisibleItems m else m
  | None => m
  end.

(** Does the command make the driver stop? *)
Fixpoint quits (c : Cmd) : bool :=
  match c with
  | CmdQuit => true
  | CmdBatch c1 c2 => quits c1 || quits c2
  | _ => false
  end.

(** How [p.Run()] ends on a stream of messages: the driver stops at the
    first quit command and returns the model, reports a panic of
    [Update] as an error, and is still waiting for input when the stream
    ends before a quit.  Only the calls of [Update] are followed: the
    driver's calls of [View] between them are not, nor the messages it
    still delivers after the quit command. *)
Inductive RunEnd :=
| Finished (m : SelectionModel) (w : World)
| Failed (e : string)
| Waiting (m : SelectionModel) (w : World).

Fixpoint Run (m : SelectionModel) (w : World) (msgs : list Msg) : RunEnd :=
  match msgs with
  | [] => Waiting m w
  | msg :: rest =>
      match Update m w msg with
      | Panic what => Failed what
      | Return m w c => if quits c then Finished m w else Run m w rest
      end
  end.

(** The three returns of [Select]: [final.result[0], nil], then
    [zero, ErrNoSelection], then [zero, err] with the driver's error. *)
Inductive SelectResult :=
| Selected (item : T)
| ErrNoSelection
| RunError (e : string).

(** [Select]: [driver] is the error of a terminal driver that cannot
    start, [msgs] the messages the driver delivers, in order.  [None]: the
    call has not returned yet.  The final model is taken to be a
    [SelectionModel] value, as [Update] returns it on the keys that quit;
    the assertion [finalModel.(SelectionModel[T])] on a pointer is not
    followed. *)
Definition Select (o : SelectorOptions) (w : World) (driver : option string)
    (msgs : list Msg) : option SelectResult :=
  match driver with
  | Some e => Some (RunError e)
  | None =>
      match Run (initialModel o) w msgs with
      | Failed e => Some (RunError e)
      | Waiting _ _ => None
      | Finished final _ =>
          match result final with
          | [] => Some ErrNoSelection
          | item :: _ => Some (Selected item)
          end
      end
  end.

(** The keys pressed one after the other, the commands dropped. *)
Fixpoint pressKeys (m : SelectionModel) (w : World) (keys : list string) : Outcome :=
  match keys with
  | [] => Return m w CmdNil
  | [key] => Update m w (KeyMsg key)
  | key :: rest =>
      match Update m w (KeyMsg key) with
      | Return m w _ => pressKeys m w rest
      | Panic what => Panic what
      end
  end.


(** The messages handled one after the other by [Update] alone, whatever
    the commands ask for: no drawing in between, no stop at a quit. *)
Fixpoint handleAll (m : SelectionModel) (w : World) (msgs : list Msg) : Outcome :=
  match msgs with
  | [] => Return m w CmdNil
  | msg :: rest =>
      match Update m w msg with
      | Return m w _ => handleAll m w rest
      | Panic what => Panic what
      end
  end.


(** *** Predicates of the statements *)

(** [P] holds of the model an outcome returns, if it returns one. *)
Definition keeps (P : SelectionModel -> Prop) (o : Outcome) : Prop :=
  match o with
  | Return m' _ _ => P m'
  | Panic _ => True
  end.

(** No item has been chosen. *)
Definition no_item (m : SelectionModel) : Prop := result m = [].


(** A thread pick is open for [action] on comment [idx] of [item], over
    the detail view or not ([detail]), with the options [o]. *)
Definition picking (o : SelectorOptions) (action : string) (item : T) (idx : Z)
    (detail : bool) (m : SelectionModel) : Prop :=
  opts m = o /\ showHelp m = false /\ confirmationMessage m = ""
  /\ reactionMode m = false /\ commentSelectMode m = true
  /\ commentSelectAction m = action /\ commentSelectItem m = item
  /\ commentSelectIdx m = idx /\ commentSelectInDetail m = detail
  /\ showDetail m = detail.


Definition isSet {A} (callback : option A) : bool :=
  match callback with Some _ => true | None => false end.

(** Is the callback behind an action key set?  The keys and the
    callbacks they test are those of the two switches of [Update]. *)
Definition keyCallbackSet (o : SelectorOptions) (key : string) : bool :=
  if is_key key ["r"; "u"] then isSet (ResolveAction o)
  else if is_key key ["R"; "U"] then isSet (ResolveCommentPrepare o)
  else if String.eqb key "Q" then isSet (QuotePrepare o)
  else if String.eqb key "C" then isSet (QuoteContextPrepare o)
  else if String.eqb key "a" then isSet (AgentAction o)
  else if String.eqb key "e" then isSet (EditAction o)
  else if String.eqb key "x" then isSet (ReactionAction o)
  else if String.eqb key "o" then isSet (OnOpen o)
  else if String.eqb key "i" then isSet (RefreshItems o)
  else if is_key key ["h"; "tab"] then isSet (FilterFunc o)
  else true.

(** The items [updateVisibleItems] hands to the list widget. *)
Definition visibleItems (o : SelectorOptions) (active : bool) (its : list T) : list T :=
  List.filter (fun item =>
                 match FilterFunc o with
                 | None => true
                 | Some f => f item active
                 end) its.


(** No colon in the string. *)
Fixpoint noColon (s : string) : bool :=
  match s with
  | EmptyString => true
  | String c s' => negb (Ascii.eqb c ":"%char) && noColon s'
  end.

(** [GH_PRREVIEW_AGENT] with its fallback. *)
Definition agentCommand (w : World) : string :=
  if String.eqb (env_AGENT w) "" then "claude" else env_AGENT w.


(** What [Update] (and [View]) needs when it indexes [reactionEmojis]
    with [reactionIdx] and takes the remainder by the size of the picked
    thread. *)
Definition in_range (m : SelectionModel) : Prop :=
  0 <= reactionIdx m < 8
  /\ (commentSelectMode m = true ->
      ThreadCommentCount (Renderer (opts m)) (commentSelectItem m) <> 0).

(** [GH_PRREVIEW_AGENT] is unset or names a command. *)
Definition agentSet (w : World) : Prop :=
  env_AGENT w = "" \/ allSpace (env_AGENT w) = false.

(** The call returns, and what it returns is in range. *)
Definition runs (o : Outcome) : Prop :=
  match o with
  | Return m w _ => in_range m /\ agentSet w
  | Panic _ => False
  end.



(** The press opened no pick, and a callback it invoked was invoked on
    [item]. *)
Definition direct (item : T) (w : World) (o : Outcome) : Prop :=
  match o with
  | Return m' w' _ =>
      commentSelectMode m' = false
      /\ (trace w' = trace w
          \/ exists e, trace w' = (trace w ++ [e])%list /\ ev_item e = Some item)
  | Panic _ => True
  end.

(** The callback an action key runs on a comment, and whether it fails
    on [item]; nothing when the callback is not set. *)
Definition keyAction (o : SelectorOptions) (key : string) (item : T)
    : option (Callback * bool) :=
  if String.eqb key "Q"
  then option_map (fun f => (CbQuotePrepare, is_err (f item))) (QuotePrepare o)
  else if String.eqb key "C"
  then option_map (fun f => (CbQuoteContextPrepare, is_err (f item)))
                  (QuoteContextPrepare o)
  else if String.eqb key "a"
  then option_map (fun f => (CbAgentAction, is_err (f item))) (AgentAction o)
  else if String.eqb key "x"
  then option_map (fun f => (CbReactionAction, is_err (f item))) (ReactionAction o)
  else None.

(** The press returned with no pick open, and invoked one callback: [cb],
    outside of a pick, on [item], failing or not as [failed] says. *)
Definition acts (cb : Callback) (failed : bool) (item : T) (w : World) (o : Outcome)
    : Prop :=
  match o with
  | Return m' w' _ =>
      commentSelectMode m' = false
      /\ mode_of m' <> ThreadPick
      /\ exists e,
           trace w' = (trace w ++ [e])%list
           /\ ev_callback e = cb
           /\ ev_item e = Some item
           /\ ev_mode e <> ThreadPick
           /\ ev_failed e = failed
  | Panic _ => False
  end.







End Engine.

Arguments Msg : clear implicits.
Arguments ItemRenderer : clear implicits.
Arguments SelectorOptions : clear implicits.
Arguments Toolkit : clear implicits.
Arguments Event : clear implicits.
Arguments World : clear implicits.

(** ** A small instance: review comments with their replies *)

Module Demo.

Record Comment := {
  cid : Z;
  thread : list string;       (* the comment and its replies *)
  selected : Z }.

Record DemoList := {
  d_items : list Comment;
  d_index : nat;
  d_filtering : bool;
  d_status : string }.

Definition demoRenderer : ItemRenderer Comment := {|
  PreviewWithHighlight := fun c i => JoinLines (thread c);
  ThreadCommentCount := fun c => len (thread c);
  ThreadCommentPreview := fun c i => nth (Z.to_nat i) (thread c) "";
  WithSelectedComment := fun c i => {| cid := cid c; thread := thread c; selected := i |} |}.

(** [fmt.Sscanf(text, "%d", &n)] on the texts of the demonstrations: an
    optional sign and the decimal digits that follow it, 0 when there
    are none (the call fails and leaves [n] at 0). *)
Fixpoint positionIn (c : ascii) (s : string) (i : Z) : option Z :=
  match s with
  | EmptyString => None
  | String d s' => if Ascii.eqb c d then Some i else positionIn c s' (i + 1)
  end.

Definition digit (c : ascii) : option Z := positionIn c "0123456789" 0.

Fixpoint digits (acc : Z) (s : string) : Z :=
  match s with
  | EmptyString => acc
  | String c s' =>
      match digit c with
      | Some d => digits (10 * acc + d) s'
      | None => acc
      end
  end.

Definition scanDecimal (s : string) : Z :=
  match s with
  | EmptyString => 0
  | String c s' =>
      if Ascii.eqb c "-" then - digits 0 s'
      else if Ascii.eqb c "+" then digits 0 s'
      else digits 0 s
  end.

(** A list widget that keeps its cursor where it is, a viewport that is
    its content and offset, colours switched off. *)
#[global] Instance demoToolkit : Toolkit Comment := {|
  ListModel := DemoList;
  Viewport := string * Z;
  zero := {| cid := 0; thread := []; selected := 0 |};
  list_New := fun its =>
    {| d_items := its; d_index := 0; d_filtering := false; d_status := "" |};
  list_SetSize := fun l _ _ => l;
  list_SelectedItem := fun l => nth_error (d_items l) (d_index l);
  list_SettingFilter := d_filtering;
  list_Index := fun l => Z.of_nat (d_index l);
  list_SetItems := fun l its =>
    ({| d_items := its; d_index := d_index l; d_filtering := d_filtering l;
        d_status := d_status l |}, CmdNil);
  list_SetItem := fun l _ _ => (l, CmdNil);
  list_NewStatusMessage := fun l text =>
    {| d_items := d_items l; d_index := d_index l; d_filtering := d_filtering l;
       d_status := text |};
  list_Update := fun l _ => (l, CmdNil);
  viewport_zero := ("", 0);
  viewport_New := fun _ _ => ("", 0);
  viewport_SetContent := fun v content => (content, snd v);
  viewport_GotoTop := fun v => (fst v, 0);
  viewport_PageDown := fun v => v;
  viewport_PageUp := fun v => v;
  viewport_SetYOffset := fun v off => (fst v, off);
  viewport_Update := fun v _ => (v, CmdNil);
  Sscanf_d := scanDecimal;
  Colorize := fun _ text => text;
  ColorRed := "";
  ColorGreen := "" |}.

Definition single : Comment :=
  {| cid := 7; thread := ["please rename this"]; selected := 0 |}.

Definition discussion : Comment :=
  {| cid := 9; thread := ["why a map?"; "for the lookups"; "fair enough"]; selected := 0 |}.

Definition quote (c : Comment) : errable string :=
  Ok ("> " ++ nth (Z.to_nat (selected c)) (thread c) "").

Definition failing {A B} (_ : A) : errable B := Err "HTTP 502".

(** No optional callback set. *)
Definition bare (its : list Comment) : SelectorOptions Comment := {|
  Items := its; Renderer := demoRenderer;
  OnSelect := None; OnOpen := None; FilterFunc := None; FilterDefault := false;
  RefreshItems := None; ResolveAction := None;
  ResolveCommentPrepare := None; ResolveCommentComplete := None;
  QuotePrepare := None; QuoteComplete := None;
  QuoteContextPrepare := None; QuoteContextComplete := None;
  AgentAction := None; EditAction := None;
  ReactionAction := None; ReactionComplete := None |}.

Definition world0 : World Comment := {|
  files := ∅; tmp_seq := 0; create_err := None; write_err := None; read_err := None;
  env_EDITOR := ""; env_AGENT := ""; trace := [] |}.

(** The model [Select] starts from, for a list of comments. *)
Definition start (o : SelectorOptions Comment) : SelectionModel := initialModel o.

(** The reaction picker open on the last entry of the catalog. *)
Definition pickingLast : SelectionModel :=
  set_reactionIdx 7 (set_reactionMode true (start (bare [single]))).


Definition posted (c : Comment) (text : string) : errable string :=
  Ok ("Posted a comment to:" ++ nl ++ "https://github.com/o/r/pull/1#discussion_r"
        ++ itoa (cid c)).

(** Every action set; [resolve] and [complete] vary. *)
Definition options (its : list Comment) (resolve : CustomAction)
    (complete : EditorCompleter) : SelectorOptions Comment := {|
  Items := its; Renderer := demoRenderer;
  OnSelect := None; OnOpen := Some (fun _ => Ok "Opened in browser");
  FilterFunc := None; FilterDefault := false; RefreshItems := None;
  ResolveAction := Some resolve;
  ResolveCommentPrepare := Some quote; ResolveCommentComplete := Some complete;
  QuotePrepare := Some quote; QuoteComplete := Some complete;
  QuoteContextPrepare := Some quote; QuoteContextComplete := Some complete;
  AgentAction := Some (fun _ => Ok "LAUNCH_AGENT:address this comment");
  EditAction := None;
  ReactionAction := Some (fun c => Ok (cid c));
  ReactionComplete := Some (fun _ e => Ok ("Added reaction " ++ e)) |}.

(** A completer that answers with the text it is given. *)
Definition echo (_ : Comment) (text : string) : errable string := Ok text.

Definition tmpPath : string := "/tmp/gh-prreview-0.md".

(** The world once the editor has left [content] in the temporary file. *)
Definition edited (content : string) : World Comment :=
  set_tmp_seq 1 (set_files (<[tmpPath := content]> ∅) world0).

(** A quote session (action 3) on [single], pending on [tmpPath]. *)
Definition quoteSession (o : SelectorOptions Comment) : SelectionModel :=
  set_pendingEditorAction 3
    (set_pendingEditorTmpFile tmpPath (set_pendingEditorItem single (start o))).


Definition resolved (_ : Comment) : errable string := Ok "Resolved".

(** The model after the key Q on [discussion] in the list view: a thread
    pick for the quote action. *)
Definition pickingQuote : SelectionModel :=
  match Update (start (options [discussion] resolved posted)) world0 (KeyMsg "Q") with
  | Return m _ _ => m
  | Panic _ => start (options [discussion] resolved posted)
  end.


(** The reaction picker open on entry 2 (laugh) for comment 7. *)
Definition reacting : SelectionModel :=
  set_reactionCommentID 7
    (set_reactionIdx 2 (set_reactionMode true (start (options [single] resolved posted)))).

(** The detail view of the first item. *)
Definition detailOf (o : SelectorOptions Comment) : SelectionModel :=
  set_showDetail true (start o).

(** The help overlay over the list. *)
Definition helping : SelectionModel := set_showHelp true (start (bare [single])).

(** Threads of one comment pass the filter when it is active. *)
Definition hideThreads (c : Comment) (active : bool) : bool :=
  negb active || (len (thread c) <=? 1).

(** Filter, refresh and edit set, nothing else. *)
Definition browsing (its : list Comment) : SelectorOptions Comment := {|
  Items := its; Renderer := demoRenderer;
  OnSelect := None; OnOpen := None;
  FilterFunc := Some hideThreads; FilterDefault := false;
  RefreshItems := Some (fun _ => Ok [single]);
  ResolveAction := None;
  ResolveCommentPrepare := None; ResolveCommentComplete := None;
  QuotePrepare := None; QuoteComplete := None;
  QuoteContextPrepare := None; QuoteContextComplete := None;
  AgentAction := None;
  EditAction := Some (fun _ => Ok "EDIT_FILE:cmd/browse.go:42");
  ReactionAction := None; ReactionComplete := None |}.

(** A world whose [GH_PRREVIEW_AGENT] is one no-break space, U+00A0
    (bytes C2 A0). *)
Definition blankAgent : World Comment := {|
  files := ∅; tmp_seq := 0; create_err := None; write_err := None; read_err := None;
  env_EDITOR := ""; env_AGENT := String "194"%char (String "160"%char "");
  trace := [] |}.

(** A world in which writing to a new temporary file fails. *)
Definition diskFull : World Comment := {|
  files := ∅; tmp_seq := 0; create_err := None;
  write_err := Some "no space left on device"; read_err := None;
  env_EDITOR := ""; env_AGENT := ""; trace := [] |}.

End Demo.

(** ** Rendering a list item (selector.go, itemDelegate.Render) *)

(** [len(s)] of a string, in bytes. *)
Definition slen (s : string) : Z := Z.of_nat (String.length s).

(** [if len(s) > maxWidth { s = s[:maxWidth-3] + "..." }]; [None] is the
    panic of the negative slice bound. *)
Definition truncate (maxWidth : Z) (s : string) : option string :=
  if maxWidth <? slen s then
    let n := int_sub maxWidth 3 in
    if n <? 0 then None else Some (String.substring 0 (Z.to_nat n) s ++ "...")
  else Some s.

(** The line [Render] writes for an item, before it is styled and marked
    as selected or not; [width] is [m.Width()]. *)
Definition renderLine (width : Z) (title desc : string) : option string :=
  let maxWidth := int_sub width 4 in
  let cut s := if 0 <? maxWidth then truncate maxWidth s else Some s in
  match cut title with
  | None => None
  | Some title =>
      match cut desc with
      | None => None
      | Some desc =>
          Some (if negb (String.eqb desc "") then title ++ " - " ++ desc else title)
      end
  end.


(** ** The browse command (cmd/browse.go) *)

Module github.

(** A reply of a thread: the fields browse.go reads. *)
Record ThreadComment := {
  reply_ID : Z;
  reply_Author : string;
  reply_Body : string }.

(** [github.ReviewComment]: the fields browse.go reads. *)
Record ReviewComment := {
  ID : Z;
  Path : string;
  Line : Z;
  Author : string;
  Body : string;
  DiffHunk : string;
  ThreadComments : list ThreadComment }.

End github.

Module Browse.

(** [BrowseItem]; [Comment] is a pointer, nil on a file header. *)
Record BrowseItem := {
  Type_ : string;
  Path : string;
  Comment : option github.ReviewComment;
  IsPreview : bool;
  SelectedCommentIdx : Z }.

(** *** buildCommentTree *)

(** [a[i], a[j] = a[j], a[i]] under [if a[i] > a[j]]. *)
Definition swapIf {A} (gt : A -> A -> bool) (i j : nat) (a : list A) : list A :=
  match a !! i, a !! j with
  | Some x, Some y => if gt x y then <[i := y]> (<[j := x]> a) else a
  | _, _ => a
  end.

(** [for j := lo; j < hi; j++ { s = body(j, s) }]. *)
Definition forRange {St} (lo hi : nat) (body : nat -> St -> St) (s : St) : St :=
  foldl (fun s j => body j s) s (seq lo (hi - lo)).

(** The two nested loops that sort a slice in place. *)
Definition exchangeSort {A} (gt : A -> A -> bool) (a : list A) : list A :=
  forRange 0 (length a)
    (fun i a => forRange (S i) (length a) (fun j a => swapIf gt i j a) a) a.

(** [filePaths[i] > filePaths[j]] on strings: byte by byte. *)
Definition pathGt (p q : string) : bool := negb (String.leb p q).

(** [fileComments[i].Line > fileComments[j].Line]. *)
Definition lineGt (c d : github.ReviewComment) : bool :=
  github.Line c >? github.Line d.

(** The first loop of [buildCommentTree]: the paths in the order they are
    first met, and the comments of each path in the order of the input. *)
Definition groupByPath (comments : list github.ReviewComment)
    : list string * gmap string (list github.ReviewComment) :=
  foldl (fun '(filePaths, files) c =>
           let filePaths :=
             match files !! github.Path c with
             | Some _ => filePaths
             | None => (filePaths ++ [github.Path c])%list
             end in
           (filePaths,
            <[github.Path c := (default [] (files !! github.Path c) ++ [c])%list]> files))
        ([], ∅) comments.

Definition fileHeader (path : string) : BrowseItem :=
  {| Type_ := "file"; Path := path; Comment := None;
     IsPreview := false; SelectedCommentIdx := 0 |}.

(** The two items of a comment: the comment and its preview line. *)
Definition commentItems (path : string) (c : github.ReviewComment) : list BrowseItem :=
  [ {| Type_ := "comment"; Path := path; Comment := Some c;
       IsPreview := false; SelectedCommentIdx := 0 |};
    {| Type_ := "comment_preview"; Path := path; Comment := Some c;
       IsPreview := true; SelectedCommentIdx := 0 |} ].

(** The body of the last loop: the header of a file, then its comments
    sorted by line. *)
Definition fileBlock (files : gmap string (list github.ReviewComment)) (path : string)
    : list BrowseItem :=
  let fileComments := exchangeSort lineGt (default [] (files !! path)) in
  fileHeader path :: flat_map (commentItems path) fileComments.

Definition buildCommentTree (comments : list github.ReviewComment) : list BrowseItem :=
  let '(filePaths, files) := groupByPath comments in
  let filePaths := exchangeSort pathGt filePaths in
  flat_map (fileBlock files) filePaths.

(** *** The renderer *)

Definition ThreadCommentCount (item : BrowseItem) : Z :=
  if String.eqb (Type_ item) "file" then 0
  else match Comment item with
       | None => 0
       | Some c => int_add 1 (len (github.ThreadComments c))
       end.

Definition WithSelectedComment (item : BrowseItem) (idx : Z) : BrowseItem :=
  {| Type_ := Type_ item; Path := Path item; Comment := Comment item;
     IsPreview := IsPreview item; SelectedCommentIdx := idx |}.

(** [strings.Join(ls, sep)]. *)
Fixpoint Join (ls : list string) (sep : string) : string :=
  match ls with
  | [] => ""
  | [l] => l
  | l :: ls' => l ++ sep ++ Join ls' sep
  end.

(** [if len(s) > limit { s = s[:limit-3] + "..." }] for a constant
    [limit]. *)
Definition ellipsize (limit : nat) (s : string) : string :=
  if Z.of_nat limit <? slen s then String.substring 0 (limit - 3) s ++ "..." else s.

Section Renderer.

(** Of colors.go, and the two regular expressions of browse.go. *)
Variable FormatDiffWithHeaders : string -> string -> string.
Variable StripSuggestionBlock : string -> string.
Variable stripMarkdownForPreview : string -> string.

(** The second half of [ThreadCommentPreview]: the lines that are not
    quoted, trimmed and joined, cut to 100 bytes. *)
Definition previewOf (author body : string) : string :=
  let body := stripMarkdownForPreview body in
  let nonQuotedLines :=
    omap (fun line =>
            let trimmed := TrimSpace line in
            if negb (String.eqb trimmed "") && negb (HasPrefix trimmed ">")
            then Some trimmed else None)
         (SplitLines body) in
  let body := Join nonQuotedLines " " in
  "@" ++ author ++ ": " ++ ellipsize 100 body.

(** [ThreadCommentPreview]; [None] is the panic of
    [item.Comment.ThreadComments[idx-1]]. *)
Definition ThreadCommentPreview (item : BrowseItem) (idx : Z) : option string :=
  match Comment item with
  | None => Some ""
  | Some comment =>
      if idx =? 0 then Some (previewOf (github.Author comment) (github.Body comment))
      else if int_sub idx 1 <? len (github.ThreadComments comment) then
        match nth_error (github.ThreadComments comment) (Z.to_nat (int_sub idx 1)) with
        | Some tc =>
            if 0 <=? int_sub idx 1
            then Some (previewOf (github.reply_Author tc) (github.reply_Body tc))
            else None
        | None => None
        end
      else Some (previewOf "" "")
  end.

(** [Title] of a preview item, before the indentation and the color;
    [None] is the nil comment. *)
Definition previewTitle (item : BrowseItem) : option string :=
  match Comment item with
  | None => None
  | Some comment =>
      match SplitLines (StripSuggestionBlock (github.Body comment)) with
      | [] => Some "..."
      | first :: rest =>
          if 80 <? slen first then Some (String.substring 0 77 first ++ "...")
          else if 1 <? len (first :: rest) then Some (first ++ "...")
          else Some first
      end
  end.

(** *** The callbacks of runBrowse *)

(** What the callbacks do with [SelectedCommentIdx]: the guard
    [idx > 0 && idx-1 < len(comment.ThreadComments)] and, under it, the
    element [comment.ThreadComments[idx-1]]. *)
Inductive Picked :=
| Main
| Reply (tc : github.ThreadComment)
| OutOfRange.

Definition picked (item : BrowseItem) (comment : github.ReviewComment) : Picked :=
  let idx := SelectedCommentIdx item in
  if (0 <? idx) && (int_sub idx 1 <? len (github.ThreadComments comment))
  then match nth_error (github.ThreadComments comment) (Z.to_nat (int_sub idx 1)) with
       | Some tc => if 0 <=? int_sub idx 1 then Reply tc else OutOfRange
       | None => OutOfRange
       end
  else Main.

(** In the callbacks [None] is a panic: the nil comment of an item that
    is no file header, an index out of range. *)
Definition reactionAction (item : BrowseItem) : option (errable Z) :=
  if String.eqb (Type_ item) "file" then Some (Err "cannot react to file header")
  else match Comment item with
       | None => None
       | Some comment =>
           match picked item comment with
           | Reply tc => Some (Ok (github.reply_ID tc))
           | Main => Some (Ok (github.ID comment))
           | OutOfRange => None
           end
       end.

Definition agentAction (item : BrowseItem) : option (errable string) :=
  if String.eqb (Type_ item) "file" then Some (Err "cannot launch agent on file header")
  else match Comment item with
       | None => None
       | Some comment =>
           let prompt body :=
             "Review comment on " ++ github.Path comment ++ ":"
               ++ itoa (github.Line comment) ++ nl ++ nl ++ body in
           match picked item comment with
           | Reply tc => Some (Ok ("LAUNCH_AGENT:" ++ prompt (github.reply_Body tc)))
           | Main => Some (Ok ("LAUNCH_AGENT:" ++ prompt (github.Body comment)))
           | OutOfRange => None
           end
       end.

Definition editAction (item : BrowseItem) : option (errable string) :=
  if String.eqb (Type_ item) "file" then Some (Err "cannot edit file header")
  else match Comment item with
       | None => None
       | Some comment =>
           Some (Ok ("EDIT_FILE:" ++ github.Path comment ++ ":"
                       ++ itoa (github.Line comment)))
       end.

(** [editorPrepareQ] ([includeContext = false]) and [editorPrepareC]. *)
Definition editorPrepare (includeContext : bool) (item : BrowseItem)
    : option (errable string) :=
  if String.eqb (Type_ item) "file" then Some (Err "cannot quote reply to file header")
  else match Comment item with
       | None => None
       | Some comment =>
           let quote author body :=
             FormatQuotedReply FormatDiffWithHeaders StripSuggestionBlock
               author body (github.DiffHunk comment) (github.Path comment)
               includeContext in
           match picked item comment with
           | Reply tc => Some (Ok (quote (github.reply_Author tc) (github.reply_Body tc)))
           | Main => Some (Ok (quote (github.Author comment) (github.Body comment)))
           | OutOfRange => None
           end
       end.

End Renderer.

(** [filterFunc]: the comments of a collapsed file are hidden, and so
    are resolved comments while [hideResolved] is on.  [IsResolved] is
    the method of pkg/github, called on the pointer. *)
Definition filterFunc (collapsedFiles : gmap string bool)
    (IsResolved : option github.ReviewComment -> bool)
    (item : BrowseItem) (hideResolved : bool) : bool :=
  if (String.eqb (Type_ item) "comment" || String.eqb (Type_ item) "comment_preview")
     && default false (collapsedFiles !! Path item)
  then false
  else if hideResolved then
    if String.eqb (Type_ item) "file" then true
    else negb (IsResolved (Comment item))
  else true.

(** What [updateVisibleItems] keeps of the items under [filterFunc]. *)
Definition visible (collapsedFiles : gmap string bool)
    (IsResolved : option github.ReviewComment -> bool) (hideResolved : bool)
    (items : list BrowseItem) : list BrowseItem :=
  List.filter (fun item => filterFunc collapsedFiles IsResolved item hideResolved) items.

(** How the interactive branch of [runBrowse] goes on after [ui.Select]. *)
Inductive AfterSelect :=
| ReturnNil
| ReturnError (e : string)
| PrintHeaderHint
| OpenCommentInBrowser (commentID : Z)
| NilComment.

Definition afterSelect (r : SelectResult (T := BrowseItem)) : AfterSelect :=
  match r with
  | RunError e => ReturnError ("selection cancelled: " ++ e)
  | ErrNoSelection => ReturnNil
  | Selected item =>
      if String.eqb (Type_ item) "file" then PrintHeaderHint
      else match Comment item with
           | Some comment => OpenCommentInBrowser (github.ID comment)
           | None => NilComment
           end
  end.

(** *** Predicates of the statements *)

(** The paths of the file headers of a tree, in order. *)
Definition headerPaths (items : list BrowseItem) : list string :=
  omap (fun item => if String.eqb (Type_ item) "file" then Some (Path item) else None)
       items.

(** The comments a tree lists under [path], in order. *)
Definition commentsUnder (path : string) (items : list BrowseItem)
    : list github.ReviewComment :=
  omap (fun item =>
          if String.eqb (Type_ item) "comment" && String.eqb (Path item) path
          then Comment item else None)
       items.

(** File headers and comments, each comment directly followed by its
    preview line. *)
Inductive tree : list BrowseItem -> Prop :=
| tree_nil : tree []
| tree_file path rest : tree rest -> tree (fileHeader path :: rest)
| tree_comment path c rest : tree rest -> tree (commentItems path c ++ rest)%list.

(** Comments in the order of their lines. *)
Definition byLine (c d : github.ReviewComment) : Prop := github.Line c <= github.Line d.

(** The comments of a thread, the main comment first: id, author, body. *)
Definition thread (comment : github.ReviewComment) : list (Z * string * string) :=
  (github.ID comment, github.Author comment, github.Body comment)
    :: map (fun tc => (github.reply_ID tc, github.reply_Author tc, github.reply_Body tc))
           (github.ThreadComments comment).

(** Invariants of the two loops of [exchangeSort]: the places before [i]
    hold what they will hold at the end; [a[i]] is the least of
    [a[i..j-1]]. *)
Definition settled {A} (le : A -> A -> Prop) (i : nat) (a : list A) : Prop :=
  forall p q x y, (p < q)%nat -> (p < i)%nat ->
    a !! p = Some x -> a !! q = Some y -> le x y.

Definition least {A} (le : A -> A -> Prop) (i j : nat) (a : list A) : Prop :=
  forall k x y, (i < k < j)%nat -> a !! i = Some x -> a !! k = Some y -> le x y.

(** Invariant of the first loop of [buildCommentTree]. *)
Definition grouped (cs : list github.ReviewComment)
    (g : list string * gmap string (list github.ReviewComment)) : Prop :=
  NoDup g.1
  /\ (forall p, p ∈ g.1 <-> is_Some (g.2 !! p))
  /\ (forall p, default [] (g.2 !! p) = filter (fun c => github.Path c = p) cs)
  /\ (forall p, g.2 !! p <> Some []).

End Browse.

(** ** A session of the browse command *)

Module BrowseDemo.

Definition nit : github.ThreadComment :=
  {| github.reply_ID := 11; github.reply_Author := "bob";
     github.reply_Body := "done" |}.

Definition thanks : github.ThreadComment :=
  {| github.reply_ID := 12; github.reply_Author := "alice";
     github.reply_Body := "thanks" |}.

(** A comment with two replies. *)
Definition review : github.ReviewComment :=
  {| github.ID := 10; github.Path := "cmd/browse.go"; github.Line := 42;
     github.Author := "alice"; github.Body := "please rename this";
     github.DiffHunk := ""; github.ThreadComments := [nit; thanks] |}.

(** A second comment on the same line, and one further up in the file. *)
Definition again : github.ReviewComment :=
  {| github.ID := 20; github.Path := "cmd/browse.go"; github.Line := 42;
     github.Author := "carol"; github.Body := "and document it";
     github.DiffHunk := ""; github.ThreadComments := [] |}.

Definition above : github.ReviewComment :=
  {| github.ID := 30; github.Path := "cmd/browse.go"; github.Line := 7;
     github.Author := "bob"; github.Body := "unused import";
     github.DiffHunk := ""; github.ThreadComments := [] |}.

(** The item of [review] in the tree. *)
Definition item : Browse.BrowseItem :=
  {| Browse.Type_ := "comment"; Browse.Path := "cmd/browse.go";
     Browse.Comment := Some review; Browse.IsPreview := false;
     Browse.SelectedCommentIdx := 0 |}.

Record BrowseList := {
  b_items : list Browse.BrowseItem;
  b_status : string }.

(** A list widget whose cursor stands on the second item, the first
    comment under the first file header; a viewport that is its content
    and offset; colours switched off. *)
#[global] Instance browseToolkit : Toolkit Browse.BrowseItem := {|
  ListModel := BrowseList;
  Viewport := string * Z;
  zero := Browse.fileHeader "";
  list_New := fun its => {| b_items := its; b_status := "" |};
  list_SetSize := fun l _ _ => l;
  list_SelectedItem := fun l => nth_error (b_items l) 1;
  list_SettingFilter := fun _ => false;
  list_Index := fun _ => 1;
  list_SetItems := fun l its => ({| b_items := its; b_status := b_status l |}, CmdNil);
  list_SetItem := fun l _ _ => (l, CmdNil);
  list_NewStatusMessage := fun l text => {| b_items := b_items l; b_status := text |};
  list_Update := fun l _ => (l, CmdNil);
  viewport_zero := ("", 0);
  viewport_New := fun _ _ => ("", 0);
  viewport_SetContent := fun v content => (content, snd v);
  viewport_GotoTop := fun v => (fst v, 0);
  viewport_PageDown := fun v => v;
  viewport_PageUp := fun v => v;
  viewport_SetYOffset := fun v off => (fst v, off);
  viewport_Update := fun v _ => (v, CmdNil);
  Sscanf_d := Demo.scanDecimal;
  Colorize := fun _ text => text;
  ColorRed := "";
  ColorGreen := "" |}.

(** The renderer of browse.go, a panic of the preview shown as nothing. *)
Definition renderer : ItemRenderer Browse.BrowseItem := {|
  PreviewWithHighlight := fun _ _ => "";
  ThreadCommentCount := Browse.ThreadCommentCount;
  ThreadCommentPreview := fun it idx =>
    default "" (Browse.ThreadCommentPreview (fun text => text) it idx);
  WithSelectedComment := Browse.WithSelectedComment |}.

(** The reaction callbacks of [runBrowse] on the tree of [review]. *)
Definition options : SelectorOptions Browse.BrowseItem := {|
  Items := Browse.buildCommentTree [review]; Renderer := renderer;
  OnSelect := None; OnOpen := None; FilterFunc := None; FilterDefault := false;
  RefreshItems := None; ResolveAction := None;
  ResolveCommentPrepare := None; ResolveCommentComplete := None;
  QuotePrepare := None; QuoteComplete := None;
  QuoteContextPrepare := None; QuoteContextComplete := None;
  AgentAction := None; EditAction := None;
  ReactionAction :=
    Some (fun it => default (Err "panic") (Browse.reactionAction it));
  ReactionComplete := Some (fun _ e => Ok (e ++ " reaction added.")) |}.

Definition world0 : World Browse.BrowseItem := {|
  files := ∅; tmp_seq := 0; create_err := None; write_err := None; read_err := None;
  env_EDITOR := ""; env_AGENT := ""; trace := [] |}.

(** The pick for a reaction, on the first reply of [review]. *)
Definition pickingReply : SelectionModel :=
  set_commentSelectIdx 1 (enterCommentSelectMode (initialModel options) "x" item).

End BrowseDemo.


(** * Properties *)

(** ** Go primitives *)

Lemma wrap_int_small (z : Z) : - 2 ^ 63 <= z < 2 ^ 63 -> wrap_int z = z.
Proof.
  intros H. unfold wrap_int.
  rewrite Z.mod_small by lia. lia.
Qed.

Lemma eqb_empty_false (s : string) : s <> "" -> String.eqb s "" = false.
Proof. intros H. destruct (String.eqb_spec s ""); congruence. Qed.

Lemma pressAnyKey_nonempty (text : string) : pressAnyKey text <> "".
Proof.
  unfold pressAnyKey. destruct text; simpl; discriminate.
Qed.

(** Case analysis on the innermost scrutinee of the goal. *)
Ltac break_one :=
  match goal with
  | |- context [match ?x with _ => _ end] =>
      lazymatch x with
      | context [match _ with _ => _ end] => fail
      | _ => destruct x eqn:?
      end
  end.

Ltac break := repeat break_one.

(** Projections of updated records. *)
Ltac fields :=
  cbn [lst items opts result filterActive windowSize viewport loadingDetail
    refreshing showHelp confirmationMessage reactionMode reactionIdx
    reactionCommentID showDetail pendingEditorItem pendingEditorTmpFile
    pendingEditorAction commentSelectMode commentSelectAction
    commentSelectIdx commentSelectItem commentSelectInDetail
    commentSelectStatus set_lst set_items set_result set_filterActive
    set_windowSize set_viewport set_loadingDetail set_refreshing
    set_showHelp set_confirmationMessage set_reactionMode set_reactionIdx
    set_reactionCommentID set_showDetail set_pendingEditorItem
    set_pendingEditorTmpFile set_pendingEditorAction set_commentSelectMode
    set_commentSelectAction set_commentSelectIdx set_commentSelectItem
    set_commentSelectInDetail set_commentSelectStatus files tmp_seq
    create_err write_err read_err env_EDITOR env_AGENT trace set_files
    set_tmp_seq set_trace exitCommentSelectMode enterCommentSelectMode
    enterReactionMode Remove called].

Ltac fields_in H :=
  cbn [lst items opts result filterActive windowSize viewport loadingDetail
    refreshing showHelp confirmationMessage reactionMode reactionIdx
    reactionCommentID showDetail pendingEditorItem pendingEditorTmpFile
    pendingEditorAction commentSelectMode commentSelectAction
    commentSelectIdx commentSelectItem commentSelectInDetail
    commentSelectStatus set_lst set_items set_result set_filterActive
    set_windowSize set_viewport set_loadingDetail set_refreshing
    set_showHelp set_confirmationMessage set_reactionMode set_reactionIdx
    set_reactionCommentID set_showDetail set_pendingEditorItem
    set_pendingEditorTmpFile set_pendingEditorAction set_commentSelectMode
    set_commentSelectAction set_commentSelectIdx set_commentSelectItem
    set_commentSelectInDetail set_commentSelectStatus files tmp_seq
    create_err write_err read_err env_EDITOR env_AGENT trace set_files
    set_tmp_seq set_trace exitCommentSelectMode enterCommentSelectMode
    enterReactionMode Remove called] in H.

(** The bodies of [Update] and of the helpers it calls. *)
Ltac unfold_update :=
  unfold Update, updateKey, commentSelectKey, dispatchKey, detailKey, listKey,
    reactionKey, handleEditorFinished, listDefault, executeCommentAction,
    handleQuoteKey, handleQuoteContextKey, handleEditorKey, handleAgentKey,
    handleReactionKey, runAgentAction, runReactionAction, resolveCommentKey,
    editKey, runCustomAction, startThreadPick, startEditorForAction,
    showCommentSelectStatus, showReactionStatus, editInEditor, status.


(** ** The editor helper *)

Lemma sanitize_table :
  forallb (row_ok SanitizeEditorContent) sanitize_test_table = true.
Proof. vm_compute. reflexivity. Qed.

Lemma SplitLines_cons (l rest : string) :
  oneLine l = true -> SplitLines (l ++ nl ++ rest) = l :: SplitLines rest.
Proof.
  induction l as [|c l IH]; intros Hl.
  - reflexivity.
  - cbn in Hl. apply andb_prop in Hl as [Hc Hl].
    apply negb_true_iff in Hc. simpl. rewrite Hc.
    rewrite (IH Hl). reflexivity.
Qed.

Lemma SplitLines_oneLine (l : string) : oneLine l = true -> SplitLines l = [l].
Proof.
  induction l as [|c l IH]; intros Hl.
  - reflexivity.
  - cbn in Hl. apply andb_prop in Hl as [Hc Hl].
    apply negb_true_iff in Hc. simpl. rewrite Hc, (IH Hl). reflexivity.
Qed.

(** [strings.Split] undoes [strings.Join] on lines without line feed. *)
Lemma SplitLines_JoinLines (ls : list string) :
  ls <> [] -> forallb oneLine ls = true -> SplitLines (JoinLines ls) = ls.
Proof.
  induction ls as [|l ls IH]; intros Hne Hls; [congruence|].
  cbn in Hls. apply andb_prop in Hls as [Hl Hls].
  destruct ls as [|l' ls].
  - cbn. apply SplitLines_oneLine, Hl.
  - change (JoinLines (l :: l' :: ls)) with (l ++ nl ++ JoinLines (l' :: ls)).
    rewrite (SplitLines_cons _ _ Hl), IH by (congruence || assumption). reflexivity.
Qed.

Lemma dropTrailingComments_all (tail : list string) :
  forallb droppable tail = true -> dropTrailingComments tail = [].
Proof.
  induction tail as [|l tail IH]; intros H; [reflexivity|].
  cbn in H. apply andb_prop in H as [Hl Htail].
  cbn. rewrite (IH Htail). unfold droppable in Hl. rewrite Hl. reflexivity.
Qed.

Lemma dropTrailingComments_last (kept tail : list string) (l : string) :
  droppable l = false -> forallb droppable tail = true ->
  dropTrailingComments (kept ++ l :: tail)%list = (kept ++ [l])%list.
Proof.
  intros Hl Htail. induction kept as [|k kept IH].
  - cbn. rewrite (dropTrailingComments_all _ Htail).
    unfold droppable in Hl. rewrite Hl. reflexivity.
  - cbn [app dropTrailingComments]. rewrite IH.
    destruct kept; reflexivity.
Qed.

(** Content made of comment and blank lines only sanitizes to the empty
    string. *)
Lemma sanitize_comments_only (ls : list string) :
  forallb oneLine ls = true -> forallb droppable ls = true ->
  SanitizeEditorContent (JoinLines ls) = "".
Proof.
  intros Hlines Hdrop. unfold SanitizeEditorContent.
  destruct ls as [|l ls]; [reflexivity|].
  rewrite SplitLines_JoinLines by (congruence || assumption).
  rewrite (dropTrailingComments_all _ Hdrop). reflexivity.
Qed.

(** C6 as stated fails: not every line that begins with [#] is stripped.
    On the fourth row of the test table the comment line stands between
    two lines of content and the helper returns the content unchanged,
    where stripping every comment line would leave two lines. *)
Lemma sanitize_keeps_comment_line_before_content :
  SanitizeEditorContent (JoinLines ["User content"; "# This is a comment"; "More content"])
  = JoinLines ["User content"; "# This is a comment"; "More content"]
  /\ isCommentLine "# This is a comment" = true
  /\ In "# This is a comment"
        (SplitLines (SanitizeEditorContent
                       (JoinLines ["User content"; "# This is a comment"; "More content"])))
  /\ sanitize_every_comment_line
        (JoinLines ["User content"; "# This is a comment"; "More content"])
     = JoinLines ["User content"; "More content"]
  /\ existsb (fun row => negb (row_ok sanitize_every_comment_line row)) sanitize_test_table
     = true.
Proof.
  split; [reflexivity|]. split; [reflexivity|].
  split; [right; left; reflexivity|]. split; reflexivity.
Qed.

(** ** Strings *)

Lemma HasPrefix_app (p s : string) : HasPrefix (p ++ s) p = true.
Proof.
  unfold HasPrefix. induction p as [|c p IH]; [destruct s; reflexivity|].
  simpl. destruct (ascii_dec c c); [exact IH|contradiction].
Qed.

Lemma substring_all (s : string) : String.substring 0 (String.length s) s = s.
Proof. induction s as [|c s IH]; simpl; [reflexivity|]. rewrite IH. reflexivity. Qed.

Lemma substring_app (p s : string) :
  String.substring (String.length p) (String.length s) (p ++ s) = s.
Proof.
  induction p as [|c p IH]; simpl; [apply substring_all|exact IH].
Qed.

Lemma length_app (p s : string) :
  String.length (p ++ s) = (String.length p + String.length s)%nat.
Proof. induction p as [|c p IH]; simpl; [reflexivity|]. rewrite IH. reflexivity. Qed.

(** [strings.TrimPrefix] takes off exactly the prefix that was put on. *)
Lemma TrimPrefix_app (p s : string) : TrimPrefix (p ++ s) p = s.
Proof.
  unfold TrimPrefix. rewrite HasPrefix_app, length_app.
  replace (String.length p + String.length s - String.length p)%nat
    with (String.length s) by lia.
  apply substring_app.
Qed.

Lemma SplitColon2_app (path rest : string) :
  noColon path = true -> SplitColon2 (path ++ ":" ++ rest) = [path; rest].
Proof.
  induction path as [|c path IH]; intros H; [reflexivity|].
  cbn in H. apply andb_prop in H as [Hc Hpath]. apply negb_true_iff in Hc.
  simpl. rewrite Hc. rewrite (IH Hpath). reflexivity.
Qed.

Lemma append_nonempty (s : string) (c : ascii) : s ++ String c "" <> "".
Proof. destruct s; discriminate. Qed.

Lemma FieldsFrom_nil (s : string) : forall skip cur,
  FieldsFrom skip cur s = [] <-> cur = "" /\ allSpaceFrom skip s = true.
Proof.
  induction s as [|c s IH]; intros skip cur.
  - cbn. destruct (String.eqb_spec cur ""); split; intros H;
      try tauto; try discriminate.
  - cbn [FieldsFrom allSpaceFrom]. destruct skip as [|k]; [|apply IH].
    destruct (spaceWidth (String c s)) as [|k].
    + rewrite IH. split; [|intros [_ H]; discriminate].
      intros [H _]. exfalso. exact (append_nonempty _ _ H).
    + destruct (String.eqb_spec cur "") as [->|Hcur].
      * rewrite IH. tauto.
      * split; [discriminate|]. intros [H _]. contradiction.
Qed.


(** ** Quoting a comment *)

Lemma SplitLines_nonempty (s : string) : SplitLines s <> [].
Proof.
  induction s as [|c s IH]; simpl; [discriminate|].
  destruct (Ascii.eqb c LF); [discriminate|].
  destruct (SplitLines s); discriminate.
Qed.

Lemma SplitLines_lines (s : string) : forallb oneLine (SplitLines s) = true.
Proof.
  induction s as [|c s IH]; simpl; [reflexivity|].
  destruct (Ascii.eqb c LF) eqn:Hc; [exact IH|].
  destruct (SplitLines s) as [|l ls]; simpl in *; [rewrite Hc; reflexivity|].
  rewrite Hc. exact IH.
Qed.

(** [strings.Join] undoes [strings.Split]. *)
Lemma JoinLines_SplitLines (s : string) : JoinLines (SplitLines s) = s.
Proof.
  induction s as [|c s IH]; simpl; [reflexivity|].
  destruct (Ascii.eqb_spec c LF) as [->|Hc].
  - pose proof (SplitLines_nonempty s) as Hne.
    destruct (SplitLines s) as [|l ls]; [contradiction|].
    change (JoinLines ("" :: l :: ls)) with ("" ++ nl ++ JoinLines (l :: ls)).
    rewrite IH. reflexivity.
  - pose proof (SplitLines_nonempty s) as Hne.
    destruct (SplitLines s) as [|l ls]; [contradiction|].
    destruct ls as [|l' ls].
    + simpl in *. rewrite IH. reflexivity.
    + change (JoinLines (String c l :: l' :: ls))
        with (String c (l ++ nl ++ JoinLines (l' :: ls))).
      change (JoinLines (l :: l' :: ls)) with (l ++ nl ++ JoinLines (l' :: ls)) in IH.
      rewrite IH. reflexivity.
Qed.

Lemma SplitLines_app_nl (a b : string) :
  SplitLines (a ++ nl ++ b) = (SplitLines a ++ SplitLines b)%list.
Proof.
  induction a as [|c a IH]; simpl; [reflexivity|].
  destruct (Ascii.eqb c LF).
  - simpl in IH. rewrite IH. reflexivity.
  - simpl in IH. rewrite IH. pose proof (SplitLines_nonempty a) as Hne.
    destruct (SplitLines a); [contradiction|reflexivity].
Qed.

Lemma append_assoc (a b c : string) : (a ++ b) ++ c = a ++ b ++ c.
Proof.
  induction a as [|x a IH]; [reflexivity|].
  change (String x ((a ++ b) ++ c) = String x (a ++ b ++ c)). rewrite IH. reflexivity.
Qed.

Lemma JoinLines_app (ps qs : list string) :
  ps <> [] -> qs <> [] ->
  JoinLines (ps ++ qs)%list = JoinLines ps ++ nl ++ JoinLines qs.
Proof.
  intros Hps Hqs. induction ps as [|p ps IH]; [contradiction|].
  destruct ps as [|p' ps].
  - destruct qs as [|q qs]; [contradiction|]. reflexivity.
  - change (JoinLines ((p :: p' :: ps) ++ qs)%list)
      with (p ++ nl ++ JoinLines ((p' :: ps) ++ qs)%list).
    rewrite IH by discriminate.
    change (JoinLines (p :: p' :: ps)) with (p ++ nl ++ JoinLines (p' :: ps)).
    rewrite !append_assoc. reflexivity.
Qed.

Lemma SplitLines_JoinLines_concat (ps : list string) :
  ps <> [] -> SplitLines (JoinLines ps) = concat (map SplitLines ps).
Proof.
  intros Hps. induction ps as [|p ps IH]; [contradiction|].
  destruct ps as [|p' ps].
  - simpl. rewrite app_nil_r. reflexivity.
  - change (JoinLines (p :: p' :: ps)) with (p ++ nl ++ JoinLines (p' :: ps)).
    rewrite SplitLines_app_nl, IH by discriminate. reflexivity.
Qed.

Lemma oneLine_quoted (l : string) : oneLine l = true -> oneLine ("> " ++ l) = true.
Proof. intros H. simpl. exact H. Qed.

Lemma quoted_lines (ls : list string) :
  forallb oneLine ls = true ->
  forallb oneLine (map (String.append "> ") ls) = true.
Proof.
  induction ls as [|l ls IH]; intros H; [reflexivity|].
  simpl in H. apply andb_prop in H as [Hl Hls].
  change (map (String.append "> ") (l :: ls))
    with (("> " ++ l) :: map (String.append "> ") ls).
  cbn [forallb]. rewrite (oneLine_quoted _ Hl), (IH Hls). reflexivity.
Qed.

(** [FormatBlockquote] puts "> " in front of every line of a non-empty
    text and changes nothing else: the lines of the result are the lines
    of the text, one for one, each behind the marker.  The empty text
    gives a bare ">". *)
Theorem FormatBlockquote_lines (text : string)
    (Htext : text <> "") :
  SplitLines (FormatBlockquote text) = map (String.append "> ") (SplitLines text)
  /\ length (SplitLines (FormatBlockquote text)) = length (SplitLines text)
  /\ FormatBlockquote "" = ">".
Proof.
  assert (H : SplitLines (FormatBlockquote text)
              = map (String.append "> ") (SplitLines text)).
  { unfold FormatBlockquote. rewrite (eqb_empty_false _ Htext).
    apply SplitLines_JoinLines.
    - pose proof (SplitLines_nonempty text). destruct (SplitLines text); [contradiction|].
      discriminate.
    - apply quoted_lines, SplitLines_lines. }
  split; [exact H|]. split; [rewrite H; apply length_map|reflexivity].
Qed.

Lemma quotedText_marked (ls : list string) :
  ls <> [] -> forallb oneLine ls = true ->
  quotedText (JoinLines (map (String.append "> ") ls)).
Proof.
  intros Hne Hls. unfold quotedText.
  rewrite SplitLines_JoinLines.
  - clear. induction ls as [|l ls IH]; constructor; [reflexivity|exact IH].
  - destruct ls; [contradiction|discriminate].
  - apply quoted_lines, Hls.
Qed.

Lemma quotedText_FormatBlockquote (text : string) : quotedText (FormatBlockquote text).
Proof.
  unfold FormatBlockquote. destruct (String.eqb text "").
  - unfold quotedText. simpl. repeat constructor.
  - apply quotedText_marked; [apply SplitLines_nonempty|apply SplitLines_lines].
Qed.

Lemma quotedText_JoinLines (ps : list string) :
  ps <> [] -> Forall quotedText ps -> quotedText (JoinLines ps).
Proof.
  intros Hne Hps. unfold quotedText. rewrite SplitLines_JoinLines_concat by exact Hne.
  induction Hps as [|p ps Hp Hps IH]; [contradiction|].
  simpl. apply Forall_app. split; [exact Hp|].
  destruct ps as [|p' ps]; [constructor|]. apply IH. discriminate.
Qed.

Lemma quotedText_one (l : string) : oneLine l = true -> quotedText ("> " ++ l).
Proof.
  intros Hl. unfold quotedText.
  rewrite (SplitLines_oneLine _ (oneLine_quoted _ Hl)). repeat constructor.
Qed.

Lemma quotedText_each (ls : list string) :
  forallb oneLine ls = true -> Forall quotedText (map (String.append "> ") ls).
Proof.
  induction ls as [|l ls IH]; intros H; [constructor|].
  simpl in H. apply andb_prop in H as [Hl Hls].
  constructor; [apply quotedText_one, Hl|apply IH, Hls].
Qed.

(** Whatever the author, the body, the hunk and the helpers of colors.go
    are, [FormatQuotedReply] returns quoted text followed by two line
    feeds: every line before the two empty lines left for the reply
    starts with ">", and the quoted text is not empty. *)
Theorem FormatQuotedReply_shape (FormatDiffWithHeaders : string -> string -> string)
    (StripSuggestionBlock : string -> string)
    (author body diffHunk path : string) (includeContext : bool) :
  exists quoted,
    FormatQuotedReply FormatDiffWithHeaders StripSuggestionBlock
      author body diffHunk path includeContext
    = quoted ++ nl ++ nl
    /\ quotedText quoted
    /\ quoted <> "".
Proof.
  set (ps := quotedParts FormatDiffWithHeaders StripSuggestionBlock
               author body diffHunk path includeContext).
  assert (Hps : ps <> [] /\ Forall quotedText ps).
  { subst ps. unfold quotedParts.
    set (context := if (includeContext && negb (String.eqb diffHunk ""))%bool
                    then _ else []).
    assert (Hcontext : Forall quotedText context).
    { subst context. destruct (includeContext && negb (String.eqb diffHunk ""))%bool;
        [|constructor].
      apply Forall_app. split; [repeat constructor|].
      apply Forall_app. split; [apply quotedText_each, SplitLines_lines|].
      repeat constructor. }
    assert (Hhead : Forall quotedText
                      (context ++ [FormatBlockquote ("@" ++ author ++ " wrote:"); ">"])%list).
    { apply Forall_app. split; [exact Hcontext|].
      constructor; [apply quotedText_FormatBlockquote|repeat constructor]. }
    destruct (negb (String.eqb (StripSuggestionBlock body) "")).
    - split; [destruct context; discriminate|].
      apply Forall_app. split; [exact Hhead|].
      constructor; [apply quotedText_FormatBlockquote|constructor].
    - split; [destruct context; discriminate|exact Hhead]. }
  destruct Hps as [Hne Hquoted].
  exists (JoinLines ps). split; [|split].
  - unfold FormatQuotedReply. fold ps. rewrite JoinLines_app by (assumption || discriminate).
    reflexivity.
  - apply quotedText_JoinLines; assumption.
  - intros Hempty. pose proof (quotedText_JoinLines ps Hne Hquoted) as Hq.
    rewrite Hempty in Hq. unfold quotedText in Hq. simpl in Hq.
    inversion Hq as [|? ? Hhd _]. discriminate Hhd.
Qed.


Create HintDb no_item_db.
Create HintDb runs_db.

(** One function of the engine at a time: the cases of its body, the
    helpers it calls left to the lemmas of the hint database. *)
Ltac no_item_cases :=
  break; cbn [keeps]; try exact I;
  eauto with no_item_db.

Section EngineFacts.

Context {T : Type} {TK : Toolkit T}.
Implicit Types (m : SelectionModel) (w : World T) (key text : string).

(** ** Reaction pick *)

(** C8. The reaction catalog is +1, -1, laugh, confused, heart, hooray,
    rocket, eyes, eight entries in this order, and with the reaction
    picker open on entry [i] the key x moves it to entry [(i + 1) mod 8],
    the picker staying open and showing that entry. *)
Theorem reaction_cycle_mod_8 m w
    (Hmode : mode_of m = ReactionPick)
    (Hidx : 0 <= reactionIdx m < 8) :
  map name reactionEmojis
    = ["+1"; "-1"; "laugh"; "confused"; "heart"; "hooray"; "rocket"; "eyes"]
  /\ len reactionEmojis = 8
  /\ exists m' e,
       Update m w (KeyMsg "x")
         = Return m' w (CmdStatus ("React: [" ++ itoa (reactionIdx m' + 1) ++ "/8] "
                                     ++ display e ++ " (x=next, Enter=add, Esc=cancel)"))
       /\ reactionIdx m' = (reactionIdx m + 1) mod 8
       /\ nth_error reactionEmojis (Z.to_nat (reactionIdx m')) = Some e
       /\ mode_of m' = ReactionPick.
Proof.
  split; [reflexivity|]. split; [reflexivity|].
  unfold mode_of in Hmode.
  destruct (showHelp m) eqn:Hhelp; [discriminate|].
  destruct (negb (String.eqb (confirmationMessage m) "")) eqn:Hconf; [discriminate|].
  destruct (reactionMode m) eqn:Hreact;
    [|destruct (commentSelectMode m); [|destruct (showDetail m)]; discriminate].
  assert (Hnext : int_rem (int_add (reactionIdx m) 1) (len reactionEmojis)
                  = (reactionIdx m + 1) mod 8).
  { unfold int_rem, int_add. rewrite wrap_int_small by lia.
    change (len reactionEmojis) with 8. rewrite Z.rem_mod_nonneg by lia. reflexivity. }
  assert (Hrange : 0 <= (reactionIdx m + 1) mod 8 < 8) by (apply Z.mod_pos_bound; lia).
  set (i' := (reactionIdx m + 1) mod 8) in *.
  assert (Hemoji : exists e, emoji_at i' = Some e
                             /\ nth_error reactionEmojis (Z.to_nat i') = Some e).
  { unfold emoji_at. change (len reactionEmojis) with 8.
    destruct (Z.leb_spec 0 i'); [|lia]. destruct (Z.ltb_spec i' 8); [|lia]. simpl.
    destruct (nth_error reactionEmojis (Z.to_nat i')) eqn:Hnth; [eauto|].
    apply nth_error_None in Hnth. simpl in Hnth. lia. }
  destruct Hemoji as (e & Hat & Hnth).
  exists (set_lst (list_NewStatusMessage (lst m)
                     ("React: [" ++ itoa (i' + 1) ++ "/8] " ++ display e
                        ++ " (x=next, Enter=add, Esc=cancel)"))
            (set_reactionIdx i' m)), e.
  split.
  - unfold Update, updateKey. rewrite Hhelp, Hconf, Hreact.
    unfold reactionKey. simpl String.eqb. cbv iota.
    rewrite Hnext. fold i'. unfold showReactionStatus.
    cbn [reactionIdx set_reactionIdx]. rewrite Hat.
    unfold status. cbn [lst set_reactionIdx reactionIdx set_lst].
    unfold int_add. rewrite wrap_int_small by lia. reflexivity.
  - split; [reflexivity|]. split; [exact Hnth|].
    unfold mode_of. cbn. rewrite Hhelp, Hconf, Hreact. reflexivity.
Qed.

(** ** Editor sessions *)

(** What [handleEditorFinished] does once the editor has exited without
    error and the temporary file of the pending session has been read: the
    file is removed and the session closed before anything else. *)
Lemma handleEditorFinished_read m w content :
  pendingEditorTmpFile m <> "" ->
  ReadFile w (pendingEditorTmpFile m) = Ok content ->
  handleEditorFinished m w None
  = let w' := Remove w (pendingEditorTmpFile m) in
    let m' := set_pendingEditorTmpFile "" m in
    if String.eqb (SanitizeEditorContent content) "" then
      status m' w' "Cancelled (empty content)"
    else
      match completerOf (opts m) (pendingEditorAction m) with
      | None => Return m' w' CmdNil
      | Some (cb, completer) =>
          let r := completer (pendingEditorItem m) (SanitizeEditorContent content) in
          let w'' := called cb (Some (pendingEditorItem m)) m' r w' in
          match r with
          | Err e => status m' w'' (Colorize ColorRed e)
          | Ok result =>
              if Contains result "https://"
              then Return (set_confirmationMessage (pressAnyKey result) m') w'' CmdNil
              else if negb (String.eqb result "") then status m' w'' result
              else Return m' w'' CmdNil
          end
      end.
Proof.
  intros Hpending Hread. unfold handleEditorFinished.
  rewrite (eqb_empty_false _ Hpending), Hread. reflexivity.
Qed.

Lemma Remove_gone w path : files (Remove w path) !! path = None.
Proof. unfold Remove. cbn. apply lookup_delete_eq. Qed.

Lemma Remove_trace w path : trace (Remove w path) = trace w.
Proof. reflexivity. Qed.

(** An editor that exits with an error (or cannot be started) makes
    [handleEditorFinished] return at once: the world is what it was, the
    model too, up to the status line of the list. *)
Lemma handleEditorFinished_error m w e :
  Update m w (editorFinishedMsg (Some e))
  = Return (set_lst (list_NewStatusMessage (lst m) (Colorize ColorRed ("Editor error: " ++ e))) m)
           w (CmdStatus (Colorize ColorRed ("Editor error: " ++ e))).
Proof. reflexivity. Qed.

(** C6, corrected. When an editor session completes (the editor has
    exited without error and the temporary file of the pending session
    has been read), the content is sanitized by [SanitizeEditorContent]
    before anything is done with it.  If nothing is left the session is
    cancelled: no callback is invoked, the status line says
    "Cancelled (empty content)".  Otherwise the completer of the pending
    action, when there is one, is invoked once, and what [Update] returns
    is decided by what the completer answers on the pending item and the
    sanitized content.  In either case the temporary file is gone and the
    session closed.  Of the helper itself, whose body is modelled, the
    statement says what its test table says: every row of
    [TestSanitizeEditorContent] holds (comment lines at the end of the
    content are stripped, a comment line followed by content is kept),
    and the content of the spec's example, "body" and a comment line,
    sanitizes to exactly "body". *)
Theorem editor_content_is_sanitized m w content
    (Hpending : pendingEditorTmpFile m <> "")
    (Hread : ReadFile w (pendingEditorTmpFile m) = Ok content) :
  let sanitized := SanitizeEditorContent content in
  let item := pendingEditorItem m in
  (exists m' w' c,
     Update m w (editorFinishedMsg None) = Return m' w' c
     /\ pendingEditorTmpFile m' = ""
     /\ files w' !! pendingEditorTmpFile m = None
     /\ (sanitized = "" ->
           c = CmdStatus "Cancelled (empty content)" /\ trace w' = trace w)
     /\ (sanitized <> "" ->
         forall cb completer,
           completerOf (opts m) (pendingEditorAction m) = Some (cb, completer) ->
           trace w' = (trace w ++ [ {| ev_callback := cb; ev_item := Some item;
                                       ev_mode := mode_of m;
                                       ev_failed := is_err (completer item sanitized) |} ])%list
           /\ match completer item sanitized with
              | Err e => c = CmdStatus (Colorize ColorRed e)
              | Ok result =>
                  if Contains result "https://"
                  then confirmationMessage m' = pressAnyKey result /\ c = CmdNil
                  else if String.eqb result "" then c = CmdNil
                  else c = CmdStatus result
              end))
  /\ forallb (row_ok SanitizeEditorContent) sanitize_test_table = true
  /\ SanitizeEditorContent (JoinLines ["body"; "# instructions"; ""]) = "body".
Proof.
  intros sanitized item. subst sanitized item.
  split; [|split; [exact sanitize_table|reflexivity]].
  cbn [Update]. rewrite (handleEditorFinished_read m w content Hpending Hread).
  cbv zeta.
  destruct (String.eqb_spec (SanitizeEditorContent content) "") as [Hempty|Hfull].
  - eexists _, _, _. split; [reflexivity|]. split; [reflexivity|].
    split; [apply Remove_gone|].
    split; [intros _; split; reflexivity|]. intros Hne. contradiction.
  - destruct (completerOf (opts m) (pendingEditorAction m)) as [[cb completer]|]
      eqn:Hcompleter.
    + destruct (completer (pendingEditorItem m) (SanitizeEditorContent content))
        as [result|e] eqn:Hanswer.
      * destruct (Contains result "https://") eqn:Hurl;
          [|destruct (String.eqb result "") eqn:Hres; cbn [negb]].
        all: eexists _, _, _; split; [reflexivity|]; split; [reflexivity|];
          split; [apply Remove_gone|]; split; [intros He; contradiction|];
          intros _ cb' completer' Heq; injection Heq as <- <-;
          rewrite Hanswer; split; [reflexivity|]; rewrite ?Hurl, ?Hres;
          first [reflexivity|split; reflexivity].
      * eexists _, _, _. split; [reflexivity|]. split; [reflexivity|].
        split; [apply Remove_gone|]. split; [intros He; contradiction|].
        intros _ cb' completer' Heq. injection Heq as <- <-.
        rewrite Hanswer. split; reflexivity.
    + eexists _, _, _. split; [reflexivity|]. split; [reflexivity|].
      split; [apply Remove_gone|]. split; [intros He; contradiction|].
      intros _ cb' completer' Heq. discriminate Heq.
Qed.



(** ** The result of Select *)

Lemma cycleCommentSelection_result m m' :
  cycleCommentSelection m = Some m' -> result m' = result m.
Proof.
  unfold cycleCommentSelection. destruct (_ =? 0); [discriminate|].
  intros [= <-]. reflexivity.
Qed.

Lemma updateDetailViewWithHighlight_result m :
  result (updateDetailViewWithHighlight m) = result m.
Proof. unfold updateDetailViewWithHighlight. break; reflexivity. Qed.

Lemma updateVisibleItems_result m : result (updateVisibleItems m) = result m.
Proof. reflexivity. Qed.

#[local] Hint Extern 1 (no_item _) =>
  unfold no_item in *; fields;
  rewrite ?updateDetailViewWithHighlight_result; fields;
  first [assumption | reflexivity] : no_item_db.

Lemma status_no_item m w text :
  no_item m -> keeps no_item (status m w text).
Proof. intros H. unfold status. no_item_cases. Qed.

#[local] Hint Resolve status_no_item : no_item_db.

Lemma startEditorForAction_no_item m w (item : T) (action : Z) :
  no_item m -> keeps no_item (startEditorForAction m w item action).
Proof. intros H. unfold startEditorForAction. no_item_cases. Qed.

#[local] Hint Resolve startEditorForAction_no_item : no_item_db.

Lemma handleEditorFinished_no_item m w (err : option string) :
  no_item m -> keeps no_item (handleEditorFinished m w err).
Proof. intros H. unfold handleEditorFinished. no_item_cases. Qed.

#[local] Hint Resolve handleEditorFinished_no_item : no_item_db.

Lemma runCustomAction_no_item m w cb (action : option CustomAction) :
  no_item m -> keeps no_item (runCustomAction cb action m w).
Proof. intros H. unfold runCustomAction. no_item_cases. Qed.

#[local] Hint Resolve runCustomAction_no_item : no_item_db.

Lemma editKey_no_item m w (b : bool) :
  no_item m -> keeps no_item (editKey m w b).
Proof. intros H. unfold editKey, editInEditor. no_item_cases. Qed.

#[local] Hint Resolve editKey_no_item : no_item_db.

Lemma resolveCommentKey_no_item m w (b : bool) :
  no_item m -> keeps no_item (resolveCommentKey m w b).
Proof. intros H. unfold resolveCommentKey. no_item_cases. Qed.

#[local] Hint Resolve resolveCommentKey_no_item : no_item_db.

Lemma startThreadPick_no_item m w key (item : T) (b : bool) :
  no_item m -> keeps no_item (startThreadPick m w key item b).
Proof. intros H. unfold startThreadPick, showCommentSelectStatus. no_item_cases. Qed.

#[local] Hint Resolve startThreadPick_no_item : no_item_db.

Lemma handleEditorKey_no_item m w (prepare : option EditorPreparer) key (action : Z) (b : bool) :
  no_item m -> keeps no_item (handleEditorKey prepare key action m w b).
Proof. intros H. unfold handleEditorKey. no_item_cases. Qed.

#[local] Hint Resolve handleEditorKey_no_item : no_item_db.

Lemma runAgentAction_no_item m w (f : CustomAction) (item : T) (b : bool) :
  no_item m -> keeps no_item (runAgentAction f m w item b).
Proof. intros H. unfold runAgentAction. no_item_cases. Qed.

#[local] Hint Resolve runAgentAction_no_item : no_item_db.

Lemma handleAgentKey_no_item m w (b : bool) :
  no_item m -> keeps no_item (handleAgentKey m w b).
Proof. intros H. unfold handleAgentKey. no_item_cases. Qed.

#[local] Hint Resolve handleAgentKey_no_item : no_item_db.

Lemma runReactionAction_no_item m w (f : T -> errable Z) (item : T) :
  no_item m -> keeps no_item (runReactionAction f m w item).
Proof. intros H. unfold runReactionAction, showReactionStatus. no_item_cases. Qed.

#[local] Hint Resolve runReactionAction_no_item : no_item_db.

Lemma handleReactionKey_no_item m w (b : bool) :
  no_item m -> keeps no_item (handleReactionKey m w b).
Proof. intros H. unfold handleReactionKey. no_item_cases. Qed.

#[local] Hint Resolve handleReactionKey_no_item : no_item_db.

Lemma executeCommentAction_no_item m w  :
  no_item m -> keeps no_item (executeCommentAction m w).
Proof. intros H. unfold executeCommentAction. no_item_cases. Qed.

#[local] Hint Resolve executeCommentAction_no_item : no_item_db.

Lemma reactionKey_no_item m w key :
  no_item m -> keeps no_item (reactionKey m w key).
Proof. intros H. unfold reactionKey, showReactionStatus. no_item_cases. Qed.

#[local] Hint Resolve reactionKey_no_item : no_item_db.

Lemma listDefault_no_item m w (msg : Msg T) :
  no_item m -> keeps no_item (listDefault m w msg).
Proof. intros H. unfold listDefault. no_item_cases. Qed.

#[local] Hint Resolve listDefault_no_item : no_item_db.

Lemma detailKey_no_item m w key :
  no_item m -> keeps no_item (detailKey m w key).
Proof. intros H. unfold detailKey, handleQuoteKey, handleQuoteContextKey. no_item_cases. Qed.

#[local] Hint Resolve detailKey_no_item : no_item_db.

Lemma listKey_no_item m w key :
  no_item m -> keeps no_item (listKey m w key).
Proof. intros H. unfold listKey, handleQuoteKey, handleQuoteContextKey. no_item_cases. Qed.

#[local] Hint Resolve listKey_no_item : no_item_db.

Lemma dispatchKey_no_item m w key :
  no_item m -> keeps no_item (dispatchKey m w key).
Proof. intros H. unfold dispatchKey. no_item_cases. Qed.

#[local] Hint Resolve dispatchKey_no_item : no_item_db.

Lemma commentSelectKey_no_item m w key :
  no_item m -> keeps no_item (commentSelectKey m w key).
Proof.
  intros H. unfold commentSelectKey. no_item_cases.
  all: apply status_no_item; unfold no_item in *; fields;
    rewrite ?updateDetailViewWithHighlight_result;
    erewrite cycleCommentSelection_result by eassumption; exact H.
Qed.

#[local] Hint Resolve commentSelectKey_no_item : no_item_db.

Lemma updateKey_no_item m w key :
  no_item m -> keeps no_item (updateKey m w key).
Proof. intros H. unfold updateKey. no_item_cases. Qed.

#[local] Hint Resolve updateKey_no_item : no_item_db.

Lemma Update_no_item m w (msg : Msg T) :
  no_item m -> keeps no_item (Update m w msg).
Proof. intros H. unfold Update. no_item_cases. Qed.

#[local] Hint Resolve Update_no_item : no_item_db.

Lemma initialModel_result (o : SelectorOptions T) : result (initialModel o) = [].
Proof. unfold initialModel. break; reflexivity. Qed.

Lemma Run_result_empty (msgs : list (Msg T)) : forall m w,
  result m = [] ->
  match Run m w msgs with
  | Finished m' _ => result m' = []
  | _ => True
  end.
Proof.
  induction msgs as [|msg rest IH]; intros m w H; cbn; [exact I|].
  pose proof (Update_no_item m w msg H) as Hstep.
  destruct (Update m w msg) as [m' w' c|]; [|exact I].
  cbn in Hstep. destruct (quits c); [exact Hstep|]. apply IH, Hstep.
Qed.

(** C1, as the code has it. Whenever [Select] returns, it returns
    [ErrNoSelection] or the error of the driver, never a chosen item:
    the run ends with an empty [result] whatever the messages were. *)
Theorem Select_returns_no_item (o : SelectorOptions T) w (driver : option string)
    (msgs : list (Msg T)) (r : SelectResult)
    (Hreturns : Select o w driver msgs = Some r) :
  (r = ErrNoSelection \/ exists e, r = RunError e)
  /\ forall item, r <> Selected item.
Proof.
  assert (Hr : r = ErrNoSelection \/ exists e, r = RunError e).
  { unfold Select in Hreturns. destruct driver as [e|].
    - injection Hreturns as <-. right. eauto.
    - pose proof (Run_result_empty msgs (initialModel o) w (initialModel_result o)) as Hrun.
      destruct (Run (initialModel o) w msgs) as [final w'|e|]; [| |discriminate].
      + rewrite Hrun in Hreturns. injection Hreturns as <-. left. reflexivity.
      + injection Hreturns as <-. right. eauto. }
  split; [exact Hr|].
  intros item ->. destruct Hr as [Hr|[e Hr]]; discriminate.
Qed.


(** ** Thread pick *)

Lemma mode_of_view m :
  mode_of m = Normal \/ mode_of m = Detail ->
  showHelp m = false /\ confirmationMessage m = "" /\ reactionMode m = false
  /\ commentSelectMode m = false.
Proof.
  unfold mode_of. destruct (showHelp m); [intros [|]; discriminate|].
  destruct (String.eqb_spec (confirmationMessage m) ""); cbn [negb];
    [|intros [|]; discriminate].
  destruct (reactionMode m); [intros [|]; discriminate|].
  destruct (commentSelectMode m); [intros [|]; discriminate|].
  intros _. repeat split; assumption.
Qed.

Lemma mode_of_ThreadPick m :
  mode_of m = ThreadPick ->
  showHelp m = false /\ confirmationMessage m = "" /\ reactionMode m = false
  /\ commentSelectMode m = true.
Proof.
  unfold mode_of. destruct (showHelp m); [discriminate|].
  destruct (String.eqb_spec (confirmationMessage m) ""); cbn [negb]; [|discriminate].
  destruct (reactionMode m); [discriminate|].
  destruct (commentSelectMode m); [|destruct (showDetail m); discriminate].
  intros _. repeat split; assumption.
Qed.

Lemma picking_mode o action item idx detail m :
  picking o action item idx detail m -> mode_of m = ThreadPick.
Proof.
  intros (_ & Hh & Hc & Hr & Hp & _). unfold mode_of. rewrite Hh, Hc, Hr, Hp. reflexivity.
Qed.

(** [updateDetailViewWithHighlight] writes the viewport only. *)
Lemma updateDetailViewWithHighlight_frame {A} (f : SelectionModel -> A) m :
  (forall v m0, f (set_viewport v m0) = f m0) ->
  f (updateDetailViewWithHighlight m) = f m.
Proof.
  intros Hf. unfold updateDetailViewWithHighlight. break; rewrite ?Hf; reflexivity.
Qed.

Lemma is_key_action key :
  is_key key ["Q"; "C"; "a"; "x"] = true ->
  key = "Q" \/ key = "C" \/ key = "a" \/ key = "x".
Proof.
  unfold is_key. cbn [existsb].
  destruct (String.eqb_spec key "Q"); [auto|].
  destruct (String.eqb_spec key "C"); [auto|].
  destruct (String.eqb_spec key "a"); [auto|].
  destruct (String.eqb_spec key "x"); [auto|discriminate].
Qed.

(** C4, as the code has it. With a thread pick open, a key that is not
    Enter, Esc or the key of the pending action closes the pick and is
    then handled in the same call of [Update] by the view underneath
    (filter input, detail view or list view), exactly as if the pick had
    not been open. *)
Theorem thread_pick_other_key_is_dispatched m w key
    (Hmode : mode_of m = ThreadPick)
    (Henter : key <> "enter")
    (Hesc : key <> "esc")
    (Haction : key <> commentSelectAction m) :
  Update m w (KeyMsg key) = dispatchKey (exitCommentSelectMode m) w key
  /\ Update m w (KeyMsg key) = Update (exitCommentSelectMode m) w (KeyMsg key)
  /\ mode_of (exitCommentSelectMode m) = (if showDetail m then Detail else Normal).
Proof.
  destruct (mode_of_ThreadPick m Hmode) as (Hh & Hc & Hr & Hp).
  assert (Hexit : Update (exitCommentSelectMode m) w (KeyMsg key)
                  = dispatchKey (exitCommentSelectMode m) w key).
  { cbn [Update]. unfold updateKey. fields. rewrite Hh, Hc, Hr. reflexivity. }
  assert (Hupd : Update m w (KeyMsg key) = dispatchKey (exitCommentSelectMode m) w key).
  { cbn [Update]. unfold updateKey. rewrite Hh, Hc, Hr, Hp. cbn [negb String.eqb].
    unfold commentSelectKey.
    destruct (String.eqb_spec key "enter"); [contradiction|].
    destruct (String.eqb_spec key "esc"); [contradiction|].
    destruct (String.eqb_spec key (commentSelectAction m)); [contradiction|].
    destruct (is_key key ["Q"; "C"; "a"; "x"]); reflexivity. }
  split; [exact Hupd|]. split; [rewrite Hupd, Hexit; reflexivity|].
  unfold mode_of. fields. rewrite Hh, Hc, Hr. reflexivity.
Qed.

(** The key of an action on a thread of several comments opens the pick
    on its first comment. *)
Lemma quote_key_opens_pick m w item prep :
  mode_of m = Normal \/ mode_of m = Detail ->
  list_SettingFilter (lst m) = false ->
  list_SelectedItem (lst m) = Some item ->
  1 < ThreadCommentCount (Renderer (opts m)) item ->
  QuotePrepare (opts m) = Some prep ->
  exists m1,
    Update m w (KeyMsg "Q")
      = Return m1 w
          (CmdStatus (selectStatus 0 (ThreadCommentCount (Renderer (opts m)) item)
                        (ThreadCommentPreview (Renderer (opts m)) item 0) "Q"))
    /\ picking (opts m) "Q" item 0 (showDetail m) m1.
Proof.
  intros Hview Hfilter Hsel Hcount Hprep.
  destruct (mode_of_view m Hview) as (Hh & Hc & Hr & Hp).
  apply Z.ltb_lt in Hcount.
  cbn [Update]. unfold updateKey. rewrite Hh, Hc, Hr, Hp. cbn [negb String.eqb].
  unfold dispatchKey. rewrite Hfilter.
  destruct (showDetail m) eqn:Hd.
  - unfold detailKey. cbn -[handleQuoteKey].
    unfold handleQuoteKey, handleEditorKey. rewrite Hprep, Hsel, Hcount.
    unfold startThreadPick, showCommentSelectStatus, status.
    eexists. split.
    + f_equal. rewrite (updateDetailViewWithHighlight_frame commentSelectStatus)
        by reflexivity. reflexivity.
    + rewrite (updateDetailViewWithHighlight_frame
                 (fun m0 => picking _ _ _ _ _ (set_lst _ m0)))
        by reflexivity.
      unfold picking. fields. rewrite Hh, Hc, Hr, Hd. repeat split.
  - unfold listKey. cbn -[handleQuoteKey].
    unfold handleQuoteKey, handleEditorKey. rewrite Hprep, Hsel, Hcount.
    unfold startThreadPick, showCommentSelectStatus, status.
    eexists. split; [reflexivity|].
    unfold picking. fields. rewrite Hh, Hc, Hr, Hd. repeat split.
Qed.

(** The key of the pending action moves the pick to the next comment,
    back to the first one after the last. *)
Lemma action_key_cycles_pick o action item idx detail m w :
  picking o action item idx detail m ->
  is_key action ["Q"; "C"; "a"; "x"] = true ->
  ThreadCommentCount (Renderer o) item <> 0 ->
  let count := ThreadCommentCount (Renderer o) item in
  let idx' := int_rem (int_add idx 1) count in
  exists m',
    Update m w (KeyMsg action)
      = Return m' w
          (CmdStatus (selectStatus idx' count (ThreadCommentPreview (Renderer o) item idx')
                        action))
    /\ picking o action item idx' detail m'.
Proof.
  intros (Ho & Hh & Hc & Hr & Hp & Ha & Hi & Hx & Hd & Hs) Hkey Hcount count idx'.
  subst count idx'.
  assert (Hne : String.eqb action "enter" = false /\ String.eqb action "esc" = false).
  { destruct (is_key_action _ Hkey) as [ -> | [ -> | [ -> | -> ] ] ]; split; reflexivity. }
  destruct Hne as [Hne1 Hne2].
  cbn [Update]. unfold updateKey. rewrite Hh, Hc, Hr, Hp. cbn [negb String.eqb].
  unfold commentSelectKey. rewrite Hne1, Hne2, Hkey, Ha, String.eqb_refl.
  unfold cycleCommentSelection. rewrite Ho, Hi.
  apply Z.eqb_neq in Hcount. rewrite Hcount. fields. rewrite Hd, Hx, Ha, Ho, Hi.
  unfold showCommentSelectStatus, status.
  destruct detail.
  - eexists. split.
    + f_equal. rewrite (updateDetailViewWithHighlight_frame commentSelectStatus)
        by reflexivity. reflexivity.
    + rewrite (updateDetailViewWithHighlight_frame
                 (fun m0 => picking _ _ _ _ _ (set_lst _ m0)))
        by reflexivity.
      unfold picking. fields. repeat split; assumption.
  - eexists. split; [reflexivity|].
    unfold picking. fields. repeat split; assumption.
Qed.

(** Enter runs the quote action on the comment the pick is on: the
    preparer gets the item stamped with that index, and the editor
    opens on a temporary file with what the preparer returned. *)
Lemma enter_quotes_picked_comment o item idx detail m w prep content :
  picking o "Q" item idx detail m ->
  QuotePrepare o = Some prep ->
  prep (WithSelectedComment (Renderer o) item idx) = Ok content ->
  create_err w = None ->
  write_err w = None ->
  exists m' w' path,
    Update m w (KeyMsg "enter") = Return m' w' (CmdExecEditor [editorCommand w; path])
    /\ pendingEditorItem m' = WithSelectedComment (Renderer o) item idx
    /\ pendingEditorAction m' = 3
    /\ pendingEditorTmpFile m' = path
    /\ files w' !! path = Some content
    /\ trace w' = (trace w ++ [ {| ev_callback := CbQuotePrepare;
                                   ev_item := Some (WithSelectedComment (Renderer o) item idx);
                                   ev_mode := Normal; ev_failed := false |} ])%list
    /\ mode_of m' = Normal.
Proof.
  intros (Ho & Hh & Hc & Hr & Hp & Ha & Hi & Hx & Hd & Hs) Hprep Hcontent Hcreate Hwrite.
  cbn [Update]. unfold updateKey. rewrite Hh, Hc, Hr, Hp. cbn [negb String.eqb].
  unfold commentSelectKey. cbn [String.eqb Ascii.eqb Bool.eqb].
  unfold executeCommentAction. fields. rewrite Ha. cbn [String.eqb Ascii.eqb Bool.eqb].
  rewrite Hd, Ho, Hi, Hx.
  assert (Hmode : forall m0,
             m0 = (if detail
                   then set_showDetail false
                          (exitCommentSelectMode
                             (set_commentSelectItem
                                (WithSelectedComment (Renderer o) item idx) m))
                   else exitCommentSelectMode
                          (set_commentSelectItem
                             (WithSelectedComment (Renderer o) item idx) m)) ->
             mode_of m0 = Normal /\ opts m0 = o).
  { intros m0 ->. unfold mode_of. destruct detail; fields;
      rewrite Hh, Hc, Hr, ?Hs; split; auto. }
  match goal with
  | |- context [startEditorForAction ?m0 _ _ _] =>
      destruct (Hmode m0 eq_refl) as [Hm0 Ho0]; set (m1 := m0) in *
  end.
  unfold startEditorForAction, preparerOf. rewrite Ho0. cbn [Z.eqb Pos.eqb].
  rewrite Hprep. cbn [option_map]. rewrite Hcontent.
  unfold CreateTemp. fields. rewrite Hcreate.
  unfold WriteString. fields. rewrite Hwrite.
  eexists _, _, _. split; [reflexivity|].
  fields. repeat split.
  - apply lookup_insert_eq.
  - unfold called. fields. rewrite Hm0. reflexivity.
  - unfold mode_of in *. fields. exact Hm0.
Qed.


Lemma pressKeys_cons m w key rest m1 w1 c1 :
  rest <> [] ->
  Update m w (KeyMsg key) = Return m1 w1 c1 ->
  pressKeys m w (key :: rest) = pressKeys m1 w1 rest.
Proof.
  intros Hrest Hupd. destruct rest as [|key' rest]; [congruence|].
  cbn [pressKeys]. rewrite Hupd. reflexivity.
Qed.

(** C9, corrected. A comment with a thread of three is selected, in the
    list or the detail view, and the quote action is configured. The key
    Q opens the thread pick on [1/3]; a second and a third press show
    [2/3] and [3/3]; a fourth press wraps to [1/3]. Enter opens the
    editor on a temporary file holding what the preparer returned for
    the item stamped with the index the pick is on when Enter is
    pressed: index 2 after three presses of Q, index 1 after two, and
    index 0 after one press or after four. *)
Theorem thread_pick_three_comments m w item prep (content : Z -> string)
    (Hview : mode_of m = Normal \/ mode_of m = Detail)
    (Hfilter : list_SettingFilter (lst m) = false)
    (Hselected : list_SelectedItem (lst m) = Some item)
    (Hcount : ThreadCommentCount (Renderer (opts m)) item = 3)
    (Hprepare : QuotePrepare (opts m) = Some prep)
    (Hcontent : forall idx, 0 <= idx < 3 ->
                prep (WithSelectedComment (Renderer (opts m)) item idx) = Ok (content idx))
    (Hcreate : create_err w = None)
    (Hwrite : write_err w = None) :
  let preview := ThreadCommentPreview (Renderer (opts m)) item in
  let hint := " (Q=next, Enter=select, Esc=cancel)" in
  let shows keys label idx :=
    exists m',
      pressKeys m w keys = Return m' w (CmdStatus (label ++ preview idx ++ hint))
      /\ mode_of m' = ThreadPick /\ commentSelectIdx m' = idx in
  let opens keys idx :=
    exists m' w' path,
      pressKeys m w keys = Return m' w' (CmdExecEditor [editorCommand w; path])
      /\ pendingEditorItem m' = WithSelectedComment (Renderer (opts m)) item idx
      /\ pendingEditorAction m' = 3
      /\ pendingEditorTmpFile m' = path
      /\ files w' !! path = Some (content idx)
      /\ mode_of m' = Normal in
  shows ["Q"] "[1/3] " 0
  /\ shows ["Q"; "Q"] "[2/3] " 1
  /\ shows ["Q"; "Q"; "Q"] "[3/3] " 2
  /\ shows ["Q"; "Q"; "Q"; "Q"] "[1/3] " 0
  /\ opens ["Q"; "enter"] 0
  /\ opens ["Q"; "Q"; "enter"] 1
  /\ opens ["Q"; "Q"; "Q"; "enter"] 2
  /\ opens ["Q"; "Q"; "Q"; "Q"; "enter"] 0.
Proof.
  intros preview hint shows opens. subst preview hint shows opens.
  destruct (quote_key_opens_pick m w item prep Hview Hfilter Hselected
              ltac:(rewrite Hcount; lia) Hprepare) as (m1 & H1 & P1).
  assert (Hthree : ThreadCommentCount (Renderer (opts m)) item <> 0)
    by (rewrite Hcount; lia).
  destruct (action_key_cycles_pick _ _ _ _ _ m1 w P1 eq_refl Hthree) as (m2 & H2 & P2).
  destruct (action_key_cycles_pick _ _ _ _ _ m2 w P2 eq_refl Hthree) as (m3 & H3 & P3).
  destruct (action_key_cycles_pick _ _ _ _ _ m3 w P3 eq_refl Hthree) as (m4 & H4 & P4).
  rewrite Hcount in H1, H2, H3, H4, P2, P3, P4.
  change (int_rem (int_add 0 1) 3) with 1 in *.
  change (int_rem (int_add 1 1) 3) with 2 in *.
  change (int_rem (int_add 2 1) 3) with 0 in *.
  assert (Henter : forall idx mk, 0 <= idx < 3 ->
             picking (opts m) "Q" item idx (showDetail m) mk ->
             exists m' w' path,
               Update mk w (KeyMsg "enter")
               = Return m' w' (CmdExecEditor [editorCommand w; path])
               /\ pendingEditorItem m' = WithSelectedComment (Renderer (opts m)) item idx
               /\ pendingEditorAction m' = 3
               /\ pendingEditorTmpFile m' = path
               /\ files w' !! path = Some (content idx)
               /\ mode_of m' = Normal).
  { intros idx mk Hidx Pk.
    destruct (enter_quotes_picked_comment _ _ _ _ mk w prep (content idx) Pk Hprepare
                (Hcontent idx Hidx) Hcreate Hwrite)
      as (m' & w' & path & H' & Hitem & Hact & Hpath & Hfile & _ & Hm').
    exists m', w', path. repeat apply conj; assumption. }
  destruct (Henter 0 m1 ltac:(lia) P1) as (e1 & v1 & p1 & E1 & R1).
  destruct (Henter 1 m2 ltac:(lia) P2) as (e2 & v2 & p2 & E2 & R2).
  destruct (Henter 2 m3 ltac:(lia) P3) as (e3 & v3 & p3 & E3 & R3).
  destruct (Henter 0 m4 ltac:(lia) P4) as (e4 & v4 & p4 & E4 & R4).
  repeat apply conj.
  - exists m1. cbn [pressKeys]. rewrite H1.
    split; [reflexivity|]. split; [exact (picking_mode _ _ _ _ _ _ P1)|apply P1].
  - exists m2. rewrite (fun Hr => pressKeys_cons _ _ _ _ _ _ _ Hr H1) by discriminate.
    cbn [pressKeys]. rewrite H2. split; [reflexivity|].
    split; [exact (picking_mode _ _ _ _ _ _ P2)|apply P2].
  - exists m3. rewrite (fun Hr => pressKeys_cons _ _ _ _ _ _ _ Hr H1) by discriminate.
    rewrite (fun Hr => pressKeys_cons _ _ _ _ _ _ _ Hr H2) by discriminate. cbn [pressKeys].
    rewrite H3. split; [reflexivity|].
    split; [exact (picking_mode _ _ _ _ _ _ P3)|apply P3].
  - exists m4. rewrite (fun Hr => pressKeys_cons _ _ _ _ _ _ _ Hr H1) by discriminate.
    rewrite (fun Hr => pressKeys_cons _ _ _ _ _ _ _ Hr H2) by discriminate.
    rewrite (fun Hr => pressKeys_cons _ _ _ _ _ _ _ Hr H3) by discriminate. cbn [pressKeys].
    rewrite H4. split; [reflexivity|].
    split; [exact (picking_mode _ _ _ _ _ _ P4)|apply P4].
  - exists e1, v1, p1. rewrite (fun Hr => pressKeys_cons _ _ _ _ _ _ _ Hr H1) by discriminate.
    cbn [pressKeys]. rewrite E1. split; [reflexivity|exact R1].
  - exists e2, v2, p2. rewrite (fun Hr => pressKeys_cons _ _ _ _ _ _ _ Hr H1) by discriminate.
    rewrite (fun Hr => pressKeys_cons _ _ _ _ _ _ _ Hr H2) by discriminate.
    cbn [pressKeys]. rewrite E2. split; [reflexivity|exact R2].
  - exists e3, v3, p3. rewrite (fun Hr => pressKeys_cons _ _ _ _ _ _ _ Hr H1) by discriminate.
    rewrite (fun Hr => pressKeys_cons _ _ _ _ _ _ _ Hr H2) by discriminate.
    rewrite (fun Hr => pressKeys_cons _ _ _ _ _ _ _ Hr H3) by discriminate.
    cbn [pressKeys]. rewrite E3. split; [reflexivity|exact R3].
  - exists e4, v4, p4. rewrite (fun Hr => pressKeys_cons _ _ _ _ _ _ _ Hr H1) by discriminate.
    rewrite (fun Hr => pressKeys_cons _ _ _ _ _ _ _ Hr H2) by discriminate.
    rewrite (fun Hr => pressKeys_cons _ _ _ _ _ _ _ Hr H3) by discriminate.
    rewrite (fun Hr => pressKeys_cons _ _ _ _ _ _ _ Hr H4) by discriminate.
    cbn [pressKeys]. rewrite E4. split; [reflexivity|exact R4].
Qed.


(** ** Cycling *)

Lemma pressKeys_repeat_S m w key (k : nat) m1 w1 c1 :
  Update m w (KeyMsg key) = Return m1 w1 c1 ->
  pressKeys m w (repeat key (S k))
  = match k with
    | O => Return m1 w1 c1
    | S _ => pressKeys m1 w1 (repeat key k)
    end.
Proof.
  intros Hupd. destruct k as [|k].
  - cbn [repeat pressKeys]. exact Hupd.
  - change (repeat key (S (S k))) with (key :: repeat key (S k)).
    eapply pressKeys_cons; [discriminate|exact Hupd].
Qed.

Lemma cycle_index_step (idx count : Z) :
  0 <= idx < count -> count < 2 ^ 63 ->
  int_rem (int_add idx 1) count = (idx + 1) mod count.
Proof.
  intros Hidx Hcount. unfold int_rem, int_add.
  rewrite wrap_int_small by lia. apply Z.rem_mod_nonneg; lia.
Qed.

(** With a thread pick open on comment [idx] of a thread of [count]
    comments, [k] presses of the action key leave it on comment
    [(idx + k) mod count]: the presses visit the comments in order and
    wrap, and [count] presses come back to where they started. *)
Theorem thread_pick_cycle_visits_all o action item detail w (k : nat) :
  forall idx m,
  picking o action item idx detail m ->
  is_key action ["Q"; "C"; "a"; "x"] = true ->
  0 <= idx < ThreadCommentCount (Renderer o) item ->
  ThreadCommentCount (Renderer o) item < 2 ^ 63 ->
  exists m' c,
    pressKeys m w (repeat action k) = Return m' w c
    /\ picking o action item
         ((idx + Z.of_nat k) mod ThreadCommentCount (Renderer o) item) detail m'.
Proof.
  induction k as [|k IH]; intros idx m Hpick Hkey Hidx Hcount.
  - exists m, CmdNil. split; [reflexivity|].
    rewrite Z.add_0_r, Z.mod_small by lia. exact Hpick.
  - destruct (action_key_cycles_pick o action item idx detail m w Hpick Hkey
                ltac:(lia)) as (m1 & H1 & P1).
    cbv zeta in H1, P1. rewrite (cycle_index_step _ _ Hidx Hcount) in H1, P1.
    rewrite (pressKeys_repeat_S _ _ _ k _ _ _ H1).
    assert (Hnext : 0 <= (idx + 1) mod ThreadCommentCount (Renderer o) item
                    < ThreadCommentCount (Renderer o) item)
      by (apply Z.mod_pos_bound; lia).
    assert (Hsum : ((idx + 1) mod ThreadCommentCount (Renderer o) item + Z.of_nat k)
                     mod ThreadCommentCount (Renderer o) item
                   = (idx + Z.of_nat (S k)) mod ThreadCommentCount (Renderer o) item).
    { rewrite Zplus_mod_idemp_l. f_equal. lia. }
    destruct k as [|k].
    + eexists _, _. split; [reflexivity|].
      rewrite <- Hsum. cbn [Z.of_nat]. rewrite Z.add_0_r, Z.mod_mod by lia. exact P1.
    + destruct (IH _ m1 P1 Hkey Hnext Hcount) as (m' & c & Hrun & P').
      exists m', c. split; [exact Hrun|]. rewrite <- Hsum. exact P'.
Qed.

(** One press of x in the reaction picker. *)
Lemma reaction_key_x_step m w :
  mode_of m = ReactionPick -> 0 <= reactionIdx m < 8 ->
  exists m' c,
    Update m w (KeyMsg "x") = Return m' w c
    /\ mode_of m' = ReactionPick
    /\ reactionIdx m' = (reactionIdx m + 1) mod 8
    /\ reactionCommentID m' = reactionCommentID m
    /\ opts m' = opts m.
Proof.
  intros Hmode Hidx. unfold mode_of in Hmode.
  destruct (showHelp m) eqn:Hhelp; [discriminate|].
  destruct (negb (String.eqb (confirmationMessage m) "")) eqn:Hconf; [discriminate|].
  destruct (reactionMode m) eqn:Hreact;
    [|destruct (commentSelectMode m); [|destruct (showDetail m)]; discriminate].
  assert (Hnext : int_rem (int_add (reactionIdx m) 1) (len reactionEmojis)
                  = (reactionIdx m + 1) mod 8)
    by (apply cycle_index_step; [exact Hidx|reflexivity]).
  assert (Hrange : 0 <= (reactionIdx m + 1) mod 8 < 8) by (apply Z.mod_pos_bound; lia).
  cbn [Update]. unfold updateKey. rewrite Hhelp, Hconf, Hreact.
  unfold reactionKey. cbn [String.eqb Ascii.eqb Bool.eqb]. rewrite Hnext.
  unfold showReactionStatus. fields. unfold emoji_at.
  change (len reactionEmojis) with 8.
  destruct (Z.leb_spec 0 ((reactionIdx m + 1) mod 8)); [|lia].
  destruct (Z.ltb_spec ((reactionIdx m + 1) mod 8) 8); [|lia]. cbn [andb].
  destruct (nth_error reactionEmojis (Z.to_nat ((reactionIdx m + 1) mod 8))) eqn:Hnth.
  - eexists _, _. split; [reflexivity|]. fields.
    split; [|repeat split].
    unfold mode_of. fields. rewrite Hhelp, Hconf, Hreact. reflexivity.
  - apply nth_error_None in Hnth. cbn [length reactionEmojis] in Hnth. lia.
Qed.

(** With the reaction picker on entry [i] of the catalog, [k] presses of
    x leave it on entry [(i + k) mod 8], for the same comment: eight
    presses come back to the entry they started from. *)
Theorem reaction_cycle_visits_all w (k : nat) :
  forall m,
  mode_of m = ReactionPick ->
  0 <= reactionIdx m < 8 ->
  exists m' c,
    pressKeys m w (repeat "x" k) = Return m' w c
    /\ mode_of m' = ReactionPick
    /\ reactionIdx m' = (reactionIdx m + Z.of_nat k) mod 8
    /\ reactionCommentID m' = reactionCommentID m.
Proof.
  induction k as [|k IH]; intros m Hmode Hidx.
  - exists m, CmdNil. split; [reflexivity|]. split; [exact Hmode|].
    split; [|reflexivity]. rewrite Z.add_0_r, Z.mod_small by lia. reflexivity.
  - destruct (reaction_key_x_step m w Hmode Hidx) as (m1 & c1 & H1 & Hm1 & Hi1 & Hc1 & _).
    rewrite (pressKeys_repeat_S _ _ _ k _ _ _ H1).
    assert (Hnext : 0 <= reactionIdx m1 < 8)
      by (rewrite Hi1; apply Z.mod_pos_bound; lia).
    assert (Hsum : (reactionIdx m1 + Z.of_nat k) mod 8
                   = (reactionIdx m + Z.of_nat (S k)) mod 8).
    { rewrite Hi1, Zplus_mod_idemp_l. f_equal. lia. }
    destruct k as [|k].
    + exists m1, c1. split; [reflexivity|]. split; [exact Hm1|].
      split; [|exact Hc1]. rewrite <- Hsum. cbn [Z.of_nat].
      rewrite Z.add_0_r, Z.mod_small by lia. reflexivity.
    + destruct (IH m1 Hm1 Hnext) as (m' & c & Hrun & Hm' & Hi' & Hc').
      exists m', c. split; [exact Hrun|]. split; [exact Hm'|].
      split; [rewrite Hi', Hsum; reflexivity|congruence].
Qed.


(** ** Leaving the pickers and the overlays *)

Lemma mode_of_ReactionPick m :
  mode_of m = ReactionPick ->
  showHelp m = false /\ confirmationMessage m = "" /\ reactionMode m = true.
Proof.
  unfold mode_of. destruct (showHelp m); [discriminate|].
  destruct (String.eqb_spec (confirmationMessage m) ""); cbn [negb]; [|discriminate].
  destruct (reactionMode m);
    [|destruct (commentSelectMode m); [|destruct (showDetail m)]; discriminate].
  intros _. repeat split; assumption.
Qed.

(** Enter in the reaction picker closes it and calls [ReactionComplete]
    once, with the comment the picker was opened for and the name of the
    entry it is on.  The message of a successful call is shown as a
    confirmation dialog; a failing call gives a status line and no
    dialog, the picker staying closed. *)
Theorem reaction_enter_completes m w e complete
    (Hmode : mode_of m = ReactionPick)
    (Hemoji : emoji_at (reactionIdx m) = Some e)
    (Hcomplete : ReactionComplete (opts m) = Some complete) :
  exists m' w' c,
    Update m w (KeyMsg "enter") = Return m' w' c
    /\ reactionMode m' = false
    /\ trace w'
       = (trace w ++ [ {| ev_callback := CbReactionComplete; ev_item := None;
                          ev_mode := mode_of (set_reactionMode false m);
                          ev_failed := is_err (complete (reactionCommentID m) (name e)) |} ])%list
    /\ match complete (reactionCommentID m) (name e) with
       | Ok msg =>
           confirmationMessage m' = pressAnyKey msg /\ c = CmdNil
           /\ mode_of m' = Confirmation
       | Err err =>
           c = CmdStatus (Colorize ColorRed err) /\ confirmationMessage m' = ""
           /\ mode_of m' = mode_of (set_reactionMode false m)
       end.
Proof.
  destruct (mode_of_ReactionPick m Hmode) as (Hh & Hc & Hr).
  cbn [Update]. unfold updateKey. rewrite Hh, Hc, Hr. cbn [negb String.eqb].
  unfold reactionKey. cbn [String.eqb Ascii.eqb Bool.eqb]. rewrite Hemoji.
  fields. rewrite Hcomplete.
  destruct (complete (reactionCommentID m) (name e)) as [msg|err] eqn:Hcall.
  - eexists _, _, _. split; [reflexivity|]. fields. split; [reflexivity|].
    split; [unfold called; fields; reflexivity|].
    split; [reflexivity|]. split; [reflexivity|].
    unfold mode_of. fields. rewrite Hh.
    rewrite (eqb_empty_false _ (pressAnyKey_nonempty msg)). reflexivity.
  - unfold status. eexists _, _, _. split; [reflexivity|]. fields.
    split; [reflexivity|]. split; [unfold called; fields; reflexivity|].
    split; [reflexivity|]. split; [exact Hc|]. reflexivity.
Qed.

(** Esc in the thread pick closes it without calling anything: the view
    underneath is the mode again and the status line says "Selection
    cancelled".  The viewport is left as it is: the branch that would
    restore the detail view tests [commentSelectInDetail] after
    [exitCommentSelectMode] has cleared it. *)
Theorem thread_pick_esc_cancels m w
    (Hmode : mode_of m = ThreadPick) :
  exists m',
    Update m w (KeyMsg "esc") = Return m' w (CmdStatus "Selection cancelled")
    /\ mode_of m' = (if showDetail m then Detail else Normal)
    /\ viewport m' = viewport m
    /\ commentSelectIdx m' = 0
    /\ commentSelectInDetail m' = false.
Proof.
  destruct (mode_of_ThreadPick m Hmode) as (Hh & Hc & Hr & Hp).
  cbn [Update]. unfold updateKey. rewrite Hh, Hc, Hr, Hp. cbn [negb String.eqb].
  unfold commentSelectKey. cbn [String.eqb Ascii.eqb Bool.eqb]. fields.
  unfold status. eexists. split; [reflexivity|]. fields.
  split; [|repeat split]. unfold mode_of. fields. rewrite Hh, Hc, Hr. reflexivity.
Qed.

(** While the help overlay, a confirmation dialog or the reaction picker
    is shown, no key ends the run, q and ctrl+c included, and [result] is
    not touched. *)
Theorem overlay_keys_never_quit m w key
    (Hmode : mode_of m = HelpOverlay \/ mode_of m = Confirmation
             \/ mode_of m = ReactionPick) :
  match Update m w (KeyMsg key) with
  | Return m' _ c => quits c = false /\ result m' = result m
  | Panic _ => True
  end.
Proof.
  cbn [Update]. unfold updateKey.
  destruct (showHelp m) eqn:Hh; [split; reflexivity|].
  destruct (negb (String.eqb (confirmationMessage m) "")) eqn:Hc; [split; reflexivity|].
  destruct (reactionMode m) eqn:Hr.
  - unfold reactionKey, showReactionStatus, status. break; fields; try exact I;
      split; reflexivity.
  - exfalso. unfold mode_of in Hmode. rewrite Hh, Hc, Hr in Hmode.
    destruct (commentSelectMode m), (showDetail m);
      destruct Hmode as [H|[H|H]]; discriminate.
Qed.

(** With the filter input closed, the key q ends the run exactly when the
    list view is what the key reaches: in the list view itself, or in a
    thread pick opened over it (which q closes on its way).  Everywhere
    else q closes or dismisses something and the run goes on. *)
Theorem q_quits_from_list_view_only m w
    (Hfilter : list_SettingFilter (lst m) = false) :
  exists m' w' c,
    Update m w (KeyMsg "q") = Return m' w' c
    /\ (quits c = true
        <-> mode_of m = Normal \/ (mode_of m = ThreadPick /\ showDetail m = false)).
Proof.
  cbn [Update]. unfold updateKey, mode_of.
  destruct (showHelp m) eqn:Hh.
  { eexists _, _, _. split; [reflexivity|]. cbn.
    split; [discriminate|]. intros [H|[H _]]; discriminate. }
  destruct (negb (String.eqb (confirmationMessage m) "")) eqn:Hc.
  { eexists _, _, _. split; [reflexivity|]. cbn.
    split; [discriminate|]. intros [H|[H _]]; discriminate. }
  destruct (reactionMode m) eqn:Hr.
  { unfold reactionKey, status. cbn [String.eqb Ascii.eqb Bool.eqb].
    eexists _, _, _. split; [reflexivity|]. cbn.
    split; [discriminate|]. intros [H|[H _]]; discriminate. }
  destruct (commentSelectMode m) eqn:Hp.
  - unfold commentSelectKey. cbn [String.eqb Ascii.eqb Bool.eqb is_key existsb orb].
    fields. unfold dispatchKey. fields. rewrite Hfilter.
    destruct (showDetail m) eqn:Hd.
    + unfold detailKey. cbn [String.eqb Ascii.eqb Bool.eqb is_key existsb orb].
      eexists _, _, _. split; [reflexivity|]. cbn.
      split; [discriminate|]. intros [H|[_ H]]; discriminate.
    + unfold listKey. cbn [String.eqb Ascii.eqb Bool.eqb is_key existsb orb].
      eexists _, _, _. split; [reflexivity|]. cbn. split; auto.
  - unfold dispatchKey. rewrite Hfilter.
    destruct (showDetail m) eqn:Hd.
    + unfold detailKey. cbn [String.eqb Ascii.eqb Bool.eqb is_key existsb orb].
      eexists _, _, _. split; [reflexivity|]. cbn.
      split; [discriminate|]. intros [H|[H _]]; discriminate.
    + unfold listKey. cbn [String.eqb Ascii.eqb Bool.eqb is_key existsb orb].
      eexists _, _, _. split; [reflexivity|]. cbn. split; auto.
Qed.


(** ** Keys of the list and the detail view *)

Ltac literal_keys :=
  cbn [is_key existsb orb String.eqb Ascii.eqb Bool.eqb].

Ltac literal_keys_in H :=
  cbn [is_key existsb orb String.eqb Ascii.eqb Bool.eqb] in H.

Lemma is_key_in key (ks : list string) : is_key key ks = true -> In key ks.
Proof.
  unfold is_key. intros H. apply existsb_exists in H as (k & Hin & Heq).
  apply String.eqb_eq in Heq. subst. exact Hin.
Qed.

(** A callback left unset disables its key: in the list view the keys
    r, u, R, U, Q, C, a, e, x, o, i, h and tab, and in the detail view
    those of them that are action keys there, change nothing and ask for
    nothing when the callback they stand for is not set. *)
Theorem unset_callback_disables_key m w key
    (Hview : mode_of m = Normal
             \/ (mode_of m = Detail /\ is_key key ["i"; "h"; "tab"] = false))
    (Hfilter : list_SettingFilter (lst m) = false)
    (Hkey : is_key key ["r"; "u"; "R"; "U"; "Q"; "C"; "a"; "e"; "x"; "o"; "i"; "h"; "tab"]
            = true)
    (Hunset : keyCallbackSet (opts m) key = false) :
  Update m w (KeyMsg key) = Return m w CmdNil.
Proof.
  assert (Hflags : showHelp m = false /\ confirmationMessage m = ""
                   /\ reactionMode m = false /\ commentSelectMode m = false).
  { apply mode_of_view. destruct Hview as [H|[H _]]; auto. }
  destruct Hflags as (Hh & Hc & Hr & Hp).
  assert (Hdetail : showDetail m = true -> is_key key ["i"; "h"; "tab"] = false).
  { intros Hd. destruct Hview as [H|[_ H]]; [|exact H].
    unfold mode_of in H. rewrite Hh, Hc, Hr, Hp, Hd in H. discriminate. }
  cbn [Update]. unfold updateKey. rewrite Hh, Hc, Hr, Hp. cbn [negb String.eqb].
  unfold dispatchKey. rewrite Hfilter.
  apply is_key_in in Hkey. cbn [In] in Hkey.
  destruct (showDetail m) eqn:Hd.
  - specialize (Hdetail eq_refl).
    unfold detailKey, resolveCommentKey, handleQuoteKey, handleQuoteContextKey,
      handleEditorKey, handleAgentKey, handleReactionKey, editKey, runCustomAction.
    repeat (destruct Hkey as [<-|Hkey]); try contradiction;
      literal_keys_in Hdetail; try discriminate Hdetail;
      unfold keyCallbackSet in Hunset; literal_keys; literal_keys_in Hunset;
      match type of Hunset with
      | isSet ?callback = false => destruct callback; [discriminate Hunset|reflexivity]
      end.
  - unfold listKey, resolveCommentKey, handleQuoteKey, handleQuoteContextKey,
      handleEditorKey, handleAgentKey, handleReactionKey, editKey, runCustomAction.
    repeat (destruct Hkey as [<-|Hkey]); try contradiction;
      unfold keyCallbackSet in Hunset; literal_keys; literal_keys_in Hunset;
      match type of Hunset with
      | isSet ?callback = false => destruct callback; [discriminate Hunset|reflexivity]
      end.
Qed.

(** In the detail view the keys q, esc, backspace, left and h go back to
    the list view and do nothing else. *)
Theorem detail_back_keys m w key
    (Hmode : mode_of m = Detail)
    (Hfilter : list_SettingFilter (lst m) = false)
    (Hkey : is_key key ["esc"; "backspace"; "left"; "h"; "q"] = true) :
  Update m w (KeyMsg key) = Return (set_showDetail false m) w CmdNil
  /\ mode_of (set_showDetail false m) = Normal.
Proof.
  destruct (mode_of_view m (or_intror Hmode)) as (Hh & Hc & Hr & Hp).
  assert (Hd : showDetail m = true).
  { unfold mode_of in Hmode. rewrite Hh, Hc, Hr, Hp in Hmode. cbn in Hmode.
    destruct (showDetail m); [reflexivity|discriminate]. }
  split.
  - cbn [Update]. unfold updateKey. rewrite Hh, Hc, Hr, Hp. cbn [negb String.eqb].
    unfold dispatchKey. rewrite Hfilter, Hd. unfold detailKey. rewrite Hkey. reflexivity.
  - unfold mode_of. fields. rewrite Hh, Hc, Hr, Hp. reflexivity.
Qed.

(** Enter, right or l on a selected item opens the detail view exactly
    when [OnSelect] is unset or returns the empty message without error:
    the detail view then shows "Loading..." and a [loadDetailMsg] is
    asked for.  A message from [OnSelect] is shown as the status line
    instead, and an error in red, the list view staying. *)
Theorem enter_opens_detail m w key item
    (Hmode : mode_of m = Normal)
    (Hfilter : list_SettingFilter (lst m) = false)
    (Hkey : is_key key ["enter"; "right"; "l"] = true)
    (Hselected : list_SelectedItem (lst m) = Some item) :
  let answer := match OnSelect (opts m) with
                | None => Ok ""
                | Some f => f item
                end in
  exists m' w' c,
    Update m w (KeyMsg key) = Return m' w' c
    /\ (mode_of m' = Detail <-> answer = Ok "")
    /\ (mode_of m' = Detail \/ mode_of m' = Normal)
    /\ match answer with
       | Ok "" => c = CmdLoadDetail /\ loadingDetail m' = true
                  /\ viewport m' = viewport_SetContent (viewport m) "Loading..."
       | Ok text => c = CmdStatus text
       | Err e => c = CmdStatus (Colorize ColorRed e)
       end.
Proof.
  intros answer. subst answer.
  destruct (mode_of_view m (or_introl Hmode)) as (Hh & Hc & Hr & Hp).
  assert (Hd : showDetail m = false).
  { unfold mode_of in Hmode. rewrite Hh, Hc, Hr, Hp in Hmode. cbn in Hmode.
    destruct (showDetail m); [discriminate|reflexivity]. }
  assert (Hkeys : String.eqb key "ctrl+c" = false /\ String.eqb key "?" = false
                  /\ String.eqb key "q" = false).
  { apply is_key_in in Hkey. cbn [In] in Hkey.
    destruct Hkey as [<-|[<-|[<-|[]]]]; repeat split; reflexivity. }
  destruct Hkeys as (Hk1 & Hk2 & Hk3).
  assert (Hnormal : forall l, mode_of (set_lst l m) = Normal) by (intros; exact Hmode).
  assert (Hopen : mode_of (set_viewport (viewport_SetContent (viewport m) "Loading...")
                             (set_loadingDetail true (set_showDetail true m))) = Detail).
  { unfold mode_of. fields. rewrite Hh, Hc, Hr, Hp. reflexivity. }
  cbn [Update]. unfold updateKey. rewrite Hh, Hc, Hr, Hp. cbn [negb String.eqb].
  unfold dispatchKey. rewrite Hfilter, Hd. unfold listKey.
  rewrite Hk1, Hk2, Hk3, Hkey, Hselected.
  destruct (OnSelect (opts m)) as [f|].
  - destruct (f item) as [text|e]; [destruct (String.eqb_spec text "") as [->|Hne]|].
    + cbn [negb]. eexists _, _, _. split; [reflexivity|].
      split; [split; [reflexivity|intros _; exact Hopen]|].
      split; [left; exact Hopen|]. repeat split.
    + cbn [negb]. unfold status. eexists _, _, _. split; [reflexivity|].
      rewrite Hnormal.
      split; [split; [discriminate|intros [= H]; contradiction]|].
      split; [right; reflexivity|]. destruct text; [contradiction|reflexivity].
    + unfold status. eexists _, _, _. split; [reflexivity|]. rewrite Hnormal.
      split; [split; discriminate|]. split; [right; reflexivity|reflexivity].
  - eexists _, _, _. split; [reflexivity|].
    split; [split; [reflexivity|intros _; exact Hopen]|].
    split; [left; exact Hopen|]. repeat split.
Qed.

(** ** Filter and refresh *)

(** The filter toggle never touches the items; two presses of h (with
    the filter input of the list closed at both presses) bring the
    flag back and hand the list widget the items that are visible under
    the flag as it was. *)
Theorem filter_toggle_twice m w f
    (Hmode : mode_of m = Normal)
    (Hfunc : FilterFunc (opts m) = Some f)
    (Hfilter : list_SettingFilter (lst m) = false)
    (Hstays : forall (l : ListModel) its text,
        list_SettingFilter (list_NewStatusMessage (fst (list_SetItems l its)) text)
        = list_SettingFilter l) :
  exists m1 m2 c1 c2 l text,
    Update m w (KeyMsg "h") = Return m1 w c1
    /\ Update m1 w (KeyMsg "h") = Return m2 w c2
    /\ filterActive m1 = negb (filterActive m)
    /\ filterActive m2 = filterActive m
    /\ items m1 = items m /\ items m2 = items m
    /\ lst m2 = list_NewStatusMessage
                  (fst (list_SetItems l (visibleItems (opts m) (filterActive m) (items m))))
                  text
    /\ mode_of m2 = Normal.
Proof.
  destruct (mode_of_view m (or_introl Hmode)) as (Hh & Hc & Hr & Hp).
  assert (Hd : showDetail m = false).
  { unfold mode_of in Hmode. rewrite Hh, Hc, Hr, Hp in Hmode. cbn in Hmode.
    destruct (showDetail m); [discriminate|reflexivity]. }
  assert (Hstep : forall m0,
             showHelp m0 = false -> confirmationMessage m0 = "" ->
             reactionMode m0 = false -> commentSelectMode m0 = false ->
             showDetail m0 = false -> list_SettingFilter (lst m0) = false ->
             opts m0 = opts m ->
             Update m0 w (KeyMsg "h")
             = let m' := updateVisibleItems (set_filterActive (negb (filterActive m0)) m0) in
               status m' w (if filterActive m' then "Hiding resolved" else "Showing all")).
  { intros m0 H1 H2 H3 H4 H5 H6 H7. cbn [Update]. unfold updateKey.
    rewrite H1, H2, H3, H4. cbn [negb String.eqb]. unfold dispatchKey.
    rewrite H6, H5. unfold listKey. literal_keys. rewrite H7, Hfunc.
    cbv zeta. destruct (filterActive _); reflexivity. }
  pose proof (Hstep m Hh Hc Hr Hp Hd Hfilter eq_refl) as H1.
  cbv zeta in H1. unfold status, updateVisibleItems in H1. fields_in H1.
  match type of H1 with
  | _ = Return ?m1 _ _ => set (m1' := m1) in *
  end.
  assert (Hf1 : list_SettingFilter (lst m1') = false)
    by (subst m1'; fields; rewrite Hstays; exact Hfilter).
  pose proof (Hstep m1' Hh Hc Hr Hp Hd Hf1 eq_refl) as H2.
  cbv zeta in H2. unfold status, updateVisibleItems in H2.
  eexists _, _, _, _, _, _. split; [exact H1|]. split; [exact H2|].
  subst m1'. fields. rewrite Bool.negb_involutive.
  split; [reflexivity|]. split; [reflexivity|]. split; [reflexivity|].
  split; [reflexivity|]. split; [reflexivity|].
  unfold mode_of. fields. rewrite Hh, Hc, Hr, Hp, Hd. reflexivity.
Qed.

(** At most one refresh is in flight: the key i starts one and sets
    [refreshing]; until its answer arrives a further i does nothing.  A
    failed refresh clears [refreshing], reports the error and keeps the
    items and the mode; a successful one replaces the items. *)
Theorem refresh_is_not_reentrant m w refresh
    (Hmode : mode_of m = Normal)
    (Hfilter : list_SettingFilter (lst m) = false)
    (Hrefresh : RefreshItems (opts m) = Some refresh)
    (Hidle : refreshing m = false) :
  Update m w (KeyMsg "i") = Return (set_refreshing true m) w CmdRefresh
  /\ Update (set_refreshing true m) w (KeyMsg "i")
     = Return (set_refreshing true m) w CmdNil
  /\ (forall its e,
        exists m',
          Update (set_refreshing true m) w (refreshFinishedMsg its (Some e))
            = Return m' w (CmdStatus (Colorize ColorRed ("Refresh failed: " ++ e)))
          /\ refreshing m' = false /\ items m' = items m /\ mode_of m' = Normal)
  /\ (forall its,
        exists m' c,
          Update (set_refreshing true m) w (refreshFinishedMsg (Some its) None)
            = Return m' w c
          /\ refreshing m' = false /\ items m' = its /\ mode_of m' = Normal).
Proof.
  destruct (mode_of_view m (or_introl Hmode)) as (Hh & Hc & Hr & Hp).
  assert (Hd : showDetail m = false).
  { unfold mode_of in Hmode. rewrite Hh, Hc, Hr, Hp in Hmode. cbn in Hmode.
    destruct (showDetail m); [discriminate|reflexivity]. }
  split; [|split; [|split]].
  - cbn [Update]. unfold updateKey. rewrite Hh, Hc, Hr, Hp. cbn [negb String.eqb].
    unfold dispatchKey. rewrite Hfilter, Hd. unfold listKey. literal_keys.
    rewrite Hrefresh, Hidle. reflexivity.
  - cbn [Update]. unfold updateKey. fields. rewrite Hh, Hc, Hr, Hp.
    cbn [negb String.eqb]. unfold dispatchKey. fields. rewrite Hfilter, Hd.
    unfold listKey. literal_keys. fields. rewrite Hrefresh. reflexivity.
  - intros its e. cbn [Update]. unfold status. eexists. split; [reflexivity|].
    fields. repeat split. exact Hmode.
  - intros its. cbn [Update]. fields.
    destruct (list_SetItems (lst m) its) as [l cmd]. eexists _, _.
    split; [reflexivity|]. fields. repeat split. exact Hmode.
Qed.


(** ** Starting the editor and the agent *)

(** [startEditorForAction] records a pending session exactly when it
    returns the editor command: the session then names a temporary file
    that holds what the preparer returned for the item.  In every other
    outcome (no preparer, preparer error, no temporary file, failed
    write) the pending session is what it was. *)
Theorem startEditorForAction_session m w item action :
  match startEditorForAction m w item action with
  | Return m' w' (CmdExecEditor argv) =>
      exists cb prepare content,
        preparerOf (opts m) action = Some (cb, prepare)
        /\ prepare item = Ok content
        /\ argv = [editorCommand w; pendingEditorTmpFile m']
        /\ pendingEditorItem m' = item
        /\ pendingEditorAction m' = action
        /\ files w' !! pendingEditorTmpFile m' = Some content
  | Return m' w' _ =>
      pendingEditorItem m' = pendingEditorItem m
      /\ pendingEditorTmpFile m' = pendingEditorTmpFile m
      /\ pendingEditorAction m' = pendingEditorAction m
  | Panic _ => False
  end.
Proof.
  unfold startEditorForAction.
  destruct (preparerOf (opts m) action) as [[cb prepare]|] eqn:Hof; [|repeat split].
  destruct (prepare item) as [content|e] eqn:Hprep; [|unfold status; repeat split].
  unfold CreateTemp. fields.
  destruct (create_err w); [unfold status; repeat split|].
  unfold WriteString. fields.
  destruct (write_err w); [unfold status; repeat split|].
  exists cb, prepare, content. fields.
  split; [reflexivity|]. split; [exact Hprep|]. split; [reflexivity|].
  split; [reflexivity|]. split; [reflexivity|]. apply lookup_insert_eq.
Qed.

(** When the write to the new temporary file fails, the file stays
    behind empty: nothing points to it, so nothing will remove it. *)
Theorem failed_write_leaves_temp_file m w item action cb prepare content e
    (Hprepare : preparerOf (opts m) action = Some (cb, prepare))
    (Hcontent : prepare item = Ok content)
    (Hcreate : create_err w = None)
    (Hwrite : write_err w = Some e) :
  exists m' w' path,
    startEditorForAction m w item action
      = Return m' w' (CmdStatus (Colorize ColorRed ("Failed to write temp file: " ++ e)))
    /\ files w' !! path = Some ""
    /\ pendingEditorTmpFile m' = pendingEditorTmpFile m.
Proof.
  unfold startEditorForAction. rewrite Hprepare, Hcontent.
  unfold CreateTemp. fields. rewrite Hcreate.
  unfold WriteString. fields. rewrite Hwrite. unfold status.
  eexists _, _, _. split; [reflexivity|]. fields.
  split; [apply lookup_insert_eq|reflexivity].
Qed.

(** After an editor error the session is still pending, so the next
    editor that exits without error completes it: the completer runs on
    the old draft, whichever editor that was (the edit-file action sends
    the same message). *)
Theorem stale_session_completes_later m w e content cb completer
    (Hpending : pendingEditorTmpFile m <> "")
    (Hread : ReadFile w (pendingEditorTmpFile m) = Ok content)
    (Hcontent : SanitizeEditorContent content <> "")
    (Hcompleter : completerOf (opts m) (pendingEditorAction m) = Some (cb, completer)) :
  exists m1 c1 m2 w2 c2,
    Update m w (editorFinishedMsg (Some e)) = Return m1 w c1
    /\ pendingEditorTmpFile m1 = pendingEditorTmpFile m
    /\ Update m1 w (editorFinishedMsg None) = Return m2 w2 c2
    /\ trace w2
       = (trace w ++ [ {| ev_callback := cb; ev_item := Some (pendingEditorItem m);
                          ev_mode := mode_of m;
                          ev_failed := is_err (completer (pendingEditorItem m)
                                                 (SanitizeEditorContent content)) |} ])%list
    /\ files w2 !! pendingEditorTmpFile m = None.
Proof.
  set (m1 := set_lst (list_NewStatusMessage (lst m)
                        (Colorize ColorRed ("Editor error: " ++ e))) m).
  assert (H1 : Update m w (editorFinishedMsg (Some e))
               = Return m1 w (CmdStatus (Colorize ColorRed ("Editor error: " ++ e))))
    by apply handleEditorFinished_error.
  assert (H2 := handleEditorFinished_read m1 w content Hpending Hread).
  cbv zeta in H2. rewrite (eqb_empty_false _ Hcontent) in H2.
  change (opts m1) with (opts m) in H2.
  change (pendingEditorAction m1) with (pendingEditorAction m) in H2.
  rewrite Hcompleter in H2.
  change (pendingEditorItem m1) with (pendingEditorItem m) in H2.
  change (pendingEditorTmpFile m1) with (pendingEditorTmpFile m) in H2.
  change (handleEditorFinished m1 w None)
    with (Update m1 w (editorFinishedMsg None)) in H2.
  exists m1. eexists. rewrite H1, H2.
  destruct (completer (pendingEditorItem m) (SanitizeEditorContent content))
    as [result|err].
  - destruct (Contains result "https://"); [|destruct (negb (String.eqb result ""))];
      unfold status; eexists _, _, _;
      (split; [reflexivity|]); (split; [reflexivity|]); (split; [reflexivity|]);
      (split; [reflexivity|apply Remove_gone]).
  - unfold status; eexists _, _, _;
      (split; [reflexivity|]); (split; [reflexivity|]); (split; [reflexivity|]);
      (split; [reflexivity|apply Remove_gone]).
Qed.

(** [launchAgent] panics exactly on an agent setting made of white space. *)
Lemma launchAgent_panics (w : World T) (prompt : string) :
  launchAgent w prompt = None
  <-> env_AGENT w <> "" /\ allSpace (env_AGENT w) = true.
Proof.
  unfold launchAgent.
  destruct (String.eqb_spec (env_AGENT w) "") as [Hempty|Hset].
  - cbn. split; [discriminate|]. intros [H _]. contradiction.
  - destruct (Fields (env_AGENT w)) as [|prog args] eqn:Hfields.
    + apply FieldsFrom_nil in Hfields as [_ Hspace]. unfold allSpace. tauto.
    + split; [discriminate|]. intros [_ Hspace].
      assert (Hnil : Fields (env_AGENT w) = []) by (apply FieldsFrom_nil; auto).
      congruence.
Qed.

(** The command [launchAgent] builds ends with the prompt. *)
Lemma launchAgent_command (w : World T) (prompt : string) c :
  launchAgent w prompt = Some c ->
  exists argv, c = CmdExecAgent argv
               /\ List.last argv "" = prompt
               /\ List.removelast argv = Fields (agentCommand w).
Proof.
  unfold launchAgent, agentCommand. intros Hc.
  destruct (Fields (if String.eqb (env_AGENT w) "" then "claude" else env_AGENT w))
    as [|prog args]; [discriminate|].
  injection Hc as <-. exists (prog :: args ++ [prompt])%list.
  split; [reflexivity|].
  change (prog :: args ++ [prompt])%list with ((prog :: args) ++ [prompt])%list.
  rewrite List.last_last, List.removelast_last. split; reflexivity.
Qed.

(** [launchAgent] panics exactly when [GH_PRREVIEW_AGENT] is set to
    white space only; otherwise the command is the fields of the variable
    (or claude) followed by the prompt, whole, as the last argument. *)
Theorem launchAgent_prompt_is_last_argument (w : World T) (prompt : string) :
  (launchAgent w prompt = None
   <-> env_AGENT w <> "" /\ allSpace (env_AGENT w) = true)
  /\ (forall c, launchAgent w prompt = Some c ->
        exists argv, c = CmdExecAgent argv
                     /\ List.last argv "" = prompt
                     /\ List.removelast argv = Fields (agentCommand w)).
Proof.
  split; [apply launchAgent_panics|apply launchAgent_command].
Qed.

(** What [AgentAction] returns behind the marker LAUNCH_AGENT: reaches
    the agent unchanged, as the last argument of its command; from the
    detail view the engine goes back to the list. *)
Theorem agent_prompt_round_trip (f : CustomAction) m w item (inDetailView : bool)
    (prompt : string)
    (Hcall : f item = Ok ("LAUNCH_AGENT:" ++ prompt))
    (Hagent : env_AGENT w = "" \/ allSpace (env_AGENT w) = false) :
  exists m' w' argv,
    runAgentAction f m w item inDetailView = Return m' w' (CmdExecAgent argv)
    /\ List.last argv "" = prompt
    /\ showDetail m' = (showDetail m && negb inDetailView)%bool.
Proof.
  unfold runAgentAction. rewrite Hcall, HasPrefix_app, TrimPrefix_app.
  pose proof (launchAgent_panics
                (called CbAgentAction (Some item) m (Ok ("LAUNCH_AGENT:" ++ prompt)) w)
                prompt) as Hnone.
  destruct (launchAgent _ prompt) as [c|] eqn:Hlaunch.
  - destruct (launchAgent_command _ _ _ Hlaunch) as (argv & -> & Hlast & _).
    eexists _, _, _. split; [reflexivity|]. split; [exact Hlast|].
    destruct inDetailView; fields; cbn [negb];
      [rewrite Bool.andb_false_r|rewrite Bool.andb_true_r]; reflexivity.
  - exfalso. destruct Hnone as [Hnone _]. destruct (Hnone eq_refl) as [Hset Hspace].
    fields_in Hset; fields_in Hspace. destruct Hagent as [H|H]; congruence.
Qed.

(** What [EditAction] returns as EDIT_FILE:path:line opens the editor on
    that path, at the line when [fmt.Sscanf] reads a positive one,
    provided the path has no colon of its own. *)
Theorem edit_file_round_trip (f : CustomAction) m w item (inDetailView : bool)
    (path line : string)
    (Haction : EditAction (opts m) = Some f)
    (Hselected : list_SelectedItem (lst m) = Some item)
    (Hcall : f item = Ok ("EDIT_FILE:" ++ path ++ ":" ++ line))
    (Hpath : noColon path = true) :
  exists w',
    editKey m w inDetailView
    = Return m w' (CmdExecEditor
                     (if 0 <? Sscanf_d line
                      then [editorCommand w; "+" ++ itoa (Sscanf_d line); path]
                      else [editorCommand w; path]))
    /\ files w' = files w.
Proof.
  unfold editKey. rewrite Haction, Hselected, Hcall.
  rewrite HasPrefix_app, TrimPrefix_app, (SplitColon2_app _ _ Hpath).
  unfold editInEditor. destruct (0 <? Sscanf_d line);
    eexists; (split; [reflexivity|reflexivity]).
Qed.



(** ** Panics *)

Lemma status_runs m w text : in_range m -> agentSet w -> runs (status m w text).
Proof. intros Hm Hw. split; [exact Hm|exact Hw]. Qed.



Ltac in_range_tac :=
  match goal with
  | Hm : in_range _ |- in_range _ =>
      first [ exact Hm
            | let Hr := fresh "Hr" in
              let Hc := fresh "Hc" in
              destruct Hm as [Hr Hc]; split; fields;
              [ first [ exact Hr | lia ] | first [ exact Hc | discriminate ] ] ]
  end.

#[local] Hint Extern 1 (in_range _) => in_range_tac : runs_db.
#[local] Hint Extern 1 (agentSet _) => eassumption : runs_db.
#[local] Hint Resolve status_runs : runs_db.

Ltac runs_cases :=
  break; cbn [runs]; eauto with runs_db.

Lemma CreateTemp_agent (w w' : World T) path :
  CreateTemp w = Ok (path, w') -> env_AGENT w' = env_AGENT w.
Proof. unfold CreateTemp. destruct (create_err w); [discriminate|]. intros [= _ <-]. reflexivity. Qed.

Lemma WriteString_agent (w w' : World T) path content :
  WriteString w path content = Ok w' -> env_AGENT w' = env_AGENT w.
Proof. unfold WriteString. destruct (write_err w); [discriminate|]. intros [= <-]. reflexivity. Qed.

Lemma startEditorForAction_runs m w (item : T) (action : Z) :
  in_range m -> agentSet w -> runs (startEditorForAction m w item action).
Proof.
  intros Hm Hw. unfold startEditorForAction, CreateTemp, WriteString. runs_cases.
Qed.

#[local] Hint Resolve startEditorForAction_runs : runs_db.

Lemma handleEditorFinished_runs m w (err : option string) :
  in_range m -> agentSet w -> runs (handleEditorFinished m w err).
Proof. intros Hm Hw. unfold handleEditorFinished. runs_cases. Qed.

#[local] Hint Resolve handleEditorFinished_runs : runs_db.

Lemma runCustomAction_runs m w cb (action : option CustomAction) :
  in_range m -> agentSet w -> runs (runCustomAction cb action m w).
Proof. intros Hm Hw. unfold runCustomAction. runs_cases. Qed.

#[local] Hint Resolve runCustomAction_runs : runs_db.

Lemma editKey_runs m w (b : bool) :
  in_range m -> agentSet w -> runs (editKey m w b).
Proof. intros Hm Hw. unfold editKey, editInEditor. runs_cases. Qed.

#[local] Hint Resolve editKey_runs : runs_db.

Lemma resolveCommentKey_runs m w (b : bool) :
  in_range m -> agentSet w -> runs (resolveCommentKey m w b).
Proof. intros Hm Hw. unfold resolveCommentKey. runs_cases. Qed.

#[local] Hint Resolve resolveCommentKey_runs : runs_db.

Lemma in_range_highlight m : in_range m -> in_range (updateDetailViewWithHighlight m).
Proof.
  intros Hm. unfold updateDetailViewWithHighlight. break; in_range_tac.
Qed.

Lemma startThreadPick_runs m w key (item : T) (b : bool) :
  in_range m -> agentSet w ->
  (1 <? ThreadCommentCount (Renderer (opts m)) item) = true ->
  runs (startThreadPick m w key item b).
Proof.
  intros Hm Hw Hcount. apply Z.ltb_lt in Hcount.
  unfold startThreadPick, showCommentSelectStatus.
  assert (Hin : in_range (enterCommentSelectMode m key item)).
  { destruct Hm as [Hr _]. split; fields; [exact Hr|]. intros _. lia. }
  destruct b.
  - apply status_runs; [|exact Hw]. apply in_range_highlight.
    destruct Hin as [Hr Hc]. split; [exact Hr|exact Hc].
  - apply status_runs; [exact Hin|exact Hw].
Qed.

#[local] Hint Resolve startThreadPick_runs : runs_db.

Lemma handleEditorKey_runs m w (prepare : option EditorPreparer) key (action : Z) (b : bool) :
  in_range m -> agentSet w -> runs (handleEditorKey prepare key action m w b).
Proof. intros Hm Hw. unfold handleEditorKey. runs_cases. Qed.

#[local] Hint Resolve handleEditorKey_runs : runs_db.

Lemma runAgentAction_runs m w (f : CustomAction) (item : T) (b : bool) :
  in_range m -> agentSet w -> runs (runAgentAction f m w item b).
Proof.
  intros Hm Hw. unfold runAgentAction. runs_cases.
  all: match goal with
       | H : launchAgent _ _ = None |- _ =>
           apply launchAgent_panics in H; destruct H as [Hset Hspace];
           fields_in Hset; fields_in Hspace; destruct Hw; congruence
       end.
Qed.

#[local] Hint Resolve runAgentAction_runs : runs_db.

Lemma handleAgentKey_runs m w (b : bool) :
  in_range m -> agentSet w -> runs (handleAgentKey m w b).
Proof. intros Hm Hw. unfold handleAgentKey. runs_cases. Qed.

#[local] Hint Resolve handleAgentKey_runs : runs_db.

Lemma showReactionStatus_runs m w :
  in_range m -> agentSet w -> runs (showReactionStatus m w).
Proof.
  intros Hm Hw. unfold showReactionStatus.
  destruct (emoji_at (reactionIdx m)) as [e|] eqn:He.
  - apply status_runs; assumption.
  - exfalso. destruct Hm as [Hr _]. revert He.
    assert (H : reactionIdx m = 0 \/ reactionIdx m = 1 \/ reactionIdx m = 2
                \/ reactionIdx m = 3 \/ reactionIdx m = 4 \/ reactionIdx m = 5
                \/ reactionIdx m = 6 \/ reactionIdx m = 7) by lia.
    destruct H as [->|[->|[->|[->|[->|[->|[->| ->]]]]]]]; discriminate.
Qed.

#[local] Hint Resolve showReactionStatus_runs : runs_db.

Lemma runReactionAction_runs m w (f : T -> errable Z) (item : T) :
  in_range m -> agentSet w -> runs (runReactionAction f m w item).
Proof. intros Hm Hw. unfold runReactionAction. runs_cases. Qed.

#[local] Hint Resolve runReactionAction_runs : runs_db.

Lemma handleReactionKey_runs m w (b : bool) :
  in_range m -> agentSet w -> runs (handleReactionKey m w b).
Proof.
  intros Hm Hw. unfold handleReactionKey. runs_cases.
  match goal with
  | H : (_ && _)%bool = true |- _ => apply andb_prop in H as [Hcount _]
  end.
  apply startThreadPick_runs; assumption.
Qed.

#[local] Hint Resolve handleReactionKey_runs : runs_db.

Lemma executeCommentAction_runs m w  :
  in_range m -> agentSet w -> runs (executeCommentAction m w).
Proof. intros Hm Hw. unfold executeCommentAction. runs_cases. Qed.

#[local] Hint Resolve executeCommentAction_runs : runs_db.

Lemma reactionKey_runs m w key :
  in_range m -> agentSet w -> runs (reactionKey m w key).
Proof.
  intros Hm Hw. unfold reactionKey. runs_cases.
  - exfalso. pose proof (showReactionStatus_runs m w Hm Hw) as H.
    unfold showReactionStatus in H.
    match goal with He : emoji_at _ = None |- _ => rewrite He in H end. exact H.
  - apply showReactionStatus_runs; [|exact Hw].
    destruct Hm as [Hr Hc]. split; fields; [|exact Hc].
    rewrite cycle_index_step by (exact Hr || reflexivity).
    apply Z.mod_pos_bound. lia.
Qed.

#[local] Hint Resolve reactionKey_runs : runs_db.

Lemma listDefault_runs m w (msg : Msg T) :
  in_range m -> agentSet w -> runs (listDefault m w msg).
Proof. intros Hm Hw. unfold listDefault. runs_cases. Qed.

#[local] Hint Resolve listDefault_runs : runs_db.

Lemma detailKey_runs m w key :
  in_range m -> agentSet w -> runs (detailKey m w key).
Proof. intros Hm Hw. unfold detailKey, handleQuoteKey, handleQuoteContextKey. runs_cases. Qed.

#[local] Hint Resolve detailKey_runs : runs_db.

Lemma in_range_visible m : in_range m -> in_range (updateVisibleItems m).
Proof. intros Hm. exact Hm. Qed.

Lemma listKey_runs m w key :
  in_range m -> agentSet w -> runs (listKey m w key).
Proof. intros Hm Hw. unfold listKey, handleQuoteKey, handleQuoteContextKey. runs_cases. Qed.

#[local] Hint Resolve listKey_runs : runs_db.

Lemma dispatchKey_runs m w key :
  in_range m -> agentSet w -> runs (dispatchKey m w key).
Proof. intros Hm Hw. unfold dispatchKey. runs_cases. Qed.

#[local] Hint Resolve dispatchKey_runs : runs_db.

Lemma cycleCommentSelection_runs m :
  in_range m -> commentSelectMode m = true ->
  exists m', cycleCommentSelection m = Some m' /\ in_range m'.
Proof.
  intros [Hr Hc] Hmode. unfold cycleCommentSelection.
  destruct (Z.eqb_spec (ThreadCommentCount (Renderer (opts m)) (commentSelectItem m)) 0)
    as [Hzero|_]; [elim (Hc Hmode Hzero)|].
  eexists. split; [reflexivity|]. split; fields; [exact Hr|exact Hc].
Qed.

Lemma commentSelectKey_runs m w key :
  in_range m -> agentSet w -> commentSelectMode m = true ->
  runs (commentSelectKey m w key).
Proof.
  intros Hm Hw Hmode. unfold commentSelectKey.
  destruct (cycleCommentSelection_runs m Hm Hmode) as (m' & -> & Hm').
  unfold showCommentSelectStatus. cbv zeta.
  change (commentSelectInDetail (exitCommentSelectMode m)) with false. cbv iota.
  assert (Hexit : in_range (exitCommentSelectMode m)) by in_range_tac.
  destruct (String.eqb key "enter"); [apply executeCommentAction_runs; assumption|].
  destruct (String.eqb key "esc"); [apply status_runs; assumption|].
  destruct (is_key key ["Q"; "C"; "a"; "x"]); [|apply dispatchKey_runs; assumption].
  destruct (String.eqb key (commentSelectAction m)); [|apply dispatchKey_runs; assumption].
  apply status_runs; [|exact Hw].
  destruct (commentSelectInDetail m'); [apply in_range_highlight|]; exact Hm'.
Qed.

#[local] Hint Resolve commentSelectKey_runs : runs_db.

Lemma updateKey_runs m w key :
  in_range m -> agentSet w -> runs (updateKey m w key).
Proof. intros Hm Hw. unfold updateKey. runs_cases. Qed.

#[local] Hint Resolve updateKey_runs : runs_db.

Lemma Update_runs m w (msg : Msg T) :
  in_range m -> agentSet w -> runs (Update m w msg).
Proof. intros Hm Hw. unfold Update. runs_cases. Qed.

Lemma initialModel_in_range (o : SelectorOptions T) : in_range (initialModel o).
Proof.
  unfold initialModel, updateVisibleItems. break; (split; fields; [lia|discriminate]).
Qed.

Lemma handleAll_runs (msgs : list (Msg T)) : forall m w,
  in_range m -> agentSet w -> runs (handleAll m w msgs).
Proof.
  induction msgs as [|msg rest IH]; intros m w Hm Hw; cbn; [split; assumption|].
  pose proof (Update_runs m w msg Hm Hw) as Hstep.
  destruct (Update m w msg) as [m' w' c|]; [|exact Hstep].
  cbn in Hstep. destruct Hstep as [Hm' Hw']. apply IH; assumption.
Qed.

(** From the model [Select] starts with, no sequence of messages makes
    [Update] panic, as long as [GH_PRREVIEW_AGENT] is unset or holds a
    command ([strings.Fields] of it is not empty): [reactionIdx] stays an
    index of [reactionEmojis], and a thread pick is only ever open on a
    thread that is not empty, so that [cycleCommentSelection] never
    divides by zero.  The statement is about the calls of [Update] alone,
    every message handled whatever command the one before returned: the
    drawing between them ([View], and [Render], which does panic on a
    list five or six columns wide) and what [Select] does with the final
    model are not part of it.  The renderer is taken to be a function of
    the item. *)
Theorem Update_never_panics (o : SelectorOptions T) w (msgs : list (Msg T))
    (Hagent : agentSet w) :
  match handleAll (initialModel o) w msgs with
  | Return m' w' _ =>
      0 <= reactionIdx m' < 8
      /\ (commentSelectMode m' = true ->
          ThreadCommentCount (Renderer (opts m')) (commentSelectItem m') <> 0)
      /\ agentSet w'
  | Panic _ => False
  end.
Proof.
  pose proof (handleAll_runs msgs (initialModel o) w (initialModel_in_range o) Hagent)
    as Hrun.
  destruct (handleAll (initialModel o) w msgs) as [m' w' c|]; [|exact Hrun].
  destruct Hrun as [[Hidx Hpick] Hw']. split; [exact Hidx|]. split; [exact Hpick|exact Hw'].
Qed.


(** Enter in a pick opened with x runs the reaction action on the item
    stamped with the index the pick is on, and opens the reaction picker
    on its first entry for the comment id the action returned. *)
Lemma enter_runs_reaction_action o (item : T) idx detail m w f id :
  picking o "x" item idx detail m ->
  ReactionAction o = Some f ->
  f (WithSelectedComment (Renderer o) item idx) = Ok id ->
  exists m' w' c,
    Update m w (KeyMsg "enter") = Return m' w' c
    /\ mode_of m' = ReactionPick
    /\ reactionCommentID m' = id
    /\ reactionIdx m' = 0
    /\ commentSelectMode m' = false
    /\ showDetail m' = showDetail m.
Proof.
  intros (Ho & Hh & Hc & Hr & Hp & Ha & Hi & Hx & Hd & Hs) Haction Hid.
  cbn [Update]. unfold updateKey. rewrite Hh, Hc, Hr, Hp. cbn [negb String.eqb].
  unfold commentSelectKey. cbn [String.eqb Ascii.eqb Bool.eqb].
  unfold executeCommentAction. fields. rewrite Ha. cbn [String.eqb Ascii.eqb Bool.eqb].
  rewrite Ho, Haction, Hi, Hx.
  unfold runReactionAction. rewrite Hid.
  unfold showReactionStatus. fields. cbn [emoji_at].
  eexists _, _, _. split; [reflexivity|]. fields.
  split; [|repeat split].
  unfold mode_of. fields. rewrite Hh, Hc. reflexivity.
Qed.


(** ** Threads of one comment, and the resolve keys of the detail view *)

Ltac direct_leaf H :=
  cbn [direct]; try exact I;
  (split; [exact H|]); fields;
  first [ left; reflexivity | right; eexists; split; reflexivity ].

Lemma startEditorForAction_direct m w (item : T) (action : Z) :
  commentSelectMode m = false -> direct item w (startEditorForAction m w item action).
Proof.
  intros H. unfold startEditorForAction, CreateTemp, WriteString, status.
  break; direct_leaf H.
Qed.

Lemma runAgentAction_direct m w (f : CustomAction) (item : T) (b : bool) :
  commentSelectMode m = false -> direct item w (runAgentAction f m w item b).
Proof.
  intros H. unfold runAgentAction, status. break; direct_leaf H.
Qed.

Lemma runReactionAction_direct m w (f : T -> errable Z) (item : T) :
  commentSelectMode m = false -> direct item w (runReactionAction f m w item).
Proof.
  intros H. unfold runReactionAction, showReactionStatus, status.
  break; direct_leaf H.
Qed.

(** A thread of no or one comment never opens the pick: on the keys Q, C,
    a and x, in the list and in the detail view, the press leaves
    [commentSelectMode] off, and the callback it invokes, if any, is
    invoked on the selected item as it is. *)
Theorem short_thread_never_picks m w key (item : T)
    (Hview : mode_of m = Normal \/ mode_of m = Detail)
    (Hfilter : list_SettingFilter (lst m) = false)
    (Hkey : is_key key ["Q"; "C"; "a"; "x"] = true)
    (Hselected : list_SelectedItem (lst m) = Some item)
    (Hcount : ThreadCommentCount (Renderer (opts m)) item <= 1) :
  direct item w (Update m w (KeyMsg key)).
Proof.
  destruct (mode_of_view m Hview) as (Hh & Hc & Hr & Hp).
  assert (Hshort : (1 <? ThreadCommentCount (Renderer (opts m)) item) = false)
    by (apply Z.ltb_ge; exact Hcount).
  cbn [Update]. unfold updateKey. rewrite Hh, Hc, Hr, Hp. cbn [negb String.eqb].
  unfold dispatchKey. rewrite Hfilter.
  apply is_key_in in Hkey. cbn [In] in Hkey.
  destruct (showDetail m) eqn:Hd;
    [unfold detailKey|unfold listKey];
    unfold handleQuoteKey, handleQuoteContextKey, handleEditorKey, handleAgentKey,
      handleReactionKey;
    repeat (destruct Hkey as [<-|Hkey]); try contradiction;
    literal_keys; rewrite Hselected, Hshort; cbn [andb];
    repeat match goal with
           | |- direct _ _ (match ?callback with Some _ => _ | None => _ end) =>
               destruct callback; [|direct_leaf Hp]
           end;
    first [ apply startEditorForAction_direct
          | apply runAgentAction_direct
          | apply runReactionAction_direct ];
    fields; exact Hp.
Qed.

Lemma pick_closed m : commentSelectMode m = false -> mode_of m <> ThreadPick.
Proof.
  intros H. unfold mode_of. rewrite H.
  destruct (showHelp m), (negb (String.eqb (confirmationMessage m) "")),
    (reactionMode m), (showDetail m); discriminate.
Qed.

Ltac acts_leaf H :=
  cbn [acts];
  split; [fields; exact H|];
  split; [apply pick_closed; fields; exact H|];
  fields; eexists; split; [reflexivity|];
  cbn [ev_callback ev_item ev_mode ev_failed];
  split; [reflexivity|]; split; [reflexivity|];
  split; [apply pick_closed; fields; exact H|reflexivity].

Lemma startEditorForAction_acts m w (item : T) (action : Z) cb prepare :
  commentSelectMode m = false ->
  preparerOf (opts m) action = Some (cb, prepare) ->
  acts cb (is_err (prepare item)) item w (startEditorForAction m w item action).
Proof.
  intros H Hp. unfold startEditorForAction, CreateTemp, WriteString, status.
  rewrite Hp. break; acts_leaf H.
Qed.

Lemma runAgentAction_acts m w (f : CustomAction) (item : T) (b : bool) :
  commentSelectMode m = false -> agentSet w ->
  acts CbAgentAction (is_err (f item)) item w (runAgentAction f m w item b).
Proof.
  intros H Hw. unfold runAgentAction, status. break; try acts_leaf H.
  all: match goal with
       | Hl : launchAgent _ _ = None |- _ =>
           apply launchAgent_panics in Hl; destruct Hl as [Hset Hspace];
           fields_in Hset; fields_in Hspace; destruct Hw; congruence
       end.
Qed.

Lemma runReactionAction_acts m w (f : T -> errable Z) (item : T) :
  commentSelectMode m = false ->
  acts CbReactionAction (is_err (f item)) item w (runReactionAction f m w item).
Proof.
  intros H. unfold runReactionAction, showReactionStatus, status.
  fields. change (emoji_at 0) with (Some {| name := "+1"; display := "+1" |}).
  break; acts_leaf H.
Qed.

(** C5. A comment whose thread has no or one comment is selected, in
    the list or the detail view.  On each of the action keys Q, C, a and
    x whose callback is set, the press returns with no thread pick open
    and has invoked that callback once, outside of a pick, on the
    selected item as it is; with the callback not set the key does
    nothing.  ([GH_PRREVIEW_AGENT] is unset or holds a command: on a
    setting made of white space the key a panics once the agent action
    has answered.) *)
Theorem short_thread_acts_directly m w key (item : T)
    (Hview : mode_of m = Normal \/ mode_of m = Detail)
    (Hfilter : list_SettingFilter (lst m) = false)
    (Hkey : is_key key ["Q"; "C"; "a"; "x"] = true)
    (Hselected : list_SelectedItem (lst m) = Some item)
    (Hcount : ThreadCommentCount (Renderer (opts m)) item <= 1)
    (Hagent : agentSet w) :
  match keyAction (opts m) key item with
  | Some (cb, failed) => acts cb failed item w (Update m w (KeyMsg key))
  | None => Update m w (KeyMsg key) = Return m w CmdNil
  end.
Proof.
  destruct (mode_of_view m Hview) as (Hh & Hc & Hr & Hp).
  assert (Hshort : (1 <? ThreadCommentCount (Renderer (opts m)) item) = false)
    by (apply Z.ltb_ge; exact Hcount).
  cbn [Update]. unfold updateKey. rewrite Hh, Hc, Hr, Hp. cbn [negb String.eqb].
  unfold dispatchKey. rewrite Hfilter.
  apply is_key_in in Hkey. cbn [In] in Hkey.
  destruct (showDetail m) eqn:Hd;
    [unfold detailKey|unfold listKey];
    unfold handleQuoteKey, handleQuoteContextKey, handleEditorKey, handleAgentKey,
      handleReactionKey, keyAction;
    repeat (destruct Hkey as [<-|Hkey]); try contradiction;
    literal_keys; rewrite Hselected, Hshort; cbn [andb].
  all: match goal with
       | |- context [option_map _ ?callback] =>
           destruct callback as [f|] eqn:Hf; cbn [option_map]; [|reflexivity]
       end.
  all: first [ apply runAgentAction_acts; [fields; exact Hp|exact Hagent]
             | apply runReactionAction_acts; fields; exact Hp
             | apply startEditorForAction_acts;
               [fields; exact Hp|fields; unfold preparerOf; rewrite Hf; reflexivity] ].
Qed.

(** ** A callback that fails *)























Lemma startEditorForAction_mode m w (item : T) (action : Z) :
  exists m' w' c,
    startEditorForAction m w item action = Return m' w' c
    /\ mode_of m' = mode_of m
    /\ forall cb prepare e,
         preparerOf (opts m) action = Some (cb, prepare) -> prepare item = Err e ->
         c = CmdStatus (Colorize ColorRed e).
Proof.
  unfold startEditorForAction, status.
  destruct (preparerOf (opts m) action) as [[cb prepare]|].
  - destruct (prepare item) as [content|e] eqn:Hprepare.
    + destruct (CreateTemp _) as [[path w1]|e1].
      * destruct (WriteString _ _ _) as [w2|e2]; eexists _, _, _;
          (split; [reflexivity|]); (split; [reflexivity|]);
          intros ? ? ? [= <- <-] H; congruence.
      * eexists _, _, _. split; [reflexivity|]. split; [reflexivity|].
        intros ? ? ? [= <- <-] H; congruence.
    + eexists _, _, _. split; [reflexivity|]. split; [reflexivity|].
      intros ? ? ? [= <- <-] H. congruence.
  - eexists _, _, _. split; [reflexivity|]. split; [reflexivity|]. discriminate.
Qed.

(** From the detail view the keys r, u, R and U go back to the list
    whatever their callback answers: [showDetail] is cleared before the
    error is looked at, so that a failing resolve from the detail view
    shows its error in the list view. *)
Theorem detail_resolve_goes_back_to_list m w key (item : T)
    (Hmode : mode_of m = Detail)
    (Hfilter : list_SettingFilter (lst m) = false)
    (Hkey : is_key key ["r"; "u"; "R"; "U"] = true)
    (Hset : keyCallbackSet (opts m) key = true)
    (Hselected : list_SelectedItem (lst m) = Some item) :
  exists m' w' c,
    Update m w (KeyMsg key) = Return m' w' c
    /\ mode_of m' = Normal
    /\ (forall f e, is_key key ["r"; "u"] = true ->
          ResolveAction (opts m) = Some f -> f item = Err e ->
          c = CmdStatus (Colorize ColorRed e))
    /\ (forall prepare e, is_key key ["R"; "U"] = true ->
          ResolveCommentPrepare (opts m) = Some prepare -> prepare item = Err e ->
          c = CmdStatus (Colorize ColorRed e)).
Proof.
  destruct (mode_of_view m (or_intror Hmode)) as (Hh & Hc & Hr & Hp).
  assert (Hd : showDetail m = true).
  { unfold mode_of in Hmode. rewrite Hh, Hc, Hr, Hp in Hmode. cbn in Hmode.
    destruct (showDetail m); [reflexivity|discriminate]. }
  assert (Hlist : forall m0, showHelp m0 = false -> confirmationMessage m0 = "" ->
                   reactionMode m0 = false -> commentSelectMode m0 = false ->
                   showDetail m0 = false -> mode_of m0 = Normal).
  { intros m0 H1 H2 H3 H4 H5. unfold mode_of. rewrite H1, H2, H3, H4, H5. reflexivity. }
  cbn [Update]. unfold updateKey. rewrite Hh, Hc, Hr, Hp. cbn [negb String.eqb].
  unfold dispatchKey. rewrite Hfilter, Hd.
  apply is_key_in in Hkey. cbn [In] in Hkey.
  unfold keyCallbackSet in Hset.
  unfold detailKey, resolveCommentKey.
  repeat (destruct Hkey as [<-|Hkey]); try contradiction;
    literal_keys; literal_keys_in Hset.
  1,2: destruct (ResolveAction (opts m)) as [f|]; [|discriminate Hset];
       rewrite Hselected; unfold status;
       destruct (f item) as [text|e] eqn:Hf;
       [destruct (negb (String.eqb text ""))|];
       eexists _, _, _; (split; [reflexivity|]);
       (split; [apply Hlist; fields; first [assumption|reflexivity]|]);
       (split; [intros f' e' _ [= <-] Hf'; congruence|intros ? ? H; discriminate H]).
  all: destruct (ResolveCommentPrepare (opts m)) as [prepare|] eqn:Hprep;
         [|discriminate Hset];
       rewrite Hselected;
       destruct (startEditorForAction_mode (set_showDetail false m) w item 2)
         as (m' & w' & c & -> & Hm' & Herr);
       exists m', w', c; (split; [reflexivity|]);
       (split; [rewrite Hm'; apply Hlist; fields; first [assumption|reflexivity]|]);
       (split; [intros ? ? H; discriminate H|]);
       intros prepare' e' _ [= <-] Hfails;
       apply (Herr CbResolveCommentPrepare prepare e'); [|exact Hfails];
       unfold preparerOf; fields; cbn [Z.eqb Pos.eqb]; rewrite Hprep; reflexivity.
Qed.

End EngineFacts.


(** ** Rendering a list item *)

Lemma length_substring (n : nat) (s : string) :
  (n <= String.length s)%nat -> String.length (String.substring 0 n s) = n.
Proof.
  revert s. induction n as [|n IH]; intros s Hn.
  - destruct s; reflexivity.
  - destruct s as [|c s]; simpl in *; [lia|]. rewrite IH by lia. reflexivity.
Qed.

Lemma truncate_spec (maxWidth : Z) (s : string) :
  0 < maxWidth < 2 ^ 63 ->
  match truncate maxWidth s with
  | None => maxWidth < 3 /\ maxWidth < slen s
  | Some t => (3 <= maxWidth \/ slen s <= maxWidth)
              /\ slen t = Z.min (slen s) maxWidth
  end.
Proof.
  intros Hw. unfold truncate, int_sub. rewrite wrap_int_small by lia.
  destruct (Z.ltb_spec maxWidth (slen s)) as [Hlong|Hshort].
  - destruct (Z.ltb_spec (maxWidth - 3) 0) as [Hneg|Hpos]; [lia|].
    split; [lia|]. unfold slen in *.
    rewrite length_app, length_substring by lia. simpl. lia.
  - split; lia.
Qed.

(** [Render] panics on a list five or six columns wide as soon as a
    title or a description is longer than the one or two bytes it may
    take, the slice bound [maxWidth-3] being negative; from seven columns
    on it never does, a cut text takes exactly [maxWidth] bytes, and the
    line of title, separator and description at most
    [2 * maxWidth + 3]. *)
Theorem Render_truncation (width : Z) (title desc : string)
    (Hwidth : 4 < width < 2 ^ 63) :
  (renderLine width title desc = None
   <-> width < 7 /\ (width - 4 < slen title \/ width - 4 < slen desc))
  /\ (forall line, renderLine width title desc = Some line ->
        slen line <= 2 * (width - 4) + 3
        /\ (desc = "" -> slen line = Z.min (slen title) (width - 4))).
Proof.
  unfold renderLine, int_sub. rewrite wrap_int_small by lia.
  destruct (Z.ltb_spec 0 (width - 4)) as [_|]; [|lia].
  pose proof (truncate_spec (width - 4) title ltac:(lia)) as Ht.
  pose proof (truncate_spec (width - 4) desc ltac:(lia)) as Hd.
  destruct (truncate (width - 4) title) as [t|].
  - destruct (truncate (width - 4) desc) as [d|].
    + split; [split; [discriminate|lia]|].
      intros line [= <-]. destruct Ht as [_ Ht], Hd as [_ Hd].
      destruct (String.eqb_spec d "") as [->|Hne]; cbn [negb].
      * split; [unfold slen in *; simpl in *; lia|]. intros _. exact Ht.
      * split.
        -- unfold slen in *. rewrite !length_app. simpl. lia.
        -- intros ->. unfold slen in Hd. simpl in Hd.
           destruct d; [contradiction|]. simpl in Hd. lia.
    + split; [split; [intros _; lia|reflexivity]|discriminate].
  - split; [split; [intros _; lia|reflexivity]|discriminate].
Qed.


(** ** The browse command *)

Section BrowseFacts.
Import Browse.

Lemma forRange_inv {St} (P : nat -> St -> Prop) (body : nat -> St -> St) (lo hi : nat) :
  (forall j s, (lo <= j < hi)%nat -> P j s -> P (S j) (body j s)) ->
  forall s, (lo <= hi)%nat -> P lo s -> P hi (forRange lo hi body s).
Proof.
  intros Hstep s Hle. unfold forRange.
  assert (H : forall n from s, (lo <= from)%nat -> (from + n = hi)%nat -> P from s ->
              P hi (foldl (fun s j => body j s) s (seq from n))).
  { induction n as [|n IH]; intros from s' Hfrom Hn H0.
    - simpl. replace hi with from by lia. exact H0.
    - simpl. apply IH; [lia|lia|]. apply Hstep; [lia|exact H0]. }
  apply H; lia.
Qed.

Section ExchangeSort.
Context {A : Type} (le : relation A) (gt : A -> A -> bool).
Context `{!Transitive le}.
Hypothesis gt_false : forall x y, gt x y = false -> le x y.
Hypothesis gt_true : forall x y, gt x y = true -> le y x.

Lemma swapIf_length i j (a : list A) : length (swapIf gt i j a) = length a.
Proof.
  unfold swapIf. destruct (a !! i), (a !! j); try reflexivity.
  destruct (gt _ _); [|reflexivity]. rewrite !length_insert. reflexivity.
Qed.

Lemma swapIf_Permutation i j (a : list A) : swapIf gt i j a ≡ₚ a.
Proof.
  unfold swapIf. destruct (a !! i) as [x|] eqn:Hi, (a !! j) as [y|] eqn:Hj; try reflexivity.
  destruct (gt x y); [|reflexivity]. apply Permutation_insert_swap; assumption.
Qed.

Lemma swapIf_step i j (a : list A) :
  (i < j)%nat -> settled le i a -> least le i j a ->
  settled le i (swapIf gt i j a) /\ least le i (S j) (swapIf gt i j a).
Proof.
  intros Hij Hset Hleast. unfold swapIf.
  destruct (a !! i) as [x|] eqn:Hi; cycle 1.
  { split; [exact Hset|]. intros k x y _ Hx. congruence. }
  destruct (a !! j) as [y|] eqn:Hj; cycle 1.
  { split; [exact Hset|]. intros k x' y' Hk Hx Hy.
    destruct (decide (k = j)) as [->|]; [congruence|].
    apply (Hleast k); [lia|assumption..]. }
  destruct (gt x y) eqn:Hgt.
  - pose proof (gt_true _ _ Hgt) as Hyx. split.
    + intros p q x' y' Hpq Hp Hx' Hy'.
      rewrite list_lookup_insert_ne, list_lookup_insert_ne in Hx' by lia.
      apply list_lookup_insert_Some in Hy' as [(<- & <- & _)|[Hqi Hy']].
      { apply (Hset p j); [lia|lia|assumption..]. }
      apply list_lookup_insert_Some in Hy' as [(<- & <- & _)|[Hqj Hy']].
      { apply (Hset p i); [lia|lia|assumption..]. }
      apply (Hset p q); assumption.
    + intros k x' y' Hk Hx' Hy'.
      apply list_lookup_insert_Some in Hx' as [(_ & <- & _)|[Hne _]]; [|congruence].
      rewrite list_lookup_insert_ne in Hy' by lia.
      apply list_lookup_insert_Some in Hy' as [(<- & <- & _)|[Hkj Hy']]; [exact Hyx|].
      transitivity x; [exact Hyx|]. apply (Hleast k); [lia|assumption..].
  - split; [exact Hset|]. intros k x' y' Hk Hx' Hy'.
    destruct (decide (k = j)) as [->|].
    + assert (x' = x) by congruence. assert (y' = y) by congruence. subst.
      apply gt_false, Hgt.
    + apply (Hleast k); [lia|assumption..].
Qed.

Lemma innerLoop_spec i (a : list A) :
  (i < length a)%nat -> settled le i a ->
  let a' := forRange (S i) (length a) (fun j a => swapIf gt i j a) a in
  length a' = length a /\ a' ≡ₚ a /\ settled le (S i) a'.
Proof.
  intros Hi Hset a'.
  assert (H : length a' = length a /\ a' ≡ₚ a /\ settled le i a' /\ least le i (length a) a').
  { subst a'.
    apply (forRange_inv
             (fun j b => length b = length a /\ b ≡ₚ a /\ settled le i b /\ least le i j b)).
    - intros j b Hj (Hlen & Hperm & Hs & Hl).
      assert (Hij : (i < j)%nat) by lia.
      destruct (swapIf_step i j b Hij Hs Hl) as [Hs' Hl'].
      split; [rewrite swapIf_length; exact Hlen|].
      split; [rewrite swapIf_Permutation; exact Hperm|]. split; assumption.
    - lia.
    - split; [reflexivity|]. split; [reflexivity|]. split; [exact Hset|].
      intros k x y Hk. lia. }
  destruct H as (Hlen & Hperm & Hs & Hl).
  split; [exact Hlen|]. split; [exact Hperm|].
  intros p q x y Hpq Hp Hx Hy.
  destruct (decide (p = i)) as [->|Hne].
  - apply (Hl q); [|assumption..]. split; [lia|].
    rewrite <- Hlen. apply lookup_lt_Some in Hy. exact Hy.
  - apply (Hs p q); [lia|lia|assumption..].
Qed.

Lemma settled_sorted (a : list A) : settled le (length a) a -> StronglySorted le a.
Proof.
  induction a as [|x a IH]; intros Hset; [constructor|].
  constructor.
  - apply IH. intros p q x' y' Hpq Hp Hx' Hy'.
    apply (Hset (S p) (S q)); [lia|simpl; lia|assumption..].
  - apply Forall_forall. intros y Hy.
    apply list_elem_of_lookup in Hy as [k Hk].
    apply (Hset 0%nat (S k)); [lia|simpl; lia|reflexivity|exact Hk].
Qed.

Lemma exchangeSort_sorts (a : list A) :
  StronglySorted le (exchangeSort gt a) /\ exchangeSort gt a ≡ₚ a.
Proof.
  assert (H : length (exchangeSort gt a) = length a /\ exchangeSort gt a ≡ₚ a
              /\ settled le (length a) (exchangeSort gt a)).
  { unfold exchangeSort.
    apply (forRange_inv (fun i b => length b = length a /\ b ≡ₚ a /\ settled le i b)).
    - intros i b Hi (Hlen & Hperm & Hs).
      destruct (innerLoop_spec i b) as (Hlen' & Hperm' & Hs'); [lia|exact Hs|].
      split; [congruence|]. split; [rewrite Hperm'; exact Hperm|exact Hs'].
    - lia.
    - split; [reflexivity|]. split; [reflexivity|]. intros p q x y _ Hp. lia. }
  destruct H as (Hlen & Hperm & Hs). split; [|exact Hperm].
  apply settled_sorted. rewrite Hlen. exact Hs.
Qed.

End ExchangeSort.

Lemma groupByPath_grouped (cs : list github.ReviewComment) : grouped cs (groupByPath cs).
Proof.
  unfold groupByPath.
  induction cs as [|c cs IH] using rev_ind.
  - simpl. split; [constructor|]. split; [|split].
    + intros p. simpl. rewrite lookup_empty. split; [intros H; inversion H|intros [? H]; discriminate].
    + intros p. simpl. rewrite lookup_empty. reflexivity.
    + intros p. simpl. rewrite lookup_empty. discriminate.
  - rewrite foldl_app. simpl.
    destruct (foldl _ _ cs) as [ps fs].
    destruct IH as (Hnd & Hin & Hfs & Hne). simpl in *.
    split; [|split; [|split]]; simpl.
    + destruct (fs !! github.Path c) eqn:Hc; [exact Hnd|].
      apply NoDup_app. split; [exact Hnd|]. split; [|apply NoDup_singleton].
      intros p Hp ->%list_elem_of_singleton.
      apply Hin in Hp as [? Hp]. congruence.
    + intros p. destruct (decide (p = github.Path c)) as [->|Hp].
      * rewrite lookup_insert_eq. split; [eauto|]. intros _.
        destruct (fs !! github.Path c) eqn:Hc.
        -- apply Hin. eauto.
        -- apply elem_of_app. right. left.
      * rewrite lookup_insert_ne by congruence. rewrite <- Hin.
        destruct (fs !! github.Path c); [reflexivity|].
        rewrite elem_of_app, list_elem_of_singleton. tauto.
    + intros p. rewrite filter_app. destruct (decide (p = github.Path c)) as [->|Hp].
      * rewrite lookup_insert_eq. simpl. rewrite Hfs.
        rewrite (filter_cons_True _ c []) by reflexivity. reflexivity.
      * rewrite lookup_insert_ne by congruence. rewrite Hfs.
        rewrite (filter_cons_False _ c []) by congruence.
        rewrite filter_nil, app_nil_r. reflexivity.
    + intros p. destruct (decide (p = github.Path c)) as [->|Hp].
      * rewrite lookup_insert_eq. intros [= H]. destruct (default [] _); discriminate.
      * rewrite lookup_insert_ne by congruence. apply Hne.
Qed.

Lemma pathGt_false (p q : string) : pathGt p q = false -> String.le p q.
Proof.
  unfold pathGt, String.le. intros H. apply negb_false_iff in H. rewrite H. exact I.
Qed.

Lemma pathGt_true (p q : string) : pathGt p q = true -> String.le q p.
Proof.
  unfold pathGt. intros H. apply negb_true_iff in H.
  destruct (String.le_total p q) as [Hpq|Hqp]; [|exact Hqp].
  unfold String.le in Hpq. rewrite H in Hpq. contradiction.
Qed.

Lemma byLine_trans : Transitive byLine.
Proof. intros c d e. unfold byLine. lia. Qed.

Lemma lineGt_false c d : lineGt c d = false -> byLine c d.
Proof. unfold lineGt, byLine. lia. Qed.

Lemma lineGt_true c d : lineGt c d = true -> byLine d c.
Proof. unfold lineGt, byLine. lia. Qed.

Lemma headerPaths_app (a b : list BrowseItem) :
  headerPaths (a ++ b) = (headerPaths a ++ headerPaths b)%list.
Proof. apply omap_app. Qed.

Lemma commentsUnder_app q (a b : list BrowseItem) :
  commentsUnder q (a ++ b) = (commentsUnder q a ++ commentsUnder q b)%list.
Proof. apply omap_app. Qed.

Lemma headerPaths_comments p (l : list github.ReviewComment) :
  headerPaths (flat_map (commentItems p) l) = [].
Proof. induction l as [|c l IH]; [reflexivity|]. simpl. exact IH. Qed.

Lemma commentsUnder_comments q p (l : list github.ReviewComment) :
  commentsUnder q (flat_map (commentItems p) l) = if String.eqb p q then l else [].
Proof.
  induction l as [|c l IH]; [destruct (String.eqb p q); reflexivity|].
  simpl. unfold commentsUnder in *. simpl. rewrite IH.
  destruct (String.eqb p q); reflexivity.
Qed.

Lemma length_comments p (l : list github.ReviewComment) :
  length (flat_map (commentItems p) l) = (2 * length l)%nat.
Proof. induction l as [|c l IH]; [reflexivity|]. simpl. rewrite IH. lia. Qed.

Lemma headerPaths_blocks files (ps : list string) :
  headerPaths (flat_map (fileBlock files) ps) = ps.
Proof.
  induction ps as [|p ps IH]; [reflexivity|].
  simpl. rewrite headerPaths_app, IH, headerPaths_comments. reflexivity.
Qed.

Lemma commentsUnder_blocks files q (ps : list string) :
  NoDup ps ->
  commentsUnder q (flat_map (fileBlock files) ps)
  = if decide (q ∈ ps) then exchangeSort lineGt (default [] (files !! q)) else [].
Proof.
  induction ps as [|p ps IH]; intros Hnd; [reflexivity|].
  apply NoDup_cons in Hnd as [Hp Hnd].
  simpl. change (commentsUnder q (fileHeader p :: ?l)) with (commentsUnder q l).
  rewrite commentsUnder_app, commentsUnder_comments, (IH Hnd).
  destruct (String.eqb_spec p q) as [->|Hpq].
  - destruct (decide (q ∈ ps)) as [Hq|_]; [contradiction|].
    rewrite decide_True by left. apply app_nil_r.
  - simpl. destruct (decide (q ∈ ps)) as [Hq|Hq].
    + rewrite decide_True by (right; exact Hq). reflexivity.
    + rewrite decide_False; [reflexivity|].
      intros [->|H]%elem_of_cons; [congruence|contradiction].
Qed.

Lemma filter_partition (ps : list string) : forall cs : list github.ReviewComment,
  NoDup ps -> (forall c, c ∈ cs -> github.Path c ∈ ps) ->
  flat_map (fun p => filter (fun c => github.Path c = p) cs) ps ≡ₚ cs.
Proof.
  induction ps as [|p ps IH]; intros cs Hnd Hall.
  - destruct cs as [|c cs]; [reflexivity|].
    exfalso. specialize (Hall c ltac:(left)). inversion Hall.
  - apply NoDup_cons in Hnd as [Hp Hnd]. simpl.
    transitivity (filter (fun c => github.Path c = p) cs
                  ++ filter (fun c => ¬ github.Path c = p) cs)%list;
      [|apply filter_app_complement].
    apply Permutation_app; [reflexivity|].
    rewrite <- (IH (filter (fun c => ¬ github.Path c = p) cs) Hnd).
    + clear IH Hnd Hall. induction ps as [|q ps IHps]; [reflexivity|].
      apply not_elem_of_cons in Hp as [Hpq Hp]. simpl.
      rewrite (IHps Hp). apply Permutation_app; [|reflexivity].
      rewrite list_filter_filter_l; [reflexivity|].
      intros c ->. congruence.
    + intros c [Hc Hin]%list_elem_of_filter.
      apply Hall in Hin. apply elem_of_cons in Hin as [H|H]; [contradiction|exact H].
Qed.

Lemma tree_app (a b : list BrowseItem) : tree a -> tree b -> tree (a ++ b)%list.
Proof.
  intros Ha Hb. induction Ha as [|p rest _ IH|p c rest _ IH]; [exact Hb| |].
  - simpl. constructor. exact IH.
  - rewrite <- app_assoc. constructor. exact IH.
Qed.

Lemma tree_comments p (l : list github.ReviewComment) : tree (flat_map (commentItems p) l).
Proof. induction l as [|c l IH]; [constructor|]. simpl. apply (tree_comment p c), IH. Qed.

Lemma tree_blocks files (ps : list string) : tree (flat_map (fileBlock files) ps).
Proof.
  induction ps as [|p ps IH]; [constructor|]. simpl.
  constructor. apply tree_app; [apply tree_comments|exact IH].
Qed.

Lemma length_blocks files (ps : list string) :
  length (flat_map (fileBlock files) ps)
  = (length ps + 2 * length (flat_map (fun p => default [] (files !! p)) ps))%nat.
Proof.
  induction ps as [|p ps IH]; [reflexivity|].
  simpl. rewrite !List.length_app, IH, length_comments.
  rewrite (Permutation_length
             (proj2 (@exchangeSort_sorts _ byLine lineGt byLine_trans lineGt_false lineGt_true _))).
  lia.
Qed.

Lemma buildCommentTree_blocks (comments : list github.ReviewComment) :
  exists ps fs,
    buildCommentTree comments = flat_map (fileBlock fs) ps
    /\ StronglySorted String.le ps /\ NoDup ps
    /\ (forall p, p ∈ ps <-> exists c, c ∈ comments /\ github.Path c = p)
    /\ (forall p, default [] (fs !! p) = filter (fun c => github.Path c = p) comments).
Proof.
  unfold buildCommentTree.
  pose proof (groupByPath_grouped comments) as Hg.
  destruct (groupByPath comments) as [ps fs].
  destruct Hg as (Hnd & Hin & Hfs & Hne). simpl in *.
  destruct (exchangeSort_sorts String.le pathGt pathGt_false pathGt_true ps)
    as [Hsorted Hperm].
  exists (exchangeSort pathGt ps), fs.
  split; [reflexivity|]. split; [exact Hsorted|].
  split; [rewrite Hperm; exact Hnd|]. split; [|exact Hfs].
  intros p. rewrite Hperm, Hin. split.
  - intros [l Hl]. specialize (Hfs p). rewrite Hl in Hfs. simpl in Hfs.
    destruct l as [|c l]; [elim (Hne p Hl)|].
    assert (Hc : c ∈ filter (fun c => github.Path c = p) comments)
      by (rewrite <- Hfs; left).
    apply list_elem_of_filter in Hc. exists c. tauto.
  - intros (c & Hc & Hp). specialize (Hfs p).
    destruct (fs !! p) as [l|]; [eauto|]. simpl in Hfs. exfalso.
    assert (H : c ∈ filter (fun c => github.Path c = p) comments)
      by (apply list_elem_of_filter; tauto).
    rewrite <- Hfs in H. inversion H.
Qed.

Lemma exchangeSort_nil {A} (gt : A -> A -> bool) : exchangeSort gt [] = [].
Proof. reflexivity. Qed.

(** Under each path the tree lists the comments of that path, sorted by
    the two loops. *)
Lemma commentsUnder_tree (comments : list github.ReviewComment) (p : string) :
  commentsUnder p (buildCommentTree comments)
  = exchangeSort lineGt (filter (fun c => github.Path c = p) comments).
Proof.
  destruct (buildCommentTree_blocks comments) as (ps & fs & -> & _ & Hnd & Hpaths & Hfs).
  rewrite (commentsUnder_blocks _ _ _ Hnd), Hfs.
  destruct (decide (p ∈ ps)) as [Hin|Hout]; [reflexivity|].
  destruct (filter (fun c => github.Path c = p) comments) as [|c l] eqn:Hf;
    [reflexivity|].
  exfalso. apply Hout, Hpaths.
  assert (Hc : c ∈ filter (fun c => github.Path c = p) comments) by (rewrite Hf; left).
  apply list_elem_of_filter in Hc. exists c. tauto.
Qed.

(** [buildCommentTree] lists every file once, the paths in ascending
    byte order; under each path the comments of that path, each exactly
    once and in the order of their lines; every comment is directly
    followed by its preview line; the tree has one item for each file
    and two for each comment. *)
Theorem buildCommentTree_sorted (comments : list github.ReviewComment) :
  let items := buildCommentTree comments in
  tree items
  /\ StronglySorted String.le (headerPaths items)
  /\ NoDup (headerPaths items)
  /\ (forall p, p ∈ headerPaths items <-> exists c, c ∈ comments /\ github.Path c = p)
  /\ (forall p, StronglySorted byLine (commentsUnder p items)
                /\ commentsUnder p items ≡ₚ filter (fun c => github.Path c = p) comments)
  /\ length items = (length (headerPaths items) + 2 * length comments)%nat.
Proof.
  intros items. subst items.
  split; [|split; [|split; [|split; [|split]]]].
  6: { destruct (buildCommentTree_blocks comments) as (ps & fs & -> & _ & Hnd & Hpaths & Hfs).
       rewrite headerPaths_blocks, length_blocks.
       rewrite (flat_map_ext _ (fun p => filter (fun c => github.Path c = p) comments))
         by (intros p; apply Hfs).
       rewrite (Permutation_length
                  (filter_partition ps comments Hnd
                     (fun c Hc => proj2 (Hpaths _) (ex_intro _ c (conj Hc eq_refl))))).
       reflexivity. }
  5: { intros p. rewrite commentsUnder_tree.
       apply (@exchangeSort_sorts _ byLine lineGt byLine_trans lineGt_false lineGt_true). }
  all: destruct (buildCommentTree_blocks comments) as (ps & fs & -> & Hs & Hnd & Hpaths & _).
  - apply tree_blocks.
  - rewrite headerPaths_blocks. exact Hs.
  - rewrite headerPaths_blocks. exact Hnd.
  - rewrite headerPaths_blocks. exact Hpaths.
Qed.

(** The two loops are no stable sort: of two comments on the same line,
    the first is moved behind the second as soon as a later comment of
    the file is on a smaller line. *)
Theorem buildCommentTree_not_stable (a b c : github.ReviewComment)
    (Hb : github.Path b = github.Path a)
    (Hc : github.Path c = github.Path a)
    (Hsame : github.Line a = github.Line b)
    (Hless : github.Line c < github.Line a) :
  commentsUnder (github.Path a) (buildCommentTree [a; b; c]) = [c; b; a].
Proof.
  rewrite commentsUnder_tree.
  rewrite (filter_cons_True _ a) by reflexivity.
  rewrite (filter_cons_True _ b) by exact Hb.
  rewrite (filter_cons_True _ c) by exact Hc.
  rewrite filter_nil.
  assert (Hab : lineGt a b = false) by (unfold lineGt; lia).
  assert (Hac : lineGt a c = true) by (unfold lineGt; lia).
  assert (Hba : lineGt b a = false) by (unfold lineGt; lia).
  unfold exchangeSort, forRange. simpl. unfold swapIf. simpl.
  rewrite Hab. simpl. rewrite Hac. simpl. rewrite Hba. reflexivity.
Qed.

Lemma ellipsize_bound (limit : nat) (s : string) :
  (3 <= limit)%nat -> (String.length (ellipsize limit s) <= limit)%nat.
Proof.
  intros Hlimit. unfold ellipsize, slen.
  destruct (Z.ltb_spec (Z.of_nat limit) (Z.of_nat (String.length s))) as [Hlong|Hshort].
  - rewrite length_app, length_substring by lia. simpl. lia.
  - lia.
Qed.

Lemma picked_spec (item : BrowseItem) (comment : github.ReviewComment) (idx : Z) :
  len (github.ThreadComments comment) < 2 ^ 63 ->
  - 2 ^ 63 <= idx < 2 ^ 63 ->
  picked (WithSelectedComment item idx) comment
  = if (0 <? idx) && (idx <=? len (github.ThreadComments comment))
    then match nth_error (github.ThreadComments comment) (Z.to_nat (idx - 1)) with
         | Some tc => Reply tc
         | None => OutOfRange
         end
    else Main.
Proof.
  intros Hlen Hidx. unfold picked. cbn [SelectedCommentIdx WithSelectedComment].
  destruct (Z.ltb_spec 0 idx) as [Hpos|Hneg]; [|reflexivity]. cbn [andb].
  unfold int_sub. rewrite wrap_int_small by lia.
  destruct (Z.ltb_spec (idx - 1) (len (github.ThreadComments comment))),
           (Z.leb_spec idx (len (github.ThreadComments comment))); try lia; [|reflexivity].
  destruct (nth_error _ _); [|reflexivity].
  destruct (Z.leb_spec 0 (idx - 1)); [reflexivity|lia].
Qed.

Section Callbacks.
Variable FormatDiffWithHeaders : string -> string -> string.
Variable StripSuggestionBlock : string -> string.
Variable stripMarkdownForPreview : string -> string.

Lemma thread_lookup (comment : github.ReviewComment) (idx : Z) :
  0 <= idx <= len (github.ThreadComments comment) ->
  nth_error (thread comment) (Z.to_nat idx)
  = if idx =? 0 then Some (github.ID comment, github.Author comment, github.Body comment)
    else option_map
           (fun tc => (github.reply_ID tc, github.reply_Author tc, github.reply_Body tc))
           (nth_error (github.ThreadComments comment) (Z.to_nat (idx - 1))).
Proof.
  intros Hidx. unfold thread.
  destruct (Z.eqb_spec idx 0) as [->|Hne]; [reflexivity|].
  replace (Z.to_nat idx) with (S (Z.to_nat (idx - 1))) by lia.
  cbn [nth_error]. apply nth_error_map.
Qed.

(** The comment the pick shows at [idx] is the comment the action gets. *)
Theorem picked_comment_is_acted_on (item : BrowseItem) (comment : github.ReviewComment)
    (idx : Z) (includeContext : bool)
    (Hcomment : Comment item = Some comment)
    (Htype : Type_ item <> "file")
    (Hlen : len (github.ThreadComments comment) < 2 ^ 63 - 1)
    (Hidx : 0 <= idx < ThreadCommentCount item) :
  exists id author body,
    nth_error (thread comment) (Z.to_nat idx) = Some (id, author, body)
    /\ ThreadCommentPreview stripMarkdownForPreview item idx
       = Some (previewOf stripMarkdownForPreview author body)
    /\ reactionAction (WithSelectedComment item idx) = Some (Ok id)
    /\ agentAction (WithSelectedComment item idx)
       = Some (Ok ("LAUNCH_AGENT:Review comment on " ++ github.Path comment ++ ":"
                     ++ itoa (github.Line comment) ++ nl ++ nl ++ body))
    /\ editorPrepare FormatDiffWithHeaders StripSuggestionBlock includeContext
         (WithSelectedComment item idx)
       = Some (Ok (FormatQuotedReply FormatDiffWithHeaders StripSuggestionBlock
                     author body (github.DiffHunk comment) (github.Path comment)
                     includeContext)).
Proof.
  apply String.eqb_neq in Htype.
  unfold ThreadCommentCount in Hidx. rewrite Htype, Hcomment in Hidx.
  pose proof (Zle_0_nat (length (github.ThreadComments comment))) as Hnonneg.
  fold (len (github.ThreadComments comment)) in Hnonneg.
  unfold int_add in Hidx. rewrite wrap_int_small in Hidx by lia.
  unfold reactionAction, agentAction, editorPrepare, ThreadCommentPreview.
  cbn [Type_ Comment WithSelectedComment]. rewrite Htype, Hcomment.
  rewrite picked_spec by lia. rewrite thread_lookup by lia.
  destruct (Z.eqb_spec idx 0) as [->|Hne].
  - eexists _, _, _. split; [reflexivity|]. cbn. repeat split; reflexivity.
  - destruct (Z.ltb_spec 0 idx); [|lia].
    destruct (Z.leb_spec idx (len (github.ThreadComments comment))); [|lia].
    cbn [andb]. unfold int_sub. rewrite wrap_int_small by lia.
    destruct (Z.ltb_spec (idx - 1) (len (github.ThreadComments comment))); [|lia].
    destruct (nth_error (github.ThreadComments comment) (Z.to_nat (idx - 1)))
      as [tc|] eqn:Htc.
    + destruct (Z.leb_spec 0 (idx - 1)); [|lia].
      eexists _, _, _. split; [reflexivity|]. repeat split; reflexivity.
    + apply nth_error_None in Htc. unfold len in *. lia.
Qed.

(** [ThreadCommentPreview] panics exactly on a negative index; what it
    returns otherwise is empty or an author and at most 100 bytes of
    text. *)
Theorem ThreadCommentPreview_bound (item : BrowseItem) (idx : Z)
    (Hidx : - 2 ^ 63 < idx < 2 ^ 63) :
  (ThreadCommentPreview stripMarkdownForPreview item idx = None
   <-> Comment item <> None /\ idx < 0)
  /\ (forall text, ThreadCommentPreview stripMarkdownForPreview item idx = Some text ->
        text = ""
        \/ exists author body,
             text = "@" ++ author ++ ": " ++ body /\ (String.length body <= 100)%nat).
Proof.
  unfold ThreadCommentPreview.
  destruct (Comment item) as [comment|]; cycle 1.
  { split; [split; [discriminate|intros [Hc _]; congruence]|].
    intros text [= <-]. left. reflexivity. }
  assert (Hshown : forall author body text,
             Some (previewOf stripMarkdownForPreview author body) = Some text ->
             text = ""
             \/ exists author body,
                  text = "@" ++ author ++ ": " ++ body /\ (String.length body <= 100)%nat).
  { intros author body text [= <-]. right. unfold previewOf.
    eexists _, _. split; [reflexivity|]. apply ellipsize_bound. lia. }
  pose proof (Zle_0_nat (length (github.ThreadComments comment))) as Hnonneg.
  fold (len (github.ThreadComments comment)) in Hnonneg.
  destruct (Z.eqb_spec idx 0) as [->|Hne].
  { split; [split; [discriminate|intros [_ Hn]; lia]|apply Hshown]. }
  unfold int_sub. rewrite wrap_int_small by lia.
  destruct (Z.ltb_spec (idx - 1) (len (github.ThreadComments comment))) as [Hin|Hout].
  - destruct (nth_error _ _) as [tc|] eqn:Htc.
    + destruct (Z.leb_spec 0 (idx - 1)).
      * split; [split; [discriminate|intros [_ Hn]; lia]|apply Hshown].
      * split; [split; [intros _; split; [discriminate|lia]|reflexivity]|discriminate].
    + apply nth_error_None in Htc. unfold len in *.
      split; [split; [intros _; split; [discriminate|lia]|reflexivity]|discriminate].
  - split; [split; [discriminate|intros [_ Hn]; lia]|apply Hshown].
Qed.

(** The preview line of [Title]: a long first line is cut to exactly 80
    bytes; a first line of at most 80 bytes is kept whole, followed by the
    three dots when the body has more lines, which makes up to 83
    bytes. *)
Theorem previewTitle_length (item : BrowseItem) (comment : github.ReviewComment)
    (Hcomment : Comment item = Some comment) :
  exists first rest text,
    SplitLines (StripSuggestionBlock (github.Body comment)) = first :: rest
    /\ previewTitle StripSuggestionBlock item = Some text
    /\ (80 < String.length first -> String.length text = 80)%nat
    /\ (String.length first <= 80 ->
        text = if rest is [] then first else first ++ "...")%nat
    /\ (String.length text <= 83)%nat.
Proof.
  unfold previewTitle. rewrite Hcomment.
  pose proof (SplitLines_nonempty (StripSuggestionBlock (github.Body comment))) as Hne.
  destruct (SplitLines _) as [|first rest]; [contradiction|].
  exists first, rest. unfold slen, len.
  destruct (Z.ltb_spec 80 (Z.of_nat (String.length first))) as [Hlong|Hshort].
  - eexists. split; [reflexivity|]. split; [reflexivity|].
    assert (Hcut : String.length (String.substring 0 77 first ++ "...") = 80%nat)
      by (rewrite length_app, length_substring by lia; reflexivity).
    split; [intros _; exact Hcut|]. split; [lia|]. rewrite Hcut. lia.
  - destruct rest as [|second rest].
    + eexists. split; [reflexivity|]. split; [reflexivity|].
      split; [lia|]. split; [reflexivity|]. lia.
    + destruct (Z.ltb_spec 1 (Z.of_nat (length (first :: second :: rest))));
        [|simpl in *; lia].
      eexists. split; [reflexivity|]. split; [reflexivity|].
      split; [lia|]. split; [reflexivity|]. rewrite length_app. simpl. lia.
Qed.

End Callbacks.


Section FilterFacts.
Variable collapsedFiles : gmap string bool.
Variable IsResolved : option github.ReviewComment -> bool.
Variable hideResolved : bool.

Lemma filter_commentItems (path : string) (c : github.ReviewComment)
    (rest : list BrowseItem) :
  visible collapsedFiles IsResolved hideResolved (commentItems path c ++ rest)%list
  = if negb (default false (collapsedFiles !! path))
       && negb (hideResolved && IsResolved (Some c))
    then (commentItems path c ++ visible collapsedFiles IsResolved hideResolved rest)%list
    else visible collapsedFiles IsResolved hideResolved rest.
Proof.
  unfold visible, filterFunc. cbn.
  destruct (default false (collapsedFiles !! path)); [reflexivity|].
  destruct hideResolved; [|reflexivity].
  destruct (IsResolved (Some c)); reflexivity.
Qed.

Lemma filter_fileHeader (path : string) (rest : list BrowseItem) :
  visible collapsedFiles IsResolved hideResolved (fileHeader path :: rest) = fileHeader path :: visible collapsedFiles IsResolved hideResolved rest.
Proof. unfold visible, filterFunc. cbn. destruct hideResolved; reflexivity. Qed.

Lemma tree_filter (items : list BrowseItem) : tree items -> tree (visible collapsedFiles IsResolved hideResolved items).
Proof.
  intros Htree. induction Htree as [|path rest _ IH|path c rest _ IH]; [constructor| |].
  - rewrite filter_fileHeader. constructor. exact IH.
  - rewrite filter_commentItems. destruct (_ && _); [constructor|]; exact IH.
Qed.

Lemma headerPaths_filter (items : list BrowseItem) :
  tree items -> headerPaths (visible collapsedFiles IsResolved hideResolved items) = headerPaths items.
Proof.
  intros Htree. induction Htree as [|path rest _ IH|path c rest _ IH]; [reflexivity| |].
  - rewrite filter_fileHeader. unfold headerPaths in *. cbn. rewrite IH. reflexivity.
  - rewrite filter_commentItems. rewrite (headerPaths_app (commentItems path c)).
    destruct (_ && _); [rewrite headerPaths_app|]; exact IH.
Qed.

Lemma commentsUnder_filter (path : string) (items : list BrowseItem) :
  tree items ->
  commentsUnder path (visible collapsedFiles IsResolved hideResolved items)
  = if default false (collapsedFiles !! path) then []
    else List.filter (fun c => negb (hideResolved && IsResolved (Some c)))
                     (commentsUnder path items).
Proof.
  intros Htree. induction Htree as [|p rest _ IH|p c rest _ IH].
  - destruct (default false _); reflexivity.
  - rewrite filter_fileHeader.
    change (commentsUnder path (fileHeader p :: ?l)) with (commentsUnder path l). exact IH.
  - rewrite filter_commentItems, (commentsUnder_app path (commentItems p c)).
    assert (Hpair : commentsUnder path (commentItems p c)
                    = if String.eqb p path then [c] else []).
    { unfold commentsUnder. cbn. destruct (String.eqb p path); reflexivity. }
    rewrite Hpair.
    destruct (String.eqb_spec p path) as [->|Hp].
    + destruct (default false (collapsedFiles !! path)); [exact IH|].
      cbn [negb andb app List.filter].
      destruct (negb (hideResolved && IsResolved (Some c))); [|exact IH].
      rewrite commentsUnder_app, Hpair, IH. reflexivity.
    + cbn [app]. destruct (_ && _); [|exact IH].
      rewrite commentsUnder_app, Hpair. exact IH.
Qed.

(** What the list shows of a tree: every file header, and under each
    path that is not collapsed the comments that pass, each still
    followed by its preview line. *)
Theorem visible_tree (comments : list github.ReviewComment) :
  let items := buildCommentTree comments in
  let visible := visible collapsedFiles IsResolved hideResolved items in
  tree visible
  /\ headerPaths visible = headerPaths items
  /\ forall path,
       commentsUnder path visible
       = if default false (collapsedFiles !! path) then []
         else List.filter (fun c => negb (hideResolved && IsResolved (Some c)))
                          (commentsUnder path items).
Proof.
  intros items visible. subst visible items.
  assert (Htree : tree (buildCommentTree comments)).
  { destruct (buildCommentTree_blocks comments) as (ps & fs & -> & _). apply tree_blocks. }
  split; [apply tree_filter, Htree|]. split; [apply headerPaths_filter, Htree|].
  intros path. apply commentsUnder_filter, Htree.
Qed.

End FilterFacts.

End BrowseFacts.

(** ** The selector on the items of the browse command *)

Section BrowseSession.
Context {TK : Toolkit Browse.BrowseItem}.

Lemma reactionAction_picked (item : Browse.BrowseItem) (comment : github.ReviewComment)
    (idx : Z) :
  Browse.Comment item = Some comment ->
  Browse.Type_ item <> "file" ->
  len (github.ThreadComments comment) < 2 ^ 63 - 1 ->
  0 <= idx < Browse.ThreadCommentCount item ->
  exists id author body,
    nth_error (Browse.thread comment) (Z.to_nat idx) = Some (id, author, body)
    /\ Browse.reactionAction (Browse.WithSelectedComment item idx) = Some (Ok id).
Proof.
  intros Hcomment Htype Hlen Hidx.
  apply String.eqb_neq in Htype.
  unfold Browse.ThreadCommentCount in Hidx. rewrite Htype, Hcomment in Hidx.
  pose proof (Zle_0_nat (length (github.ThreadComments comment))) as Hnonneg.
  fold (len (github.ThreadComments comment)) in Hnonneg.
  unfold int_add in Hidx. rewrite wrap_int_small in Hidx by lia.
  unfold Browse.reactionAction.
  cbn [Browse.Type_ Browse.Comment Browse.WithSelectedComment].
  rewrite Htype, Hcomment, picked_spec, thread_lookup by lia.
  destruct (Z.eqb_spec idx 0) as [->|Hne].
  - eexists _, _, _. split; reflexivity.
  - destruct (Z.ltb_spec 0 idx); [|lia].
    destruct (Z.leb_spec idx (len (github.ThreadComments comment))); [|lia].
    cbn [andb].
    destruct (nth_error (github.ThreadComments comment) (Z.to_nat (idx - 1)))
      as [tc|] eqn:Htc.
    + eexists _, _, _. split; reflexivity.
    + apply nth_error_None in Htc. unfold len in *. lia.
Qed.

(** The selector and the callbacks of the browse command together: with
    the pick for a reaction on comment [idx] of a thread, Enter opens the
    reaction picker for the id of that very comment, the main comment
    for 0 and reply [idx] after it. *)
Theorem reaction_goes_to_picked_comment o (item : Browse.BrowseItem)
    (comment : github.ReviewComment) idx detail m w f
    (Hpick : picking o "x" item idx detail m)
    (Hstamp : WithSelectedComment (Renderer o) = Browse.WithSelectedComment)
    (Haction : ReactionAction o = Some f)
    (Hf : forall it r, Browse.reactionAction it = Some r -> f it = r)
    (Hcomment : Browse.Comment item = Some comment)
    (Htype : Browse.Type_ item <> "file")
    (Hlen : len (github.ThreadComments comment) < 2 ^ 63 - 1)
    (Hidx : 0 <= idx < Browse.ThreadCommentCount item) :
  exists m' w' c id author body,
    Update m w (KeyMsg "enter") = Return m' w' c
    /\ nth_error (Browse.thread comment) (Z.to_nat idx) = Some (id, author, body)
    /\ mode_of m' = ReactionPick
    /\ reactionCommentID m' = id
    /\ reactionIdx m' = 0.
Proof.
  destruct (reactionAction_picked item comment idx Hcomment Htype Hlen Hidx)
    as (id & author & body & Hnth & Hreact).
  assert (Hid : f (WithSelectedComment (Renderer o) item idx) = Ok id).
  { rewrite Hstamp. apply Hf, Hreact. }
  destruct (enter_runs_reaction_action o item idx detail m w f id Hpick Haction Hid)
    as (m' & w' & c & Hupd & Hmode & Hrid & Hridx & _).
  exists m', w', c, id, author, body.
  split; [exact Hupd|]. split; [exact Hnth|]. split; [exact Hmode|].
  split; [exact Hrid|exact Hridx].
Qed.

(** [Select] never returns an item, so the interactive branch of
    [runBrowse] always returns right after it, with nil or with the
    error of the driver: it reaches neither the message about a selected
    file header nor [openCommentInBrowser]. *)
Theorem interactive_browse_opens_nothing (o : SelectorOptions Browse.BrowseItem) w
    (driver : option string) (msgs : list (Msg Browse.BrowseItem))
    (r : SelectResult)
    (Hreturns : Select o w driver msgs = Some r) :
  Browse.afterSelect r = Browse.ReturnNil
  \/ exists e, Browse.afterSelect r = Browse.ReturnError ("selection cancelled: " ++ e).
Proof.
  unfold Select in Hreturns. destruct driver as [e|].
  - injection Hreturns as <-. right. exists e. reflexivity.
  - pose proof (Run_result_empty msgs (initialModel o) w (initialModel_result o)) as Hrun.
    destruct (Run (initialModel o) w msgs) as [final w'|e|]; [| |discriminate].
    + rewrite Hrun in Hreturns. injection Hreturns as <-. left. reflexivity.
    + injection Hreturns as <-. right. exists e. reflexivity.
Qed.

End BrowseSession.


(** The picker on eyes (entry 7) wraps to +1 (entry 0). *)
Lemma reaction_cycle_mod_8_witness :
  mode_of Demo.pickingLast = ReactionPick
  /\ 0 <= reactionIdx Demo.pickingLast < 8
  /\ exists m',
       Update Demo.pickingLast Demo.world0 (KeyMsg "x")
         = Return m' Demo.world0
             (CmdStatus "React: [1/8] +1 (x=next, Enter=add, Esc=cancel)")
       /\ reactionIdx m' = 0.
Proof.
  assert (Hmode : mode_of Demo.pickingLast = ReactionPick) by reflexivity.
  assert (Hidx : 0 <= reactionIdx Demo.pickingLast < 8) by (simpl; lia).
  split; [exact Hmode|]. split; [exact Hidx|].
  destruct (reaction_cycle_mod_8 Demo.pickingLast Demo.world0 Hmode Hidx)
    as (_ & _ & m' & e & Hupd & Hi & He & _).
  exists m'. split; [|exact Hi].
  rewrite Hupd. rewrite Hi in *. vm_compute in He. injection He as <-. reflexivity.
Defined.

(** A reply followed by the template's comment line: the completer is
    given the reply alone. *)
Lemma editor_content_is_sanitized_witness :
  exists m' w',
    Update (Demo.quoteSession (Demo.options [Demo.single] Demo.failing Demo.echo))
           (Demo.edited (JoinLines ["body"; "# instructions"; ""]))
           (editorFinishedMsg None)
      = Return m' w' (CmdStatus "body")
    /\ List.length (trace w') = 1%nat
    /\ files w' !! Demo.tmpPath = None.
Proof.
  destruct (editor_content_is_sanitized
              (Demo.quoteSession (Demo.options [Demo.single] Demo.failing Demo.echo))
              (Demo.edited (JoinLines ["body"; "# instructions"; ""]))
              (JoinLines ["body"; "# instructions"; ""]))
    as ((m' & w' & c & Hupd & _ & Hfile & _ & Hfull) & _).
  - discriminate.
  - reflexivity.
  - destruct (Hfull ltac:(discriminate) CbQuoteComplete Demo.echo eq_refl) as [Htrace Hc].
    vm_compute in Hc. subst c.
    exists m', w'. split; [exact Hupd|]. split; [rewrite Htrace; reflexivity|exact Hfile].
Defined.





(** C3. The editor of a pending quote session exits with an error: the
    temporary file, with the draft in it, is still there after the event
    and the session still points to it. *)
Theorem editor_error_leaves_temp_file :
  exists m' w',
    Update (Demo.quoteSession (Demo.options [Demo.single] Demo.failing Demo.posted))
           (Demo.edited "draft") (editorFinishedMsg (Some "exit status 1"))
      = Return m' w' (CmdStatus "Editor error: exit status 1")
    /\ files w' !! Demo.tmpPath = Some "draft"
    /\ pendingEditorTmpFile m' = Demo.tmpPath.
Proof.
  eexists _, _. rewrite handleEditorFinished_error.
  split; [reflexivity|]. split; reflexivity.
Qed.

(** Quitting with q gives [ErrNoSelection]. *)
Lemma Select_returns_no_item_witness :
  Select (Demo.bare [Demo.single]) Demo.world0 None [KeyMsg "q"] = Some ErrNoSelection
  /\ forall item : Demo.Comment, ErrNoSelection <> Selected item.
Proof.
  assert (H : Select (Demo.bare [Demo.single]) Demo.world0 None [KeyMsg "q"]
              = Some ErrNoSelection) by reflexivity.
  split; [exact H|].
  exact (proj2 (Select_returns_no_item _ _ _ _ _ H)).
Defined.

(** C1 as stated fails twice. A driver that cannot start makes [Select]
    return its error, which is neither an item nor [ErrNoSelection]; and
    no stream of messages makes [Select] return an item: Enter on the
    selected comment opens the detail view and the run goes on. *)
Lemma Select_item_or_no_selection_fails :
  Select (Demo.bare [Demo.single]) Demo.world0 (Some "could not open a new TTY") []
    = Some (RunError "could not open a new TTY")
  /\ Select (Demo.bare [Demo.single]) Demo.world0 None [KeyMsg "enter"] = None
  /\ Select (Demo.bare [Demo.single]) Demo.world0 None [KeyMsg "enter"; KeyMsg "q"; KeyMsg "q"]
     = Some ErrNoSelection
  /\ ~ exists msgs item,
         Select (Demo.bare [Demo.single]) Demo.world0 None msgs = Some (Selected item).
Proof.
  split; [reflexivity|]. split; [reflexivity|]. split; [reflexivity|].
  intros (msgs & item & H).
  assert (Hrun := Run_result_empty msgs (initialModel (Demo.bare [Demo.single]))
                    Demo.world0 (initialModel_result _)).
  unfold Select in H.
  destruct (Run (initialModel (Demo.bare [Demo.single])) Demo.world0 msgs);
    [rewrite Hrun in H| |]; discriminate.
Qed.

(** The discussion of three comments, quoted from the list view: Enter
    after three presses of Q quotes the third comment, Enter after four
    the first. *)
Lemma thread_pick_three_comments_witness :
  (exists m3 w3,
     pressKeys (Demo.start (Demo.options [Demo.discussion] Demo.resolved Demo.posted))
               Demo.world0 ["Q"; "Q"; "Q"; "enter"]
       = Return m3 w3 (CmdExecEditor ["vim"; Demo.tmpPath])
     /\ Demo.selected (pendingEditorItem m3) = 2
     /\ files w3 !! Demo.tmpPath = Some "> fair enough")
  /\ (exists m4 w4,
        pressKeys (Demo.start (Demo.options [Demo.discussion] Demo.resolved Demo.posted))
                  Demo.world0 ["Q"; "Q"; "Q"; "Q"; "enter"]
          = Return m4 w4 (CmdExecEditor ["vim"; Demo.tmpPath])
        /\ Demo.selected (pendingEditorItem m4) = 0
        /\ files w4 !! Demo.tmpPath = Some "> why a map?").
Proof.
  destruct (thread_pick_three_comments
              (Demo.start (Demo.options [Demo.discussion] Demo.resolved Demo.posted))
              Demo.world0 Demo.discussion Demo.quote
              (fun idx => if idx =? 2 then "> fair enough"
                          else if idx =? 1 then "> for the lookups"
                          else "> why a map?"))
    as (_ & _ & _ & _ & _ & _
        & (m3 & w3 & p3 & H3 & I3 & _ & _ & F3 & _)
        & (m4 & w4 & p4 & H4 & I4 & _ & _ & F4 & _)).
  - left. reflexivity.
  - reflexivity.
  - reflexivity.
  - reflexivity.
  - reflexivity.
  - intros idx Hidx.
    assert (Hcase : idx = 0 \/ idx = 1 \/ idx = 2) by lia.
    destruct Hcase as [->|[->| ->]]; reflexivity.
  - reflexivity.
  - reflexivity.
  - split.
    + exists m3, w3.
      assert (Hp : p3 = Demo.tmpPath).
      { vm_compute in H3. injection H3 as _ _ Hp. symmetry. exact Hp. }
      subst p3. split; [exact H3|]. split; [rewrite I3; reflexivity|exact F3].
    + exists m4, w4.
      assert (Hp : p4 = Demo.tmpPath).
      { vm_compute in H4. injection H4 as _ _ Hp. symmetry. exact Hp. }
      subst p4. split; [exact H4|]. split; [rewrite I4; reflexivity|exact F4].
Defined.

(** C9 as stated fails: after the three presses of Q the pick is on
    [3/3], and Enter then quotes the third comment of the thread, index
    2, not index 0. *)
Lemma thread_pick_enter_after_three_presses :
  exists m' w',
    pressKeys (Demo.start (Demo.options [Demo.discussion] Demo.resolved Demo.posted))
              Demo.world0 ["Q"; "Q"; "Q"; "enter"]
    = Return m' w' (CmdExecEditor ["vim"; Demo.tmpPath])
    /\ Demo.selected (pendingEditorItem m') = 2
    /\ files w' !! Demo.tmpPath = Some "> fair enough".
Proof.
  eexists. eexists. split; [vm_compute; reflexivity|].
  split; reflexivity.
Qed.

(** C4 as stated fails: the key is dispatched in the same turn. With the
    thread pick open for Q in the list view, one press of C closes it and
    opens the pick of the other action at once, and one press of q ends
    the run. *)
Lemma thread_pick_other_key_acts_at_once :
  mode_of Demo.pickingQuote = ThreadPick
  /\ commentSelectAction Demo.pickingQuote = "Q"
  /\ (exists m',
        Update Demo.pickingQuote Demo.world0 (KeyMsg "C")
          = Return m' Demo.world0
              (CmdStatus "[1/3] why a map? (C=next, Enter=select, Esc=cancel)")
        /\ mode_of m' = ThreadPick
        /\ commentSelectAction m' = "C")
  /\ (exists m',
        Update Demo.pickingQuote Demo.world0 (KeyMsg "q") = Return m' Demo.world0 CmdQuit
        /\ mode_of m' = Normal).
Proof.
  split; [vm_compute; reflexivity|]. split; [vm_compute; reflexivity|]. split.
  - exists (match Update Demo.pickingQuote Demo.world0 (KeyMsg "C") with
            | Return m' _ _ => m'
            | Panic _ => Demo.pickingQuote
            end).
    split; [vm_compute; reflexivity|]. split; vm_compute; reflexivity.
  - exists (match Update Demo.pickingQuote Demo.world0 (KeyMsg "q") with
            | Return m' _ _ => m'
            | Panic _ => Demo.pickingQuote
            end).
    split; vm_compute; reflexivity.
Qed.

(** With the pick open for Q, the key C is handled as the list view
    handles it. *)
Lemma thread_pick_other_key_is_dispatched_witness :
  Update Demo.pickingQuote Demo.world0 (KeyMsg "C")
  = Update (exitCommentSelectMode Demo.pickingQuote) Demo.world0 (KeyMsg "C")
  /\ mode_of (exitCommentSelectMode Demo.pickingQuote) = Normal.
Proof.
  destruct (thread_pick_other_key_is_dispatched Demo.pickingQuote Demo.world0 "C")
    as (_ & H & Hmode).
  - reflexivity.
  - discriminate.
  - discriminate.
  - discriminate.
  - split; [exact H|exact Hmode].
Defined.

(** Three presses of Q on the discussion of three comments come back to
    its first comment. *)
Lemma thread_pick_cycle_visits_all_witness :
  exists m' c,
    pressKeys Demo.pickingQuote Demo.world0 ["Q"; "Q"; "Q"] = Return m' Demo.world0 c
    /\ commentSelectIdx m' = 0.
Proof.
  assert (Hpick : picking (Demo.options [Demo.discussion] Demo.resolved Demo.posted)
                    "Q" Demo.discussion 0 false Demo.pickingQuote).
  { unfold picking. repeat apply conj; vm_compute; reflexivity. }
  destruct (thread_pick_cycle_visits_all _ _ _ _ Demo.world0 3%nat 0 Demo.pickingQuote
              Hpick eq_refl)
    as (m' & c & Hrun & P).
  - change (0 <= 0 < 3). lia.
  - change (3 < 2 ^ 63). lia.
  - exists m', c. split; [exact Hrun|].
    destruct P as (_ & _ & _ & _ & _ & _ & _ & Hidx & _). exact Hidx.
Defined.

(** Eight presses of x come back to the entry the picker was on. *)
Lemma reaction_cycle_visits_all_witness :
  exists m' c,
    pressKeys Demo.reacting Demo.world0 (repeat "x" 8) = Return m' Demo.world0 c
    /\ reactionIdx m' = 2 /\ reactionCommentID m' = 7.
Proof.
  destruct (reaction_cycle_visits_all Demo.world0 8%nat Demo.reacting)
    as (m' & c & Hrun & _ & Hidx & Hid).
  - reflexivity.
  - change (0 <= 2 < 8). lia.
  - exists m', c. split; [exact Hrun|]. split; [exact Hidx|exact Hid].
Defined.

(** Enter on laugh adds that reaction to comment 7 and confirms it. *)
Lemma reaction_enter_completes_witness :
  exists m' w' c,
    Update Demo.reacting Demo.world0 (KeyMsg "enter") = Return m' w' c
    /\ reactionMode m' = false
    /\ confirmationMessage m' = pressAnyKey "Added reaction laugh".
Proof.
  destruct (reaction_enter_completes Demo.reacting Demo.world0
              {| name := "laugh"; display := "laugh" |}
              (fun _ e => Ok ("Added reaction " ++ e)))
    as (m' & w' & c & Hupd & Hoff & _ & Hok).
  - reflexivity.
  - reflexivity.
  - reflexivity.
  - exists m', w', c. split; [exact Hupd|]. split; [exact Hoff|]. apply Hok.
Defined.

(** Esc closes the pick opened over the list. *)
Lemma thread_pick_esc_cancels_witness :
  exists m',
    Update Demo.pickingQuote Demo.world0 (KeyMsg "esc")
      = Return m' Demo.world0 (CmdStatus "Selection cancelled")
    /\ mode_of m' = Normal.
Proof.
  destruct (thread_pick_esc_cancels Demo.pickingQuote Demo.world0)
    as (m' & Hupd & Hmode & _).
  - vm_compute. reflexivity.
  - exists m'. split; [exact Hupd|exact Hmode].
Defined.

(** ctrl+c over the help overlay does not end the run. *)
Lemma overlay_keys_never_quit_witness :
  mode_of Demo.helping = HelpOverlay
  /\ match Update Demo.helping Demo.world0 (KeyMsg "ctrl+c") with
     | Return m' _ c => quits c = false /\ result m' = result Demo.helping
     | Panic _ => True
     end.
Proof.
  split; [reflexivity|].
  apply (overlay_keys_never_quit Demo.helping Demo.world0 "ctrl+c").
  left. reflexivity.
Defined.

(** q in the detail view goes on, q in the list view quits. *)
Lemma q_quits_from_list_view_only_witness :
  (exists m' w' c,
     Update (Demo.detailOf (Demo.bare [Demo.single])) Demo.world0 (KeyMsg "q")
       = Return m' w' c
     /\ quits c = false)
  /\ (exists m' w' c,
        Update (Demo.start (Demo.bare [Demo.single])) Demo.world0 (KeyMsg "q")
          = Return m' w' c
        /\ quits c = true).
Proof.
  split.
  - destruct (q_quits_from_list_view_only (Demo.detailOf (Demo.bare [Demo.single]))
                Demo.world0 eq_refl) as (m' & w' & c & Hupd & Hiff).
    exists m', w', c. split; [exact Hupd|].
    destruct (quits c); [|reflexivity].
    destruct (proj1 Hiff eq_refl) as [H|[H _]]; discriminate H.
  - destruct (q_quits_from_list_view_only (Demo.start (Demo.bare [Demo.single]))
                Demo.world0 eq_refl) as (m' & w' & c & Hupd & Hiff).
    exists m', w', c. split; [exact Hupd|]. apply Hiff. left. reflexivity.
Defined.

(** With no callback set, r does nothing in the list view. *)
Lemma unset_callback_disables_key_witness :
  Update (Demo.start (Demo.bare [Demo.single])) Demo.world0 (KeyMsg "r")
  = Return (Demo.start (Demo.bare [Demo.single])) Demo.world0 CmdNil.
Proof.
  apply unset_callback_disables_key.
  - left. reflexivity.
  - reflexivity.
  - reflexivity.
  - reflexivity.
Defined.

(** backspace leaves the detail view. *)
Lemma detail_back_keys_witness :
  Update (Demo.detailOf (Demo.bare [Demo.single])) Demo.world0 (KeyMsg "backspace")
  = Return (set_showDetail false (Demo.detailOf (Demo.bare [Demo.single])))
           Demo.world0 CmdNil.
Proof.
  apply (detail_back_keys (Demo.detailOf (Demo.bare [Demo.single])) Demo.world0
           "backspace"); reflexivity.
Defined.

(** Without [OnSelect], Enter opens the detail view. *)
Lemma enter_opens_detail_witness :
  exists m' w' c,
    Update (Demo.start (Demo.bare [Demo.single])) Demo.world0 (KeyMsg "enter")
      = Return m' w' c
    /\ mode_of m' = Detail.
Proof.
  destruct (enter_opens_detail (Demo.start (Demo.bare [Demo.single])) Demo.world0
              "enter" Demo.single)
    as (m' & w' & c & Hupd & Hiff & _).
  - reflexivity.
  - reflexivity.
  - reflexivity.
  - reflexivity.
  - exists m', w', c. split; [exact Hupd|]. apply Hiff. reflexivity.
Defined.

(** Two presses of h over a filtered list. *)
Lemma filter_toggle_twice_witness :
  exists m1 m2 c1 c2,
    Update (Demo.start (Demo.browsing [Demo.single; Demo.discussion])) Demo.world0
           (KeyMsg "h") = Return m1 Demo.world0 c1
    /\ Update m1 Demo.world0 (KeyMsg "h") = Return m2 Demo.world0 c2
    /\ filterActive m1 = true
    /\ filterActive m2 = false
    /\ items m2 = [Demo.single; Demo.discussion].
Proof.
  destruct (filter_toggle_twice
              (Demo.start (Demo.browsing [Demo.single; Demo.discussion])) Demo.world0
              Demo.hideThreads)
    as (m1 & m2 & c1 & c2 & l & text & H1 & H2 & Hf1 & Hf2 & _ & Hi2 & _).
  - reflexivity.
  - reflexivity.
  - reflexivity.
  - intros l its text. reflexivity.
  - exists m1, m2, c1, c2. split; [exact H1|]. split; [exact H2|].
    split; [exact Hf1|]. split; [exact Hf2|exact Hi2].
Defined.

(** A second i while the refresh runs does nothing. *)
Lemma refresh_is_not_reentrant_witness :
  Update (set_refreshing true (Demo.start (Demo.browsing [Demo.discussion])))
         Demo.world0 (KeyMsg "i")
  = Return (set_refreshing true (Demo.start (Demo.browsing [Demo.discussion])))
           Demo.world0 CmdNil.
Proof.
  destruct (refresh_is_not_reentrant (Demo.start (Demo.browsing [Demo.discussion]))
              Demo.world0 (fun _ => Ok [Demo.single]))
    as (_ & H & _).
  - reflexivity.
  - reflexivity.
  - reflexivity.
  - reflexivity.
  - exact H.
Defined.

(** On a full disk the quote of a comment leaves an empty file. *)
Lemma failed_write_leaves_temp_file_witness :
  exists m' w' path,
    startEditorForAction (Demo.start (Demo.options [Demo.single] Demo.resolved Demo.posted))
                         Demo.diskFull Demo.single 3
      = Return m' w'
          (CmdStatus "Failed to write temp file: no space left on device")
    /\ files w' !! path = Some ""
    /\ pendingEditorTmpFile m' = "".
Proof.
  apply (failed_write_leaves_temp_file
           (Demo.start (Demo.options [Demo.single] Demo.resolved Demo.posted))
           Demo.diskFull Demo.single 3 CbQuotePrepare Demo.quote
           "> please rename this" "no space left on device"); reflexivity.
Defined.

(** The draft of a quote session survives an editor error and is posted
    when the next editor exits. *)
Lemma stale_session_completes_later_witness :
  exists m1 c1 m2 w2 c2,
    Update (Demo.quoteSession (Demo.options [Demo.single] Demo.resolved Demo.posted))
           (Demo.edited "draft") (editorFinishedMsg (Some "exit status 1"))
      = Return m1 (Demo.edited "draft") c1
    /\ Update m1 (Demo.edited "draft") (editorFinishedMsg None) = Return m2 w2 c2
    /\ length (trace w2) = 1%nat
    /\ files w2 !! Demo.tmpPath = None.
Proof.
  destruct (stale_session_completes_later
              (Demo.quoteSession (Demo.options [Demo.single] Demo.resolved Demo.posted))
              (Demo.edited "draft") "exit status 1" "draft" CbQuoteComplete Demo.posted)
    as (m1 & c1 & m2 & w2 & c2 & H1 & _ & H2 & Htrace & Hfile).
  - discriminate.
  - reflexivity.
  - discriminate.
  - reflexivity.
  - exists m1, c1, m2, w2, c2. split; [exact H1|]. split; [exact H2|].
    split; [rewrite Htrace; reflexivity|exact Hfile].
Defined.

(** An agent setting that is one no-break space has no field:
    [launchAgent] panics on it. *)
Lemma launchAgent_prompt_is_last_argument_witness :
  launchAgent Demo.blankAgent "address this comment" = None.
Proof.
  apply (proj1 (launchAgent_prompt_is_last_argument Demo.blankAgent "address this comment")).
  split; [discriminate|reflexivity].
Defined.

(** The prompt of the agent action reaches claude whole. *)
Lemma agent_prompt_round_trip_witness :
  exists m' w',
    runAgentAction (fun _ => Ok "LAUNCH_AGENT:address this comment")
                   (Demo.detailOf (Demo.bare [Demo.single])) Demo.world0 Demo.single true
      = Return m' w' (CmdExecAgent ["claude"; "address this comment"])
    /\ showDetail m' = false.
Proof.
  destruct (agent_prompt_round_trip (fun _ : Demo.Comment => Ok "LAUNCH_AGENT:address this comment")
              (Demo.detailOf (Demo.bare [Demo.single])) Demo.world0 Demo.single true
              "address this comment")
    as (m' & w' & argv & Hrun & _ & Hdetail).
  - reflexivity.
  - left. reflexivity.
  - exists m', w'. split; [|exact Hdetail].
    rewrite Hrun. f_equal. vm_compute in Hrun. injection Hrun as _ _ <-. reflexivity.
Defined.

(** The edit action of cmd/browse.go opens the file it names. *)
Lemma edit_file_round_trip_witness :
  exists w',
    editKey (Demo.start (Demo.browsing [Demo.single])) Demo.world0 false
    = Return (Demo.start (Demo.browsing [Demo.single])) w'
             (CmdExecEditor ["vim"; "+42"; "cmd/browse.go"]).
Proof.
  destruct (edit_file_round_trip (fun _ : Demo.Comment => Ok "EDIT_FILE:cmd/browse.go:42")
              (Demo.start (Demo.browsing [Demo.single])) Demo.world0 Demo.single false
              "cmd/browse.go" "42")
    as (w' & Hrun & _).
  - reflexivity.
  - reflexivity.
  - reflexivity.
  - reflexivity.
  - exists w'. exact Hrun.
Defined.

(** Two lines quoted. *)
Lemma FormatBlockquote_lines_witness :
  SplitLines (FormatBlockquote (JoinLines ["Before"; "After"])) = ["> Before"; "> After"].
Proof.
  exact (proj1 (FormatBlockquote_lines (JoinLines ["Before"; "After"])
                  ltac:(discriminate))).
Defined.

(** Q twice on a discussion, x, then q and one more key: the reaction
    index is still the first. *)
Lemma Update_never_panics_witness :
  exists m' w' c,
    handleAll (initialModel (Demo.options [Demo.discussion] Demo.resolved Demo.posted))
              Demo.world0
              [KeyMsg "Q"; KeyMsg "Q"; KeyMsg "x"; KeyMsg "q"; KeyMsg "x"]
    = Return m' w' c
    /\ 0 <= reactionIdx m' < 8.
Proof.
  pose proof (Update_never_panics
                (Demo.options [Demo.discussion] Demo.resolved Demo.posted) Demo.world0
                [KeyMsg "Q"; KeyMsg "Q"; KeyMsg "x"; KeyMsg "q"; KeyMsg "x"]
                (or_introl eq_refl)) as H.
  destruct (handleAll _ _ _) as [m' w' c|]; [|destruct H].
  exists m', w', c. split; [reflexivity|apply H].
Defined.

(** A list six columns wide and a title of three bytes. *)
Lemma Render_truncation_witness : renderLine 6 "abc" "" = None.
Proof.
  apply (proj1 (Render_truncation 6 "abc" "" ltac:(lia))).
  split; [lia|]. left. reflexivity.
Defined.

(** Two comments on line 42 and a later one on line 7. *)
Lemma buildCommentTree_not_stable_witness :
  Browse.commentsUnder "cmd/browse.go"
    (Browse.buildCommentTree [BrowseDemo.review; BrowseDemo.again; BrowseDemo.above])
  = [BrowseDemo.above; BrowseDemo.again; BrowseDemo.review].
Proof.
  exact (buildCommentTree_not_stable BrowseDemo.review BrowseDemo.again BrowseDemo.above
           eq_refl eq_refl eq_refl eq_refl).
Defined.

(** The first reply of the demo thread. *)
Lemma picked_comment_is_acted_on_witness :
  Browse.reactionAction (Browse.WithSelectedComment BrowseDemo.item 1) = Some (Ok 11)
  /\ Browse.ThreadCommentPreview (fun text => text) BrowseDemo.item 1 = Some "@bob: done".
Proof.
  destruct (picked_comment_is_acted_on (fun _ hunk => hunk) (fun body => body)
              (fun text => text) BrowseDemo.item BrowseDemo.review 1 false eq_refl)
    as (id & author & body & Hnth & Hpreview & Hreact & _).
  - discriminate.
  - vm_compute. reflexivity.
  - vm_compute. split; [discriminate|reflexivity].
  - injection Hnth as <- <- <-. split; [exact Hreact|exact Hpreview].
Defined.

(** Index -1. *)
Lemma ThreadCommentPreview_bound_witness :
  Browse.ThreadCommentPreview (fun text => text) BrowseDemo.item (-1) = None.
Proof.
  apply (proj1 (ThreadCommentPreview_bound (fun text => text) BrowseDemo.item (-1)
                  ltac:(lia))).
  split; [discriminate|lia].
Defined.

(** The preview line of the demo comment. *)
Lemma previewTitle_length_witness :
  exists text,
    Browse.previewTitle (fun body => body) BrowseDemo.item = Some text
    /\ (String.length text <= 83)%nat.
Proof.
  destruct (previewTitle_length (fun body => body) BrowseDemo.item BrowseDemo.review
              eq_refl)
    as (first & rest & text & _ & Htitle & _ & _ & Hbound).
  exists text. split; [exact Htitle|exact Hbound].
Defined.

(** Enter on the first reply: the reaction is for comment 11. *)
Lemma reaction_goes_to_picked_comment_witness :
  exists m' w' c,
    Update BrowseDemo.pickingReply BrowseDemo.world0 (KeyMsg "enter") = Return m' w' c
    /\ reactionCommentID m' = 11.
Proof.
  assert (Hpick : picking BrowseDemo.options "x" BrowseDemo.item 1 false
                    BrowseDemo.pickingReply).
  { unfold picking, BrowseDemo.pickingReply. repeat apply conj; reflexivity. }
  destruct (reaction_goes_to_picked_comment BrowseDemo.options BrowseDemo.item
              BrowseDemo.review 1 false BrowseDemo.pickingReply BrowseDemo.world0
              (fun it => default (Err "panic") (Browse.reactionAction it))
              Hpick eq_refl eq_refl)
    as (m' & w' & c & id & author & body & Hupd & Hnth & _ & Hid & _).
  - intros it r ->. reflexivity.
  - reflexivity.
  - discriminate.
  - vm_compute. reflexivity.
  - vm_compute. split; [discriminate|reflexivity].
  - injection Hnth as <- <- <-. exists m', w', c. split; [exact Hupd|exact Hid].
Defined.

(** q in the list view. *)
Lemma interactive_browse_opens_nothing_witness :
  Select BrowseDemo.options BrowseDemo.world0 None [KeyMsg "x"; KeyMsg "q"]
  = Some ErrNoSelection
  /\ Browse.afterSelect ErrNoSelection = Browse.ReturnNil.
Proof.
  assert (H : Select BrowseDemo.options BrowseDemo.world0 None [KeyMsg "x"; KeyMsg "q"]
              = Some ErrNoSelection) by (vm_compute; reflexivity).
  split; [exact H|].
  destruct (interactive_browse_opens_nothing BrowseDemo.options BrowseDemo.world0 None
              [KeyMsg "x"; KeyMsg "q"] ErrNoSelection H) as [Hnil|[e He]].
  - exact Hnil.
  - discriminate He.
Defined.

(** Q on a comment without replies starts the editor at once. *)
Lemma short_thread_never_picks_witness :
  match Update (Demo.start (Demo.options [Demo.single] Demo.resolved Demo.posted))
               Demo.world0 (KeyMsg "Q") with
  | Return m' w' _ => commentSelectMode m' = false /\ length (trace w') = 1%nat
  | Panic _ => False
  end.
Proof.
  pose proof (short_thread_never_picks
                (Demo.start (Demo.options [Demo.single] Demo.resolved Demo.posted))
                Demo.world0 "Q" Demo.single (or_introl eq_refl) eq_refl eq_refl eq_refl
                ltac:(vm_compute; discriminate)) as H.
  destruct (Update _ _ _) as [m' w' c|what] eqn:Hupd; [|vm_compute in Hupd; discriminate].
  destruct H as [Hpick _]. split; [exact Hpick|].
  vm_compute in Hupd. injection Hupd as _ <- _. reflexivity.
Defined.

(** Q on a comment without replies runs the quote preparer at once, on
    the comment. *)
Lemma short_thread_acts_directly_witness :
  acts CbQuotePrepare false Demo.single Demo.world0
       (Update (Demo.start (Demo.options [Demo.single] Demo.resolved Demo.posted))
               Demo.world0 (KeyMsg "Q")).
Proof.
  exact (short_thread_acts_directly
           (Demo.start (Demo.options [Demo.single] Demo.resolved Demo.posted))
           Demo.world0 "Q" Demo.single (or_introl eq_refl) eq_refl eq_refl eq_refl
           ltac:(vm_compute; discriminate) (or_introl eq_refl)).
Defined.

(** A resolve that fails with HTTP 502, pressed in the detail view. *)
Lemma detail_resolve_goes_back_to_list_witness :
  exists m' w',
    Update (Demo.detailOf (Demo.options [Demo.single] Demo.failing Demo.posted))
           Demo.world0 (KeyMsg "r")
      = Return m' w' (CmdStatus "HTTP 502")
    /\ mode_of m' = Normal.
Proof.
  destruct (detail_resolve_goes_back_to_list
              (Demo.detailOf (Demo.options [Demo.single] Demo.failing Demo.posted))
              Demo.world0 "r" Demo.single eq_refl eq_refl eq_refl eq_refl eq_refl)
    as (m' & w' & c & Hupd & Hmode & Hfails & _).
  exists m', w'. split; [|exact Hmode].
  rewrite Hupd. f_equal. apply (Hfails Demo.failing "HTTP 502"); reflexivity.
Defined.
